(** * Dashboard reconciliation ([databricks.labs.ucx.framework.dashboards])

    A shallow embedding of [dashboards.py]: the [SimpleQuery] value object,
    the magic-comment loader, the viz and widget argument builders and the
    [DashboardFromFiles] reconciler, whose methods run in a state-and-exception
    monad over the instance's mutable fields, the remote workspace and the
    trace of remote calls.  The theorems at the end state what the module
    guarantees about state loading and saving, idempotence, definition errors
    and widget positions. *)

From Stdlib Require Import String Ascii List ZArith Bool Arith Lia.
From Stdlib Require Import DecimalString.
Import ListNotations.
Open Scope string_scope.

(** ** Python string primitives used by the module *)

Module PyStr.

(** [s.startswith(p)] *)
Definition startswith (p s : string) : bool := String.prefix p s.

(** Length of the line boundary at the head of [s], [0] when there is none.
    [str.splitlines] breaks on LF, CR, CRLF, VT, FF, FS, GS, RS, NEL and
    the Unicode line and paragraph separators; text is held as its UTF-8
    bytes, so the last three are two or three bytes long. *)
Definition linebreak_len (s : string) : nat :=
  match s with
  | String c rest =>
      let n := nat_of_ascii c in
      if Nat.eqb n 13 then
        match rest with
        | String d _ => if Nat.eqb (nat_of_ascii d) 10 then 2 else 1
        | EmptyString => 1
        end
      else if Nat.eqb n 10 || Nat.eqb n 11 || Nat.eqb n 12
              || Nat.eqb n 28 || Nat.eqb n 29 || Nat.eqb n 30 then 1
      else if Nat.eqb n 194 then
        match rest with
        | String d _ => if Nat.eqb (nat_of_ascii d) 133 then 2 else 0
        | EmptyString => 0
        end
      else if Nat.eqb n 226 then
        match rest with
        | String d (String e _) =>
            if Nat.eqb (nat_of_ascii d) 128
               && (Nat.eqb (nat_of_ascii e) 168 || Nat.eqb (nat_of_ascii e) 169)
            then 3 else 0
        | _ => 0
        end
      else 0
  | EmptyString => 0
  end.

(** [s.splitlines()]; [skip] counts the bytes of a boundary still to drop. *)
Fixpoint splitlines_go (skip : nat) (s : string) : list string :=
  match s with
  | EmptyString => []
  | String c s' =>
      match skip with
      | S k => splitlines_go k s'
      | O =>
          match linebreak_len s with
          | S k => "" :: splitlines_go k s'
          | O =>
              match splitlines_go 0 s' with
              | [] => [String c ""]
              | h :: t => String c h :: t
              end
          end
      end
  end.

Definition splitlines (s : string) : list string := splitlines_go 0 s.

(** [s.split(sep)] for a non-empty separator. *)
Fixpoint split_go (sep : string) (skip : nat) (s : string) : list string :=
  match s with
  | EmptyString => [""]
  | String c s' =>
      match skip with
      | S k => split_go sep k s'
      | O =>
          if String.prefix sep s
          then "" :: split_go sep (String.length sep - 1) s'
          else match split_go sep 0 s' with
               | [] => [String c ""]
               | h :: t => String c h :: t
               end
      end
  end.

Definition split (sep s : string) : list string := split_go sep 0 s.

(** [s.replace(old, new)] for a non-empty [old]. *)
Fixpoint replace_go (old new : string) (skip : nat) (s : string) : string :=
  match s with
  | EmptyString => ""
  | String c s' =>
      match skip with
      | S k => replace_go old new k s'
      | O =>
          if String.prefix old s
          then new ++ replace_go old new (String.length old - 1) s'
          else String c (replace_go old new 0 s')
      end
  end.

Definition replace (old new s : string) : string := replace_go old new 0 s.

Definition is_upper (c : ascii) : bool :=
  let n := nat_of_ascii c in Nat.leb 65 n && Nat.leb n 90.
Definition is_lower (c : ascii) : bool :=
  let n := nat_of_ascii c in Nat.leb 97 n && Nat.leb n 122.
Definition to_lower (c : ascii) : ascii :=
  if is_upper c then ascii_of_nat (nat_of_ascii c + 32) else c.
Definition to_upper (c : ascii) : ascii :=
  if is_lower c then ascii_of_nat (nat_of_ascii c - 32) else c.

(** [s.lower()], on ASCII letters. *)
Fixpoint lower (s : string) : string :=
  match s with
  | EmptyString => ""
  | String c s' => String (to_lower c) (lower s')
  end.

(** [s.title()], on ASCII letters: a letter that follows a cased letter is
    lower-cased, any other letter is upper-cased. *)
Fixpoint title_go (prev_cased : bool) (s : string) : string :=
  match s with
  | EmptyString => ""
  | String c s' =>
      if is_lower c then
        String (if prev_cased then c else to_upper c) (title_go true s')
      else if is_upper c then
        String (if prev_cased then to_lower c else c) (title_go true s')
      else String c (title_go false s')
  end.

Definition title (s : string) : string := title_go false s.

Definition is_space (c : ascii) : bool :=
  let n := nat_of_ascii c in
  Nat.eqb n 32 || (Nat.leb 9 n && Nat.leb n 13).

Fixpoint lstrip (l : list ascii) : list ascii :=
  match l with
  | c :: l' => if is_space c then lstrip l' else l
  | [] => []
  end.

Definition strip (l : list ascii) : list ascii :=
  rev (lstrip (rev (lstrip l))).

Definition digit (c : ascii) : option Z :=
  let n := nat_of_ascii c in
  if Nat.leb 48 n && Nat.leb n 57 then Some (Z.of_nat (n - 48)) else None.

(** Decimal digits, single underscores allowed between two digits. *)
Fixpoint digits (l : list ascii) (acc : Z) (prev_digit : bool) : option Z :=
  match l with
  | [] => if prev_digit then Some acc else None
  | c :: l' =>
      match digit c with
      | Some d => digits l' (10 * acc + d) true
      | None =>
          if Ascii.eqb c "_" && prev_digit then digits l' acc false else None
      end
  end.

(** [int(s)] in base 10 on ASCII input; [None] stands for [ValueError]. *)
Definition int (s : string) : option Z :=
  match strip (list_ascii_of_string s) with
  | c :: l =>
      if Ascii.eqb c "-" then option_map Z.opp (digits l 0 false)
      else if Ascii.eqb c "+" then digits l 0 false
      else digits (c :: l) 0 false
  | [] => None
  end.

(** Position of the last ["."] of [s]. *)
Fixpoint rfind_dot (s : string) : option nat :=
  match s with
  | EmptyString => None
  | String c s' =>
      match rfind_dot s' with
      | Some i => Some (S i)
      | None => if Ascii.eqb c "." then Some 0 else None
      end
  end.

(** [Path(name).stem]: the final component without its last suffix. *)
Definition stem (name : string) : string :=
  match rfind_dot name with
  | Some i =>
      if Nat.ltb 0 i && Nat.ltb i (String.length name - 1)
      then String.substring 0 i name else name
  | None => name
  end.

End PyStr.

(** ** Python dictionaries: insertion-ordered, one entry per key *)

Module Dict.

Definition dict (V : Type) : Type := list (string * V).

Fixpoint get {V} (k : string) (d : dict V) : option V :=
  match d with
  | [] => None
  | (k', v) :: d' => if String.eqb k k' then Some v else get k d'
  end.

(** [k in d] *)
Definition mem {V} (k : string) (d : dict V) : bool :=
  match get k d with Some _ => true | None => false end.

(** [d[k] = v]: an existing key keeps its position. *)
Fixpoint set {V} (k : string) (v : V) (d : dict V) : dict V :=
  match d with
  | [] => [(k, v)]
  | (k', v') :: d' =>
      if String.eqb k k' then (k', v) :: d' else (k', v') :: set k v d'
  end.

(** [del d[k]] for a key of [d]. *)
Fixpoint del {V} (k : string) (d : dict V) : dict V :=
  match d with
  | [] => []
  | (k', v') :: d' => if String.eqb k k' then d' else (k', v') :: del k d'
  end.

(** [dict(pairs)]: later pairs overwrite earlier ones. *)
Definition of_pairs {V} (l : list (string * V)) : dict V :=
  fold_left (fun d kv => set (fst kv) (snd kv) d) l [].

Definition keys {V} (d : dict V) : list string := map fst d.

(** The invariant of a Python dictionary. *)
Definition wf {V} (d : dict V) : Prop := NoDup (keys d).

End Dict.

(** [k in l] for a list of strings. *)
Definition str_in (k : string) (l : list string) : bool :=
  existsb (String.eqb k) l.


(** ** Exceptions and results *)

Inductive exn : Type :=
| DatabricksError (error_code : string)
| JSONDecodeError
| SyntaxError (msg : string)
| ValueError (msg : string)
| TypeError (msg : string)
| KeyError (key : string)
| StopIteration
| AssertionError (msg : string) (cause : exn).

(** [str(err)], as used when an error is wrapped into another message. *)
Definition exn_str (e : exn) : string :=
  match e with
  | DatabricksError code => code
  | JSONDecodeError => "JSONDecodeError"
  | SyntaxError msg | ValueError msg | TypeError msg => msg
  | KeyError key => "'" ++ key ++ "'"
  | StopIteration => ""
  | AssertionError msg _ => msg
  end.

Inductive outcome (A : Type) : Type :=
| Return (a : A)
| Raise (e : exn).
Arguments Return {A} a.
Arguments Raise {A} e.

(** The one-character string holding a double quote. *)
Definition dquote : string := String (ascii_of_nat 34) EmptyString.

Definition str_of_nat (n : nat) : string :=
  NilZero.string_of_uint (Nat.to_uint n).
Definition str_of_Z (z : Z) : string :=
  NilZero.string_of_int (Z.to_int z).

(** ** Values handed to the remote service *)

Inductive pyval : Type :=
| PyStr (s : string)
| PyInt (z : Z)
| PyBool (b : bool)
| PyNone.

Inductive RunAsRole : Type := VIEWER.
Inductive ObjectTypePlural : Type := DASHBOARDS | QUERIES.
Inductive PermissionLevel : Type := CAN_VIEW | CAN_RUN.
Inductive ImportFormat : Type := AUTO.

Record AccessControl : Type := {
  group_name : string;
  permission_level : PermissionLevel
}.

Record WidgetPosition : Type := {
  col : Z;
  row : Z;
  size_x : Z;
  size_y : Z
}.

Record WidgetOptions : Type := {
  title : string;
  description : option string;
  position : WidgetPosition
}.

(** ** [SimpleQuery] *)

Record SimpleQuery : Type := {
  dashboard_ref : string;
  name : string;
  query : string;
  viz : Dict.dict string;
  widget : Dict.dict string
}.

Definition query_key (q : SimpleQuery) : string :=
  dashboard_ref q ++ "_" ++ name q ++ ":query_id".

Definition viz_key (q : SimpleQuery) : string :=
  dashboard_ref q ++ "_" ++ name q ++ ":viz_id".

Definition widget_key (q : SimpleQuery) : string :=
  dashboard_ref q ++ "_" ++ name q ++ ":widget_id".

(** [self.viz.get("type", None)] *)
Definition viz_type (q : SimpleQuery) : option string :=
  Dict.get "type" (viz q).

(** [{k: v for k, v in self.viz.items() if k not in ["type"]}] *)
Definition viz_args (q : SimpleQuery) : Dict.dict string :=
  filter (fun kv => negb (str_in (fst kv) ["type"])) (viz q).

(** The key of a dashboard in the state, [f"{dashboard_ref}:dashboard_id"]. *)
Definition dashboard_key (ref : string) : string := ref ++ ":dashboard_id".

(** ** [VizColumn] *)

Module VizColumn.
Record t : Type := {
  name : string;
  title : string;
  type : string;
  imageUrlTemplate : string;
  imageTitleTemplate : string;
  linkUrlTemplate : string;
  linkTextTemplate : string;
  linkTitleTemplate : string;
  linkOpenInNewTab : bool;
  displayAs : string;
  visible : bool;
  order : Z;
  allowSearch : bool;
  alignContent : string;
  allowHTML : bool;
  highlightLinks : bool;
  useMonospaceFont : bool;
  preserveWhitespace : bool
}.

(** [VizColumn(name=x, title=y)] with the dataclass defaults. *)
Definition make (x y : string) : t :=
  {| name := x; title := y; type := "string";
     imageUrlTemplate := "{{ @ }}"; imageTitleTemplate := "{{ @ }}";
     linkUrlTemplate := "{{ @ }}"; linkTextTemplate := "{{ @ }}";
     linkTitleTemplate := "{{ @ }}"; linkOpenInNewTab := true;
     displayAs := "string"; visible := true; order := 100000;
     allowSearch := false; alignContent := "left"; allowHTML := false;
     highlightLinks := false; useMonospaceFont := false;
     preserveWhitespace := false |}.

(** [dataclasses.asdict] keeps every field; the record stands for it. *)
Definition as_dict (c : t) : t := c.
End VizColumn.

(** ** Viz argument builders *)

Inductive VizOptions : Type :=
| TableOptions (itemsPerPage condensed withRowNumber : pyval) (version : Z)
    (columns : list VizColumn.t)
| CounterOptions (counterLabel counterColName rowNumber targetRowNumber
    stringDecimal stringDecChar stringThouSep tooltipFormat countRow : pyval).

(** The dictionary a builder returns: ["type"], ["name"], ["description"] and
    ["options"]. *)
Record VizArgs : Type := {
  va_type : string;
  va_name : string;
  va_description : pyval;
  va_options : VizOptions
}.

(** A keyword argument, or its default when the caller gave none. *)
Definition kwarg (k : string) (default : pyval) (kwargs : Dict.dict string)
  : pyval :=
  match Dict.get k kwargs with
  | Some s => PyStr s
  | None => default
  end.

Fixpoint quoted_names (l : list string) : string :=
  match l with
  | [] => ""
  | [a] => "'" ++ a ++ "'"
  | [a; b] => "'" ++ a ++ "' and '" ++ b ++ "'"
  | a :: l' => "'" ++ a ++ "', " ++ quoted_names l'
  end.

(** Binding [**kwargs] to a signature: an unexpected keyword is reported
    first, then the required parameters that are missing. *)
Definition bind_kwargs (fname : string) (required optional : list string)
    (kwargs : Dict.dict string) : outcome unit :=
  match find (fun kv => negb (str_in (fst kv) (required ++ optional))) kwargs with
  | Some (k, _) =>
      Raise (TypeError (fname ++ "() got an unexpected keyword argument '"
                        ++ k ++ "'"))
  | None =>
      match filter (fun p => negb (Dict.mem p kwargs)) required with
      | [] => Return tt
      | missing =>
          Raise (TypeError
                   (fname ++ "() missing " ++ str_of_nat (length missing)
                    ++ " required positional argument"
                    ++ (if Nat.eqb (length missing) 1 then "" else "s")
                    ++ ": " ++ quoted_names missing))
      end
  end.

Definition _table_viz_args (kwargs : Dict.dict string) : outcome VizArgs :=
  match bind_kwargs "DashboardFromFiles._table_viz_args"
          ["name"; "columns"]
          ["items_per_page"; "condensed"; "with_row_number"; "description"]
          kwargs with
  | Raise e => Raise e
  | Return _ =>
      match Dict.get "name" kwargs, Dict.get "columns" kwargs with
      | Some name, Some columns =>
          Return
            {| va_type := "TABLE";
               va_name := name;
               va_description := kwarg "description" PyNone kwargs;
               va_options :=
                 TableOptions
                   (kwarg "items_per_page" (PyInt 25) kwargs)
                   (kwarg "condensed" (PyBool true) kwargs)
                   (kwarg "with_row_number" (PyBool false) kwargs)
                   2
                   (map (fun x => VizColumn.as_dict (VizColumn.make x x))
                        (PyStr.split "," columns)) |}
      | _, _ =>
          Raise (TypeError "DashboardFromFiles._table_viz_args() missing arguments")
      end
  end.

Definition _counter_viz_args (kwargs : Dict.dict string) : outcome VizArgs :=
  match bind_kwargs "DashboardFromFiles._counter_viz_args"
          ["name"; "value_column"]
          ["description"; "counter_label"; "value_row_number";
           "target_row_number"; "string_decimal"; "string_decimal_char";
           "string_thousand_separator"; "tooltip_format"; "count_row"]
          kwargs with
  | Raise e => Raise e
  | Return _ =>
      match Dict.get "name" kwargs, Dict.get "value_column" kwargs with
      | Some name, Some value_column =>
          Return
            {| va_type := "COUNTER";
               va_name := name;
               va_description := kwarg "description" PyNone kwargs;
               va_options :=
                 CounterOptions
                   (kwarg "counter_label" PyNone kwargs)
                   (PyStr value_column)
                   (kwarg "value_row_number" (PyInt 1) kwargs)
                   (kwarg "target_row_number" (PyInt 1) kwargs)
                   (kwarg "string_decimal" (PyInt 0) kwargs)
                   (kwarg "string_decimal_char" (PyStr ".") kwargs)
                   (kwarg "string_thousand_separator" (PyStr ",") kwargs)
                   (kwarg "tooltip_format" (PyStr "0,0.000") kwargs)
                   (kwarg "count_row" (PyBool false) kwargs) |}
      | _, _ =>
          Raise (TypeError "DashboardFromFiles._counter_viz_args() missing arguments")
      end
  end.

(** [str(x)] of an optional string, [None] printing as ["None"]. *)
Definition str_of_opt (o : option string) : string :=
  match o with Some s => s | None => "None" end.

(** The [viz_types] table of [_get_viz_options]. *)
Definition viz_types : Dict.dict (Dict.dict string -> outcome VizArgs) :=
  [("table", _table_viz_args); ("counter", _counter_viz_args)].

(** [query.viz_type in viz_types] *)
Definition known_viz_type (q : SimpleQuery) : bool :=
  match viz_type q with
  | Some t => Dict.mem t viz_types
  | None => false
  end.

Definition _get_viz_options (q : SimpleQuery) : outcome VizArgs :=
  let unknown :=
    SyntaxError (query q ++ ": unknown viz type: " ++ str_of_opt (viz_type q)) in
  match viz_type q with
  | Some t =>
      match Dict.get t viz_types with
      | Some builder => builder (viz_args q)
      | None => Raise unknown
      end
  | None => Raise unknown
  end.

(** ** Widget options *)

(** [int(d.get(k, default))] *)
Definition int_attr (k : string) (default : Z) (d : Dict.dict string)
  : outcome Z :=
  match Dict.get k d with
  | None => Return default
  | Some s =>
      match PyStr.int s with
      | Some z => Return z
      | None =>
          Raise (ValueError ("invalid literal for int() with base 10: '"
                             ++ s ++ "'"))
      end
  end.

(** The [WidgetOptions] built by [_get_widget_options] once [_pos] has been
    incremented to [pos]. *)
Definition widget_options_at (pos : Z) (q : SimpleQuery) : outcome WidgetOptions :=
  match int_attr "col" 0 (widget q) with
  | Raise e => Raise e
  | Return c =>
  match int_attr "row" pos (widget q) with
  | Raise e => Raise e
  | Return r =>
  match int_attr "size_x" 3 (widget q) with
  | Raise e => Raise e
  | Return sx =>
  match int_attr "size_y" 3 (widget q) with
  | Raise e => Raise e
  | Return sy =>
      Return
        {| title := match Dict.get "title" (widget q) with
                    | Some t => t
                    | None => ""
                    end;
           description := Dict.get "description" (widget q);
           position := {| col := c; row := r; size_x := sx; size_y := sy |} |}
  end end end end.

(** ** The magic-comment loader *)

(** [dict(_.split("=") for _ in parts)]: every part has to split in two. *)
Fixpoint dict_of_parts (i : nat) (parts : list string) (acc : Dict.dict string)
  : outcome (Dict.dict string) :=
  match parts with
  | [] => Return acc
  | p :: parts' =>
      match PyStr.split "=" p with
      | [k; v] => dict_of_parts (S i) parts' (Dict.set k v acc)
      | kv =>
          Raise (ValueError
                   ("dictionary update sequence element #" ++ str_of_nat i
                    ++ " has length " ++ str_of_nat (length kv)
                    ++ "; 2 is required"))
      end
  end.

(** [next(_ for _ in lines if _.startswith(magic_comment))], with no default:
    an exhausted generator raises [StopIteration]. *)
Definition next_startswith (magic_comment : string) (lines : list string)
  : outcome string :=
  match find (PyStr.startswith magic_comment) lines with
  | Some l => Return l
  | None => Raise StopIteration
  end.

Definition _parse_magic_comment (f magic_comment text : string)
  : outcome (Dict.dict string) :=
  match next_startswith magic_comment (PyStr.splitlines text) with
  | Raise e => Raise e
  | Return viz_comment =>
      if String.eqb viz_comment ""
      then Raise (SyntaxError (f ++ ": cannot find " ++ dquote ++ magic_comment
                               ++ dquote ++ " magic comment"))
      else dict_of_parts 0
             (PyStr.split ", " (PyStr.replace magic_comment "" viz_comment)) []
  end.

(** ** The remote workspace client *)

Record QueryMeta : Type := {
  data_source_id : string;
  meta_name : string;
  meta_query : string
}.

Section Calls.

Variable bytes : Type.

(** One constructor per method of [WorkspaceClient] that the module calls. *)
Inductive call : Type :=
| workspace_download (path : string)
| workspace_mkdirs (path : string)
| workspace_get_status (path : string)
| workspace_upload (path : string) (content : bytes) (format : ImportFormat)
    (overwrite : bool)
| queries_get (query_id : string)
| queries_create (parent : string) (run_as_role : RunAsRole) (meta : QueryMeta)
| queries_update (query_id : string) (meta : QueryMeta)
| queries_delete (query_id : string)
| query_visualizations_create (query_id : string) (args : VizArgs)
| query_visualizations_update (viz_id : string) (args : VizArgs)
| query_visualizations_delete (viz_id : string)
| dashboard_widgets_create (dashboard_id : string) (options : WidgetOptions)
    (width : Z) (visualization_id : string)
| dashboard_widgets_delete (widget_id : string)
| dashboards_get (dashboard_id : string)
| dashboards_create (dashboard_name : string) (run_as_role : RunAsRole)
    (parent : string)
| dbsql_permissions_set (object_type : ObjectTypePlural) (object_id : string)
    (access_control_list : list AccessControl)
| data_sources_list
| warehouses_list.

(** What a successful call returns: the blob, the [object_id] of a folder,
    the [id] of a created object, the widget ids of a dashboard, the
    [(warehouse_id, id)] pairs of the data sources, the warehouse ids. *)
Definition reply (c : call) : Type :=
  match c with
  | workspace_download _ => bytes
  | workspace_get_status _ => string
  | queries_create _ _ _ => string
  | query_visualizations_create _ _ => string
  | dashboard_widgets_create _ _ _ _ => string
  | dashboards_create _ _ _ => string
  | dashboards_get _ => list string
  | data_sources_list => list (string * string)
  | warehouses_list => list string
  | _ => unit
  end.

(** A call answers or fails with a [DatabricksError] carrying [error_code]. *)
Inductive response (A : Type) : Type :=
| Ok (a : A)
| Failed (error_code : string).

(** A call in the trace, with the error code when it failed. *)
Definition event : Type := (call * option string)%type.

End Calls.

Arguments Ok {A} a.
Arguments Failed {A} error_code.
Arguments workspace_download {bytes}.
Arguments workspace_mkdirs {bytes}.
Arguments workspace_get_status {bytes}.
Arguments workspace_upload {bytes}.
Arguments queries_get {bytes}.
Arguments queries_create {bytes}.
Arguments queries_update {bytes}.
Arguments queries_delete {bytes}.
Arguments query_visualizations_create {bytes}.
Arguments query_visualizations_update {bytes}.
Arguments query_visualizations_delete {bytes}.
Arguments dashboard_widgets_create {bytes}.
Arguments dashboard_widgets_delete {bytes}.
Arguments dashboards_get {bytes}.
Arguments dashboards_create {bytes}.
Arguments dbsql_permissions_set {bytes}.
Arguments data_sources_list {bytes}.
Arguments warehouses_list {bytes}.
Arguments reply {bytes} c.

(** The environment a [DashboardFromFiles] runs against: the workspace with
    its own state, and the JSON codec of the state blob.  [json_load] is
    [None] where [json.load] raises [JSONDecodeError]; it yields the pairs of
    the decoded object in document order.  A blob that is not UTF-8 text, or
    that decodes to something else than an object of strings, has no
    counterpart: [json.load] then raises [UnicodeDecodeError], or the sweep
    raises [AttributeError] on [items], and neither is an outcome here.  The
    statements about a load that decodes say what the blob decodes to. *)
Record Platform : Type := {
  bytes : Type;
  World : Type;
  json_load : bytes -> option (list (string * string));
  json_dumps : Dict.dict string -> bytes;
  ws : forall c : call bytes, World -> response (reply c) * World
}.

(** ** The local folder of definitions *)

Record SqlFile : Type := {
  file_name : string;
  file_text : string
}.

(** A second-level folder, with its [*.sql] files as [glob] yields them. *)
Record DashboardFolder : Type := {
  dashboard_folder_name : string;
  sql_files : list SqlFile
}.

(** A first-level folder, with its sub-directories as [glob] yields them. *)
Record StepFolder : Type := {
  step_folder_name : string;
  dashboard_folders : list DashboardFolder
}.

Record LocalFolder : Type := {
  local_path : string;
  step_folders : list StepFolder
}.

(** The fields of a [DashboardFromFiles] that never change after [__init__]
    (the client [_ws] is the [Platform]). *)
Record DashboardFromFiles : Type := {
  _local_folder : LocalFolder;
  _remote_folder : string;
  _name_prefix : string;
  _query_text_callback : option (string -> string);
  _warehouse_id : option string
}.

Inductive LogLevel : Type := DEBUG | INFO | WARNING.

(** [step_folder / name] as a string. *)
Definition joinpath (dir name : string) : string := dir ++ "/" ++ name.

(** [f"{step_folder.stem}_{dashboard_folder.stem}".lower()] *)
Definition group_ref (step dash : string) : string :=
  PyStr.lower (PyStr.stem step ++ "_" ++ PyStr.stem dash).

(** [a, b = parts] *)
Definition unpack2 (parts : list string) : outcome (string * string) :=
  match parts with
  | [a; b] => Return (a, b)
  | [] | [_] =>
      Raise (ValueError ("not enough values to unpack (expected 2, got "
                         ++ str_of_nat (length parts) ++ ")"))
  | _ => Raise (ValueError "too many values to unpack (expected 2)")
  end.

(** [_desired_queries] reads no instance state: a function of the folder. *)
Fixpoint desired_queries_of (callback : option (string -> string))
    (folder_path dashboard_ref : string) (files : list SqlFile)
  : outcome (list SimpleQuery) :=
  match files with
  | [] => Return []
  | f :: files' =>
      let text := match callback with
                  | Some cb => cb (file_text f)
                  | None => file_text f
                  end in
      let path := joinpath folder_path (file_name f) in
      match _parse_magic_comment path "-- viz " text with
      | Raise e => Raise e
      | Return viz_attrs =>
      match _parse_magic_comment path "-- widget " text with
      | Raise e => Raise e
      | Return widget_attrs =>
      match desired_queries_of callback folder_path dashboard_ref files' with
      | Raise e => Raise e
      | Return rest =>
          Return ({| dashboard_ref := dashboard_ref;
                     name := file_name f;
                     query := text;
                     viz := viz_attrs;
                     widget := widget_attrs |} :: rest)
      end end end
  end.

(** The keys [_store_query_state] wants to keep. *)
Definition desired_keys_of (queries : Dict.dict (list SimpleQuery))
  : list string :=
  flat_map (fun entry =>
              dashboard_key (fst entry)
              :: flat_map (fun q => [query_key q; viz_key q; widget_key q])
                          (snd entry))
           queries.

(** ** The monad of the reconciler *)

Section Reconciler.

Variable P : Platform.

(** The mutable fields [_state] and [_pos] of the instance, the workspace
    behind the client, the calls made so far and the log records written. *)
Record Sys : Type := {
  _state : Dict.dict string;
  _pos : Z;
  world : World P;
  trace : list (event (bytes P));
  log : list (LogLevel * string)
}.

(** A computation may change the system and then return or raise. *)
Definition M (A : Type) : Type := Sys -> outcome A * Sys.

Definition ret {A} (a : A) : M A := fun s => (Return a, s).

Definition raise {A} (e : exn) : M A := fun s => (Raise e, s).

Definition bind {A B} (m : M A) (k : A -> M B) : M B :=
  fun s =>
    match m s with
    | (Return a, s') => k a s'
    | (Raise e, s') => (Raise e, s')
    end.

Definition lift {A} (o : outcome A) : M A := fun s => (o, s).

Notation "x <- m ;; k" := (bind m (fun x => k))
  (at level 61, m at next level, right associativity).
Notation "m ;; k" := (bind m (fun _ => k))
  (at level 61, right associativity).

(** [try: body except ...: handler]: [handler e] is [None] for an exception
    that no clause catches. *)
Definition try_except {A} (body : M A) (handler : exn -> option (M A)) : M A :=
  fun s =>
    match body s with
    | (Return a, s') => (Return a, s')
    | (Raise e, s') =>
        match handler e with
        | Some h => h s'
        | None => (Raise e, s')
        end
    end.

(** [for x in l: body x] *)
Fixpoint for_each {A} (l : list A) (body : A -> M unit) : M unit :=
  match l with
  | [] => ret tt
  | x :: l' => body x ;; for_each l' body
  end.

(** A loop that threads the local variables [acc] through its iterations. *)
Fixpoint for_fold {A B} (l : list A) (acc : B) (body : B -> A -> M B) : M B :=
  match l with
  | [] => ret acc
  | x :: l' => acc' <- body acc x ;; for_fold l' acc' body
  end.

Definition get_state : M (Dict.dict string) := fun s => (Return (_state s), s).

Definition set_state (d : Dict.dict string) : M unit :=
  fun s => (Return tt,
            {| _state := d; _pos := _pos s; world := world s;
               trace := trace s; log := log s |}).

(** [self._state[k]] *)
Definition state_item (k : string) : M string :=
  fun s =>
    match Dict.get k (_state s) with
    | Some v => (Return v, s)
    | None => (Raise (KeyError k), s)
    end.

(** [self._state[k] = v] *)
Definition state_store (k v : string) : M unit :=
  d <- get_state ;; set_state (Dict.set k v d).

(** [del self._state[k]] *)
Definition state_del (k : string) : M unit :=
  d <- get_state ;;
  if Dict.mem k d then set_state (Dict.del k d) else raise (KeyError k).

(** [self._pos += 1], returning the new value. *)
Definition next_pos : M Z :=
  fun s => (Return (_pos s + 1)%Z,
            {| _state := _state s; _pos := (_pos s + 1)%Z; world := world s;
               trace := trace s; log := log s |}).

Definition logger (level : LogLevel) (msg : string) : M unit :=
  fun s => (Return tt,
            {| _state := _state s; _pos := _pos s; world := world s;
               trace := trace s; log := (log s ++ [(level, msg)])%list |}).

(** A call on [self._ws]: the workspace answers and moves on, the call is
    appended to the trace, a failure surfaces as [DatabricksError]. *)
Definition remote (c : call (bytes P)) : M (reply c) :=
  fun s =>
    match ws P c (world s) with
    | (Ok a, w') =>
        (Return a,
         {| _state := _state s; _pos := _pos s; world := w';
            trace := (trace s ++ [(c, None)])%list; log := log s |})
    | (Failed code, w') =>
        (Raise (DatabricksError code),
         {| _state := _state s; _pos := _pos s; world := w';
            trace := (trace s ++ [(c, Some code)])%list; log := log s |})
    end.

(** ** [DashboardFromFiles] *)

Variable self : DashboardFromFiles.

(** The instance as [__init__] leaves it, in front of workspace [w]. *)
Definition init (w : World P) : Sys :=
  {| _state := []; _pos := 0; world := w; trace := []; log := [] |}.

Definition _query_state : string := _remote_folder self ++ "/state.json".

Definition users_acl (level : PermissionLevel) : list AccessControl :=
  [{| group_name := "users"; permission_level := level |}].

Definition _get_widget_options (q : SimpleQuery) : M WidgetOptions :=
  pos <- next_pos ;;
  lift (widget_options_at pos q).

Definition _install_widget (q : SimpleQuery) (dashboard_ref : string) : M unit :=
  dashboard_id <- state_item (dashboard_key dashboard_ref) ;;
  widget_options <- _get_widget_options q ;;
  visualization_id <- state_item (viz_key q) ;;
  widget_id <- remote (dashboard_widgets_create dashboard_id widget_options 1
                         visualization_id) ;;
  state_store (widget_key q) widget_id.

(** One iteration of the liveness sweep of [_installed_query_state]. *)
Definition sweep_entry (to_remove : list string) (kv : string * string)
  : M (list string) :=
  let k := fst kv in
  let v := snd kv in
  parts <- lift (unpack2 (PyStr.split ":" k)) ;;
  if String.eqb k "dashboard_id" then ret to_remove
  else if negb (String.eqb (snd parts) "query_id") then ret to_remove
  else
    try_except
      (remote (queries_get v) ;; ret to_remove)
      (fun err =>
         match err with
         | DatabricksError _ => Some (ret (to_remove ++ [k])%list)
         | _ => None
         end).

Definition _installed_query_state : M string :=
  try_except
    (content <- remote (workspace_download _query_state) ;;
     match json_load P content with
     | None => raise JSONDecodeError
     | Some pairs =>
         set_state (Dict.of_pairs pairs) ;;
         items <- get_state ;;
         to_remove <- for_fold items [] sweep_entry ;;
         for_each to_remove state_del
     end)
    (fun err =>
       match err with
       | DatabricksError error_code =>
           Some (if negb (String.eqb error_code "RESOURCE_DOES_NOT_EXIST")
                 then raise err
                 else remote (workspace_mkdirs (_remote_folder self)))
       | JSONDecodeError =>
           Some (logger WARNING ("JSON state file corrupt: " ++ _query_state) ;;
                 set_state [])
       | _ => None
       end) ;;
  object_id <- remote (workspace_get_status (_remote_folder self)) ;;
  ret ("folders/" ++ object_id).

(** The [destructors] table of [_store_query_state]. *)
Definition destructors (kind v : string) : option (call (bytes P)) :=
  if String.eqb kind "query_id" then Some (queries_delete v)
  else if String.eqb kind "viz_id" then Some (query_visualizations_delete v)
  else if String.eqb kind "widget_id" then Some (dashboard_widgets_delete v)
  else None.

(** One iteration of the filter of [_store_query_state]. *)
Definition store_entry (desired_keys : list string)
    (new_state : Dict.dict string) (kv : string * string)
  : M (Dict.dict string) :=
  let k := fst kv in
  let v := snd kv in
  if str_in k desired_keys then ret (Dict.set k v new_state)
  else
    parts <- lift (unpack2 (PyStr.split ":" k)) ;;
    match destructors (snd parts) v with
    | None => ret new_state
    | Some destructor =>
        try_except
          (remote destructor ;; ret new_state)
          (fun err =>
             match err with
             | DatabricksError error_code =>
                 Some (logger INFO ("Failed to delete " ++ snd parts ++ "-" ++ v
                                    ++ " --- " ++ error_code) ;;
                       ret new_state)
             | _ => None
             end)
    end.

Definition _store_query_state (queries : Dict.dict (list SimpleQuery)) : M unit :=
  let desired_keys := desired_keys_of queries in
  items <- get_state ;;
  new_state <- for_fold items [] (store_entry desired_keys) ;;
  remote (workspace_upload _query_state (json_dumps P new_state) AUTO true).

Definition _install_dashboard (dashboard_name parent_folder_id dashboard_ref : string)
  : M unit :=
  let dashboard_id := dashboard_key dashboard_ref in
  d <- get_state ;;
  if Dict.mem dashboard_id d then
    installed <- state_item dashboard_id ;;
    widgets <- remote (dashboards_get installed) ;;
    for_each widgets (fun widget_id => remote (dashboard_widgets_delete widget_id))
  else
    dash_id <- remote (dashboards_create dashboard_name VIEWER parent_folder_id) ;;
    remote (dbsql_permissions_set DASHBOARDS dash_id (users_acl CAN_VIEW)) ;;
    state_store dashboard_id dash_id.

Definition _desired_queries (folder_path dashboard_ref : string)
    (files : list SqlFile) : M (list SimpleQuery) :=
  lift (desired_queries_of (_query_text_callback self) folder_path
          dashboard_ref files).

Definition _install_viz (q : SimpleQuery) : M unit :=
  args <- lift (_get_viz_options q) ;;
  d <- get_state ;;
  if Dict.mem (viz_key q) d then
    viz_id <- state_item (viz_key q) ;;
    remote (query_visualizations_update viz_id args)
  else
    query_id <- state_item (query_key q) ;;
    viz_id <- remote (query_visualizations_create query_id args) ;;
    state_store (viz_key q) viz_id.

Definition _install_query (q : SimpleQuery)
    (dashboard_name data_source parent : string) : M unit :=
  let query_meta :=
    {| data_source_id := data_source;
       meta_name := dashboard_name ++ " - " ++ name q;
       meta_query := query q |} in
  d <- get_state ;;
  if Dict.mem (query_key q) d then
    query_id <- state_item (query_key q) ;;
    remote (queries_update query_id query_meta)
  else
    deployed <- remote (queries_create parent VIEWER query_meta) ;;
    remote (dbsql_permissions_set QUERIES deployed (users_acl CAN_RUN)) ;;
    state_store (query_key q) deployed.

(** [not warehouse_id]: [None] and the empty string are both falsy. *)
Definition no_warehouse (w : option string) : bool :=
  match w with
  | None => true
  | Some s => String.eqb s ""
  end.

Definition _dashboard_data_source : M string :=
  sources <- remote data_sources_list ;;
  let data_sources := Dict.of_pairs sources in
  warehouses <- remote warehouses_list ;;
  warehouse_id <-
    match _warehouse_id self, warehouses with
    | Some w, _ =>
        if no_warehouse (Some w)
        then match warehouses with
             | [] => raise (ValueError
                       "need either configured warehouse_id or an existing SQL warehouse")
             | first :: _ => ret first
             end
        else ret w
    | None, [] =>
        raise (ValueError
                 "need either configured warehouse_id or an existing SQL warehouse")
    | None, first :: _ => ret first
    end ;;
  match Dict.get warehouse_id data_sources with
  | Some id => ret id
  | None => raise (KeyError warehouse_id)
  end.

(** The three install steps of one query, the body of the inner loop of
    [create_dashboards]. *)
Definition install_one (dashboard_name data_source parent dashboard_ref : string)
    (q : SimpleQuery) : M unit :=
  _install_query q dashboard_name data_source parent ;;
  _install_viz q ;;
  _install_widget q dashboard_ref.

(** The local variables [dashboards] and [queries_per_dashboard]. *)
Definition Locals : Type :=
  (Dict.dict string * Dict.dict (list SimpleQuery))%type.

(** The body of the loop over the dashboard folders of one step folder. *)
Definition create_dashboard (step_folder : StepFolder) (acc : Locals)
    (dashboard_folder : DashboardFolder) : M Locals :=
  let step_path := joinpath (local_path (_local_folder self))
                     (step_folder_name step_folder) in
  let folder_path := joinpath step_path (dashboard_folder_name dashboard_folder) in
  logger DEBUG ("Reading dashboard folder " ++ folder_path ++ "...") ;;
  let main_name := PyStr.title (PyStr.stem (step_folder_name step_folder)) in
  let sub_name :=
    PyStr.title (PyStr.stem (dashboard_folder_name dashboard_folder)) in
  let dashboard_name :=
    _name_prefix self ++ " " ++ main_name ++ " (" ++ sub_name ++ ")" in
  let dashboard_ref :=
    group_ref (step_folder_name step_folder)
      (dashboard_folder_name dashboard_folder) in
  logger INFO ("Creating dashboard " ++ dashboard_name ++ "...") ;;
  desired_queries <- _desired_queries folder_path dashboard_ref
                       (sql_files dashboard_folder) ;;
  parent_folder_id <- _installed_query_state ;;
  data_source <- _dashboard_data_source ;;
  _install_dashboard dashboard_name parent_folder_id dashboard_ref ;;
  for_each desired_queries
    (install_one dashboard_name data_source parent_folder_id dashboard_ref) ;;
  dashboard_id <- state_item (dashboard_key dashboard_ref) ;;
  ret (Dict.set dashboard_ref dashboard_id (fst acc),
       Dict.set dashboard_ref desired_queries (snd acc)).

(** The body of the loop over the step folders. *)
Definition create_step (acc : Locals) (step_folder : StepFolder) : M Locals :=
  logger DEBUG ("Reading step folder "
                ++ joinpath (local_path (_local_folder self))
                     (step_folder_name step_folder) ++ "...") ;;
  for_fold (dashboard_folders step_folder) acc (create_dashboard step_folder).

Definition create_dashboards : M (Dict.dict string) :=
  acc <- for_fold (step_folders (_local_folder self)) ([], []) create_step ;;
  _store_query_state (snd acc) ;;
  ret (fst acc).

(** The [try] block of [validate] for one query. *)
Definition validate_query (q : SimpleQuery) : M unit :=
  try_except
    (lift (_get_viz_options q) ;;
     _get_widget_options q ;;
     ret tt)
    (fun err =>
       Some (raise (AssertionError ("Error in " ++ name q ++ ": " ++ exn_str err)
                      err))).

Definition validate_dashboard (step_folder : StepFolder)
    (dashboard_folder : DashboardFolder) : M unit :=
  let step_path := joinpath (local_path (_local_folder self))
                     (step_folder_name step_folder) in
  let folder_path := joinpath step_path (dashboard_folder_name dashboard_folder) in
  let dashboard_ref :=
    group_ref (step_folder_name step_folder)
      (dashboard_folder_name dashboard_folder) in
  desired_queries <- _desired_queries folder_path dashboard_ref
                       (sql_files dashboard_folder) ;;
  for_each desired_queries validate_query.

Definition validate_step (step_folder : StepFolder) : M unit :=
  logger INFO ("Reading step folder "
               ++ joinpath (local_path (_local_folder self))
                    (step_folder_name step_folder) ++ "...") ;;
  for_each (dashboard_folders step_folder) (validate_dashboard step_folder).

Definition validate : M unit :=
  for_each (step_folders (_local_folder self)) validate_step.

End Reconciler.

Arguments _state {P} s.
Arguments _pos {P} s.
Arguments world {P} s.
Arguments trace {P} s.
Arguments log {P} s.
Arguments ret {P A} a s.
Arguments raise {P A} e s.
Arguments bind {P A B} m k s.
Arguments lift {P A} o s.
Arguments try_except {P A} body handler s.
Arguments for_each {P A} l body s.
Arguments for_fold {P A B} l acc body s.
Arguments get_state {P} s.
Arguments set_state {P} d s.
Arguments state_item {P} k s.
Arguments state_store {P} k v s.
Arguments state_del {P} k s.
Arguments next_pos {P} s.
Arguments logger {P} level msg s.
Arguments remote {P} c s.

(** ** An in-memory workspace

    A small working workspace to run the reconciler against: files by path,
    folders, live queries and visualizations, dashboards with their widgets,
    and fresh decimal ids.  A blob is either a JSON object or text that is
    not JSON.  A second workspace refuses every call. *)

Module Fake.

Inductive blob : Type :=
| Json (pairs : list (string * string))
| Garbage.

Record world : Type := {
  files : Dict.dict blob;
  folders : list string;
  next_id : nat;
  live_queries : list string;
  live_vizs : list string;
  boards : Dict.dict (list string)
}.

Definition fresh_id (w : world) : string := str_of_nat (next_id w).

Definition remove_str (x : string) (l : list string) : list string :=
  filter (fun y => negb (String.eqb x y)) l.

Definition set_files (f : Dict.dict blob) (w : world) : world :=
  {| files := f; folders := folders w; next_id := next_id w;
     live_queries := live_queries w; live_vizs := live_vizs w;
     boards := boards w |}.

Definition set_folders (f : list string) (w : world) : world :=
  {| files := files w; folders := f; next_id := next_id w;
     live_queries := live_queries w; live_vizs := live_vizs w;
     boards := boards w |}.

Definition set_queries (l : list string) (bump : nat) (w : world) : world :=
  {| files := files w; folders := folders w; next_id := next_id w + bump;
     live_queries := l; live_vizs := live_vizs w;
     boards := boards w |}.

Definition set_vizs (l : list string) (bump : nat) (w : world) : world :=
  {| files := files w; folders := folders w; next_id := next_id w + bump;
     live_queries := live_queries w; live_vizs := l;
     boards := boards w |}.

Definition set_boards (b : Dict.dict (list string)) (bump : nat) (w : world)
  : world :=
  {| files := files w; folders := folders w; next_id := next_id w + bump;
     live_queries := live_queries w; live_vizs := live_vizs w;
     boards := b |}.

Definition not_found {A} (w : world) : response A * world :=
  (Failed "RESOURCE_DOES_NOT_EXIST", w).

(** Does some dashboard hold widget [x]? *)
Definition has_widget (x : string) (w : world) : bool :=
  existsb (fun b => str_in x (snd b)) (boards w).

Definition serve (c : call blob) (w : world) : response (reply c) * world :=
  match c return response (reply c) * world with
  | workspace_download path =>
      match Dict.get path (files w) with
      | Some b => (Ok b, w)
      | None => not_found w
      end
  | workspace_mkdirs path =>
      (Ok tt, if str_in path (folders w) then w
              else set_folders (folders w ++ [path])%list w)
  | workspace_get_status path =>
      if str_in path (folders w) then (Ok ("id-of-" ++ path), w)
      else not_found w
  | workspace_upload path content _ _ =>
      (Ok tt, set_files (Dict.set path content (files w)) w)
  | queries_get id =>
      if str_in id (live_queries w) then (Ok tt, w) else not_found w
  | queries_create _ _ _ =>
      (Ok (fresh_id w), set_queries (live_queries w ++ [fresh_id w])%list 1 w)
  | queries_update id _ =>
      if str_in id (live_queries w) then (Ok tt, w) else not_found w
  | queries_delete id =>
      if str_in id (live_queries w)
      then (Ok tt, set_queries (remove_str id (live_queries w)) 0 w)
      else not_found w
  | query_visualizations_create query_id _ =>
      if str_in query_id (live_queries w)
      then (Ok (fresh_id w), set_vizs (live_vizs w ++ [fresh_id w])%list 1 w)
      else not_found w
  | query_visualizations_update id _ =>
      if str_in id (live_vizs w) then (Ok tt, w) else not_found w
  | query_visualizations_delete id =>
      if str_in id (live_vizs w)
      then (Ok tt, set_vizs (remove_str id (live_vizs w)) 0 w)
      else not_found w
  | dashboard_widgets_create dashboard_id _ _ _ =>
      match Dict.get dashboard_id (boards w) with
      | Some widgets =>
          (Ok (fresh_id w),
           set_boards (Dict.set dashboard_id (widgets ++ [fresh_id w])%list
                         (boards w)) 1 w)
      | None => not_found w
      end
  | dashboard_widgets_delete id =>
      if has_widget id w
      then (Ok tt,
            set_boards (map (fun b => (fst b, remove_str id (snd b))) (boards w))
              0 w)
      else not_found w
  | dashboards_get id =>
      match Dict.get id (boards w) with
      | Some widgets => (Ok widgets, w)
      | None => not_found w
      end
  | dashboards_create _ _ _ =>
      (Ok (fresh_id w), set_boards (Dict.set (fresh_id w) [] (boards w)) 1 w)
  | dbsql_permissions_set _ _ _ => (Ok tt, w)
  | data_sources_list => (Ok [("warehouse-1", "source-1")], w)
  | warehouses_list => (Ok ["warehouse-1"], w)
  end.

Definition platform : Platform :=
  {| bytes := blob;
     World := world;
     json_load := fun b => match b with Json pairs => Some pairs | Garbage => None end;
     json_dumps := Json;
     ws := serve |}.

(** A workspace with nothing in it. *)
Definition empty : world :=
  {| files := []; folders := []; next_id := 1; live_queries := [];
     live_vizs := []; boards := [] |}.


End Fake.

(** * Specification vocabulary *)

(** ** State keys *)

(** The four kinds of entries of the persisted state. *)
Inductive kind : Type := dashboard_id | query_id | viz_id | widget_id.

Definition kind_name (k : kind) : string :=
  match k with
  | dashboard_id => "dashboard_id"
  | query_id => "query_id"
  | viz_id => "viz_id"
  | widget_id => "widget_id"
  end.

(** The key ["{ref}:{kind}"] of a reference. *)
Definition derive_key (r : string) (k : kind) : string :=
  r ++ ":" ++ kind_name k.

(** The reference under which the keys of a query are filed. *)
Definition query_ref (q : SimpleQuery) : string :=
  dashboard_ref q ++ "_" ++ name q.

(** How the load-time sweep and the save-time filter take a key apart:
    [_, name = k.split(":")]. *)
Definition split_key (key : string) : outcome (string * string) :=
  unpack2 (PyStr.split ":" key).

Fixpoint has_colon (s : string) : bool :=
  match s with
  | EmptyString => false
  | String c s' => Ascii.eqb c ":" || has_colon s'
  end.

(** ** The save step *)

(** The entries of [st] that [_store_query_state] keeps. *)
Definition kept (desired : list string) (st : Dict.dict string)
  : Dict.dict string :=
  filter (fun kv => str_in (fst kv) desired) st.



Definition is_upload {B : Type} (ev : event B) : bool :=
  match fst ev with
  | workspace_upload _ _ _ _ => true
  | _ => false
  end.

Definition is_download {B : Type} (ev : event B) : bool :=
  match fst ev with
  | workspace_download _ => true
  | _ => false
  end.

(** The system after some calls: the instance fields untouched. *)
Definition after_calls {P : Platform} (s : Sys P) (w : World P)
    (evs : list (event (bytes P))) : Sys P :=
  {| _state := _state s; _pos := _pos s; world := w;
     trace := (trace s ++ evs)%list; log := log s |}.

(** ** The load step *)


(** An instance that already holds one entry, in front of an empty
    workspace and in front of one whose state file is not JSON. *)
Definition one_entry : Dict.dict string := [("g:dashboard_id", "7")].

Definition remote_cfg : DashboardFromFiles :=
  {| _local_folder := {| local_path := "/queries"; step_folders := [] |};
     _remote_folder := "/remote";
     _name_prefix := "[UCX]";
     _query_text_callback := None;
     _warehouse_id := None |}.

Definition sys_with (st : Dict.dict string) (w : Fake.world)
  : Sys Fake.platform :=
  Build_Sys Fake.platform st 0 w [] [].



(** A state with a desired entry and three orphans, one of them a query that
    the workspace no longer has. *)
Definition stale_state : Dict.dict string :=
  [("g:dashboard_id", "1"); ("g_old.sql:query_id", "99");
   ("g_old.sql:viz_id", "3"); ("h:dashboard_id", "8")].

Definition stale_world : Fake.world :=
  {| Fake.files := []; Fake.folders := ["/remote"]; Fake.next_id := 10;
     Fake.live_queries := []; Fake.live_vizs := ["3"]; Fake.boards := [("1", [])] |}.

Definition stale_desired : Dict.dict (list SimpleQuery) := [("g", [])].

(** ** Example definition folders *)

Definition newline : string := String (ascii_of_nat 10) EmptyString.

(** A definition file with a viz marker of the given kind and a widget
    marker without a [row]. *)
Definition sql_file (file viz_kind : string) : SqlFile :=
  {| file_name := file;
     file_text := "-- viz type=" ++ viz_kind ++ ", name=Rows, columns=a,b"
                  ++ newline ++ "-- widget title=Rows, col=0"
                  ++ newline ++ "SELECT a, b FROM t" |}.

Definition cfg_of (steps : list StepFolder) : DashboardFromFiles :=
  {| _local_folder := {| local_path := "/queries"; step_folders := steps |};
     _remote_folder := "/remote";
     _name_prefix := "[UCX]";
     _query_text_callback := None;
     _warehouse_id := None |}.

(** One group, one query. *)
Definition one_group : list StepFolder :=
  [{| step_folder_name := "assessment";
      dashboard_folders :=
        [{| dashboard_folder_name := "main";
            sql_files := [sql_file "tables.sql" "table"] |}] |}].

(** Two groups: one query in the first, two in the second. *)
Definition two_groups : list StepFolder :=
  [{| step_folder_name := "assessment";
      dashboard_folders :=
        [{| dashboard_folder_name := "main";
            sql_files := [sql_file "tables.sql" "table"] |};
         {| dashboard_folder_name := "extra";
            sql_files := [sql_file "mounts.sql" "table";
                          sql_file "jobs.sql" "table"] |}] |}].

(** One group whose step folder has a colon in its name. *)
Definition colon_group : list StepFolder :=
  [{| step_folder_name := "a:b";
      dashboard_folders :=
        [{| dashboard_folder_name := "main"; sql_files := [] |}] |}].

(** One group whose only query declares a kind that is not supported. *)
Definition pie_group : list StepFolder :=
  [{| step_folder_name := "assessment";
      dashboard_folders :=
        [{| dashboard_folder_name := "main";
            sql_files := [sql_file "tables.sql" "pie"] |}] |}].

(** A workspace that holds the remote folder and an empty state file. *)
Definition installed_world : Fake.world :=
  Fake.set_folders ["/remote"]
    (Fake.set_files [("/remote/state.json", Fake.Json [])] Fake.empty).

(** The short name of a call, to read traces by. *)
Definition call_name {B : Type} (c : call B) : string :=
  match c with
  | workspace_download _ => "workspace.download"
  | workspace_mkdirs _ => "workspace.mkdirs"
  | workspace_get_status _ => "workspace.get_status"
  | workspace_upload _ _ _ _ => "workspace.upload"
  | queries_get _ => "queries.get"
  | queries_create _ _ _ => "queries.create"
  | queries_update _ _ => "queries.update"
  | queries_delete _ => "queries.delete"
  | query_visualizations_create _ _ => "query_visualizations.create"
  | query_visualizations_update _ _ => "query_visualizations.update"
  | query_visualizations_delete _ => "query_visualizations.delete"
  | dashboard_widgets_create _ _ _ _ => "dashboard_widgets.create"
  | dashboard_widgets_delete _ => "dashboard_widgets.delete"
  | dashboards_get _ => "dashboards.get"
  | dashboards_create _ _ _ => "dashboards.create"
  | dbsql_permissions_set _ _ _ => "dbsql_permissions.set"
  | data_sources_list => "data_sources.list"
  | warehouses_list => "warehouses.list"
  end.

Definition call_names {B : Type} (evs : list (event B)) : list string :=
  map (fun ev => call_name (fst ev)) evs.

(** A state file with one key that has no colon, and a workspace holding it. *)
Definition flat_key_world : Fake.world :=
  Fake.set_folders ["/remote"]
    (Fake.set_files [("/remote/state.json", Fake.Json [("legacy", "1")])]
       Fake.empty).

(** The calls of [s'] that were not yet in the trace of [s]. *)
Definition new_events {P : Platform} (s s' : Sys P) : list (event (bytes P)) :=
  skipn (length (trace s)) (trace s').

(** ** Reasoning about computations *)

(** [m], started in [s], ends in a state that satisfies [post] when it
    returns and [epost] when it raises. *)
Definition wp {P : Platform} {A : Type} (m : M P A)
    (post : A -> Sys P -> Prop) (epost : exn -> Sys P -> Prop) (s : Sys P)
  : Prop :=
  match m s with
  | (Return a, s') => post a s'
  | (Raise e, s') => epost e s'
  end.

(** The desired queries of a group, as [_desired_queries] computes them. *)
Definition group_queries (self : DashboardFromFiles) (step : StepFolder)
    (dash : DashboardFolder) : outcome (list SimpleQuery) :=
  desired_queries_of (_query_text_callback self)
    (joinpath (joinpath (local_path (_local_folder self)) (step_folder_name step))
       (dashboard_folder_name dash))
    (group_ref (step_folder_name step) (dashboard_folder_name dash))
    (sql_files dash).

(** [q] is a desired query of some group of the local folder. *)
Definition desired_in (self : DashboardFromFiles) (q : SimpleQuery) : Prop :=
  exists step dash qs,
    In step (step_folders (_local_folder self))
    /\ In dash (dashboard_folders step)
    /\ group_queries self step dash = Return qs
    /\ In q qs.

(** The error [validate] raises for a query whose builders raise [err]. *)
Definition validation_error (q : SimpleQuery) (err : exn) : exn :=
  AssertionError ("Error in " ++ name q ++ ": " ++ exn_str err) err.

(** The error of a viz kind that is not supported. *)
Definition unknown_viz_type (q : SimpleQuery) : exn :=
  SyntaxError (query q ++ ": unknown viz type: " ++ str_of_opt (viz_type q)).

(** Two queries of one name that declare a pie, in two different groups, and
    a group with two such queries. *)
Definition pie_elsewhere : list StepFolder :=
  [{| step_folder_name := "migration";
      dashboard_folders :=
        [{| dashboard_folder_name := "main";
            sql_files := [sql_file "tables.sql" "pie"] |}] |}].

Definition two_pies : list StepFolder :=
  [{| step_folder_name := "assessment";
      dashboard_folders :=
        [{| dashboard_folder_name := "main";
            sql_files := [sql_file "tables.sql" "pie";
                          sql_file "mounts.sql" "pie"] |}] |}].

(** Nothing remote happened between [s] and [s']: the same calls, the same
    workspace, the same state in memory. *)
Definition untouched {P : Platform} (s s' : Sys P) : Prop :=
  trace s' = trace s /\ world s' = world s /\ _state s' = _state s.

(** Both builders accept the query. *)
Definition builders_ok (q : SimpleQuery) : Prop :=
  (exists args, _get_viz_options q = Return args)
  /\ (exists pos options, widget_options_at pos q = Return options).

(** Every group of the folder loads, and every query of it passes. *)
Definition all_definitions_ok (self : DashboardFromFiles) : Prop :=
  forall step dash,
    In step (step_folders (_local_folder self)) ->
    In dash (dashboard_folders step) ->
    exists qs, group_queries self step dash = Return qs
               /\ forall q, In q qs -> builders_ok q.

(** What [validate] can raise: the error of the loader for a group, or the
    error of a builder for a desired query, wrapped with the query's name. *)
Definition validation_failure (self : DashboardFromFiles) (e : exn) : Prop :=
  (exists step dash,
      In step (step_folders (_local_folder self))
      /\ In dash (dashboard_folders step)
      /\ group_queries self step dash = Raise e)
  \/ (exists q err,
         desired_in self q
         /\ e = validation_error q err
         /\ (_get_viz_options q = Raise err
             \/ exists pos, widget_options_at pos q = Raise err)).

(** Between [s] and [s'] the trace grew by calls whose names are in
    [names]. *)
Definition only_calls {P : Platform} (names : list string) (s s' : Sys P)
  : Prop :=
  exists evs,
    trace s' = (trace s ++ evs)%list
    /\ forallb (fun ev => str_in (call_name (fst ev)) names) evs = true.

(** The calls of the query step of a reconciliation. *)
Definition query_calls : list string :=
  ["queries.update"; "queries.create"; "dbsql_permissions.set"].

(** ** Invariants of computations *)

(** [I] survives changes of the state in memory and of the log, and the
    remote calls whose names are in [names]. *)
Definition closed {P : Platform} (names : list string) (I : Sys P -> Prop)
  : Prop :=
  (forall s d, I s -> I (Build_Sys P d (_pos s) (world s) (trace s) (log s)))
  /\ (forall s l, I s -> I (Build_Sys P (_state s) (_pos s) (world s) (trace s) l))
  /\ (forall s c, In (call_name c) names -> I s -> I (snd (remote c s))).

(** [m] keeps [I], whether it returns or raises. *)
Definition preserves {P : Platform} {A : Type} (I : Sys P -> Prop) (m : M P A)
  : Prop :=
  forall s, I s -> wp m (fun _ s' => I s') (fun _ s' => I s') s.

(** The calls each step of a reconciliation can make. *)
Definition load_calls : list string :=
  ["workspace.download"; "workspace.mkdirs"; "workspace.get_status";
   "queries.get"].

Definition data_source_calls : list string :=
  ["data_sources.list"; "warehouses.list"].

Definition dashboard_calls : list string :=
  ["dashboards.get"; "dashboard_widgets.delete"; "dashboards.create";
   "dbsql_permissions.set"].

Definition viz_calls : list string :=
  ["query_visualizations.update"; "query_visualizations.create"].

Definition widget_calls : list string := ["dashboard_widgets.create"].


(** Everything a group is processed with, short of the widget step. *)
Definition group_calls : list string :=
  (load_calls ++ data_source_calls ++ dashboard_calls ++ query_calls
   ++ viz_calls)%list.

(** ** Widget rows *)

(** The row of a widget creation, for a call that is one. *)
Definition widget_row {B : Type} (ev : event B) : list Z :=
  match fst ev with
  | dashboard_widgets_create _ options _ _ => [row (position options)]
  | _ => []
  end.

(** The rows of the widgets created by a sequence of calls, in order. *)
Definition widget_rows {B : Type} (evs : list (event B)) : list Z :=
  flat_map widget_row evs.



(** The desired queries of a group, none for a group that does not load. *)
Definition queries_of (self : DashboardFromFiles) (step : StepFolder)
    (dash : DashboardFolder) : list SimpleQuery :=
  match group_queries self step dash with
  | Return qs => qs
  | Raise _ => []
  end.






(** Three queries in two groups, the second with a [row] of its own. *)
Definition sql_file_at_row (file r : string) : SqlFile :=
  {| file_name := file;
     file_text := "-- viz type=table, name=Rows, columns=a,b"
                  ++ newline ++ "-- widget title=Rows, row=" ++ r
                  ++ newline ++ "SELECT a, b FROM t" |}.

Definition mixed_rows : list StepFolder :=
  [{| step_folder_name := "assessment";
      dashboard_folders :=
        [{| dashboard_folder_name := "main";
            sql_files := [sql_file "tables.sql" "table";
                          sql_file_at_row "mounts.sql" "7"] |};
         {| dashboard_folder_name := "extra";
            sql_files := [sql_file "jobs.sql" "table"] |}] |}].

(** ** A workspace that keeps what it is given *)

(** What idempotence asks of the workspace: the state file at [path] reads
    back as last uploaded and only an upload changes it; a query that was
    created answers [queries.get] until it is deleted; the JSON codec gives
    back what it was given. *)
Record faithful (P : Platform) (path : string)
    (stored : World P -> option (bytes P))
    (alive : World P -> string -> Prop) : Prop := {
  download_stored :
    forall w,
      fst (ws P (workspace_download path) w)
      = match stored w with
        | Some b => Ok b
        | None => Failed "RESOURCE_DOES_NOT_EXIST"
        end;
  upload_stored :
    forall w b f o u w',
      ws P (workspace_upload path b f o) w = (Ok u, w') -> stored w' = Some b;
  stored_kept :
    forall c w,
      call_name c <> "workspace.upload" -> stored (snd (ws P c w)) = stored w;
  get_alive :
    forall w id, alive w id -> exists u, fst (ws P (queries_get id) w) = Ok u;
  created_alive :
    forall w parent role meta id w',
      ws P (queries_create parent role meta) w = (Ok id, w') -> alive w' id;
  alive_kept :
    forall c w id,
      call_name c <> "queries.delete" -> alive w id -> alive (snd (ws P c w)) id;
  json_roundtrip :
    forall d, json_load P (json_dumps P d) = Some d
}.

Definition fake_stored (path : string) (w : Fake.world) : option Fake.blob :=
  Dict.get path (Fake.files w).

Definition fake_alive (w : Fake.world) (id : string) : Prop :=
  In id (Fake.live_queries w).

(** The references of the groups of the local folder, in the order of the
    run. *)
Definition group_refs (self : DashboardFromFiles) : list string :=
  flat_map (fun step =>
              map (fun dash => group_ref (step_folder_name step)
                                 (dashboard_folder_name dash))
                  (dashboard_folders step))
           (step_folders (_local_folder self)).

(** A call that creates a dashboard, a query or a visualization. *)
Definition creates_resource {B : Type} (c : call B) : bool :=
  match c with
  | dashboards_create _ _ _ => true
  | queries_create _ _ _ => true
  | query_visualizations_create _ _ => true
  | _ => false
  end.

(** Two step folders whose names differ by case only: one reference for two
    groups. *)
Definition same_ref_groups : list StepFolder :=
  [{| step_folder_name := "Assessment";
      dashboard_folders :=
        [{| dashboard_folder_name := "main";
            sql_files := [sql_file "tables.sql" "table"] |}] |};
   {| step_folder_name := "assessment";
      dashboard_folders :=
        [{| dashboard_folder_name := "main";
            sql_files := [sql_file "mounts.sql" "table"] |}] |}].

(** ** Two runs *)

(** A key that the sweep of a load takes for the key of a query. *)
Definition is_query_key (k : string) : Prop :=
  exists a, PyStr.split ":" k = [a; "query_id"].

Definition is_widget_key (k : string) : Prop :=
  exists q, k = widget_key q.

(** The keys of a group: the dashboard's, then three for each query. *)
Definition group_keys (ref : string) (qs : list SimpleQuery) : list string :=
  dashboard_key ref
  :: flat_map (fun q => [query_key q; viz_key q; widget_key q]) qs.

(** The groups of a step folder, each with its reference and its desired
    queries. *)
Definition step_groups (self : DashboardFromFiles) (step : StepFolder)
    (dashes : list DashboardFolder) : Dict.dict (list SimpleQuery) :=
  map (fun dash =>
         (group_ref (step_folder_name step) (dashboard_folder_name dash),
          queries_of self step dash))
      dashes.

(** The groups of a run over the given step folders. *)
Definition run_groups (self : DashboardFromFiles) (steps : list StepFolder)
  : Dict.dict (list SimpleQuery) :=
  flat_map (fun step => step_groups self step (dashboard_folders step)) steps.

(** Every query that the state records is alive in the workspace. *)
Definition queries_alive {P : Platform} (alive : World P -> string -> Prop)
    (st : Dict.dict string) (w : World P) : Prop :=
  forall k v, In (k, v) st -> is_query_key k -> alive w v.

(** The state [st'] has the keys of [st] and, but for the widgets, its
    values. *)
Definition same_resources (st st' : Dict.dict string) : Prop :=
  Dict.wf st'
  /\ (forall k, In k (Dict.keys st') <-> In k (Dict.keys st))
  /\ (forall k, ~ is_widget_key k -> Dict.get k st' = Dict.get k st).

(** Between [s] and [s'] the state file stayed as it was and no query
    died. *)
Definition calm {P : Platform} (stored : World P -> option (bytes P))
    (alive : World P -> string -> Prop) (s s' : Sys P) : Prop :=
  stored (world s') = stored (world s)
  /\ forall id, alive (world s) id -> alive (world s') id.

(** No call of the trace creates a dashboard, a query or a visualization. *)
Definition no_creation {P : Platform} (s : Sys P) : Prop :=
  forallb (fun ev => negb (creates_resource (fst ev))) (trace s) = true.

(** The calls of a group whose resources are all recorded already. *)
Definition update_calls : list string :=
  (load_calls ++ data_source_calls
   ++ ["dashboards.get"; "dashboard_widgets.delete"; "queries.update";
       "query_visualizations.update"; "dashboard_widgets.create"])%list.

(** The calls of a group on a first install. *)
Definition install_calls : list string :=
  (group_calls ++ widget_calls)%list.

(** The dashboards that a run returns, read off the state: one entry for
    each group, in order. *)
Definition dashboards_agree (dashboards : Dict.dict string)
    (groups : Dict.dict (list SimpleQuery)) (st : Dict.dict string) : Prop :=
  map fst dashboards = map fst groups
  /\ forall ref v, In (ref, v) dashboards ->
                   Dict.get (dashboard_key ref) st = Some v.

(** Where the first run stands: nothing uploaded yet, the state holds the
    keys [ks] and none else, its queries are alive, and the local variables
    follow the groups [gs] done so far. *)
Definition first_inv {P : Platform} (stored : World P -> option (bytes P))
    (alive : World P -> string -> Prop) (ks : list string)
    (gs : Dict.dict (list SimpleQuery)) (acc : Locals) (s : Sys P) : Prop :=
  stored (world s) = None
  /\ Dict.wf (_state s)
  /\ queries_alive alive (_state s) (world s)
  /\ (forall k, In k (Dict.keys (_state s)) <-> In k ks)
  /\ snd acc = gs
  /\ dashboards_agree (fst acc) gs (_state s).

(** What the second run relies on, and keeps, in the workspace and in the
    trace: the state file of the first run, its queries alive, no creation. *)
Definition second_run_world {P : Platform}
    (stored : World P -> option (bytes P)) (alive : World P -> string -> Prop)
    (st1 : Dict.dict string) (s : Sys P) : Prop :=
  stored (world s) = Some (json_dumps P st1)
  /\ queries_alive alive st1 (world s)
  /\ no_creation s.

(** Where the second run stands after the groups [gs]. *)
Definition second_run_inv {P : Platform} (stored : World P -> option (bytes P))
    (alive : World P -> string -> Prop) (st1 : Dict.dict string)
    (gs : Dict.dict (list SimpleQuery)) (acc : Locals) (s : Sys P) : Prop :=
  second_run_world stored alive st1 s
  /\ ((gs = [] /\ _state s = []) \/ same_resources st1 (_state s))
  /\ snd acc = gs
  /\ dashboards_agree (fst acc) gs st1.

(** The reference of a group. *)
Definition ref_of (step : StepFolder) (dash : DashboardFolder) : string :=
  group_ref (step_folder_name step) (dashboard_folder_name dash).

(** All the groups of the local folder. *)
Definition all_groups (self : DashboardFromFiles) : Dict.dict (list SimpleQuery) :=
  run_groups self (step_folders (_local_folder self)).

(** Where a first run that returned [dashboards] leaves things: the state
    [st1] in memory and in the state file, with the keys of all the groups,
    its queries alive. *)
Definition first_run_done {P : Platform} (self : DashboardFromFiles)
    (stored : World P -> option (bytes P)) (alive : World P -> string -> Prop)
    (st1 : Dict.dict string) (dashboards : Dict.dict string) (s : Sys P)
  : Prop :=
  stored (world s) = Some (json_dumps P st1)
  /\ Dict.wf st1
  /\ queries_alive alive st1 (world s)
  /\ (forall k, In k (Dict.keys st1) <-> In k (desired_keys_of (all_groups self)))
  /\ dashboards_agree dashboards (all_groups self) st1.

(** ** The first error of a validation *)

(** The groups of the local folder, in the order in which [validate] and a
    run take them. *)
Definition folder_groups (self : DashboardFromFiles)
  : list (StepFolder * DashboardFolder) :=
  flat_map (fun step => map (fun dash => (step, dash)) (dashboard_folders step))
           (step_folders (_local_folder self)).

(** The group loads, and both builders accept every query of it. *)
Definition group_ok (self : DashboardFromFiles)
    (g : StepFolder * DashboardFolder) : Prop :=
  exists qs, group_queries self (fst g) (snd g) = Return qs
             /\ forall q, In q qs -> builders_ok q.

(** The builders refuse [q] with [err]: the viz builder does, or the viz
    builder accepts and the widget builder refuses, wherever the counter
    stands. *)
Definition builder_error (q : SimpleQuery) (err : exn) : Prop :=
  _get_viz_options q = Raise err
  \/ ((exists args, _get_viz_options q = Return args)
      /\ forall pos, widget_options_at pos q = Raise err).

(** What reading the markers of a file raises: the [StopIteration] of
    [next], or the [ValueError] of [dict]. *)
Definition loader_error (e : exn) : Prop :=
  e = StopIteration \/ exists msg, e = ValueError msg.

(** The group of [step] and [dash] fails with [e]: its files do not load,
    and [e] is the error of the loader as it is; or they load, the queries
    [done] pass both builders, the next query [q] is refused with [err], and
    [e] is the [AssertionError] made of the name of [q] and of [err]. *)
Definition failure_at (self : DashboardFromFiles) (step : StepFolder)
    (dash : DashboardFolder) (e : exn) : Prop :=
  (group_queries self step dash = Raise e /\ loader_error e)
  \/ exists done q rest err,
      group_queries self step dash = Return (done ++ q :: rest)%list
      /\ (forall q', In q' done -> builders_ok q')
      /\ builder_error q err
      /\ e = AssertionError ("Error in " ++ name q ++ ": " ++ exn_str err) err.

(** [e] is the first error of the local folder: the groups before the one
    that fails with [e] are all in order. *)
Definition first_failure (self : DashboardFromFiles) (e : exn) : Prop :=
  exists before step dash after,
    folder_groups self = (before ++ (step, dash) :: after)%list
    /\ (forall g, In g before -> group_ok self g)
    /\ failure_at self step dash e.

(** One group whose only file has no marker at all. *)
Definition no_marker_group : list StepFolder :=
  [{| step_folder_name := "assessment";
      dashboard_folders :=
        [{| dashboard_folder_name := "main";
            sql_files := [{| file_name := "tables.sql";
                             file_text := "SELECT a, b FROM t" |}] |}] |}].

(** * Further vocabulary *)

(** [dashboard_link]: the address of the dashboard of a group, under the
    [host] of the client's configuration. *)
Definition dashboard_link {P : Platform} (host dashboard_ref : string)
  : M P string :=
  bind (state_item (dashboard_key dashboard_ref))
       (fun dashboard_id => ret (host ++ "/sql/dashboards/" ++ dashboard_id)).

(** The value of the last pair of [l] filed under [k]. *)
Fixpoint last_value (k : string) (l : list (string * string)) : option string :=
  match l with
  | [] => None
  | (k', v) :: l' =>
      match last_value k l' with
      | Some v' => Some v'
      | None => if String.eqb k k' then Some v else None
      end
  end.

(** The warehouse [_dashboard_data_source] settles on: the configured one
    unless it is missing or empty, else the first one listed. *)
Definition chosen_warehouse (self : DashboardFromFiles)
    (warehouses : list string) : option string :=
  if no_warehouse (_warehouse_id self) then hd_error warehouses
  else _warehouse_id self.

(** ** Traffic on the state file *)

(** Between [s0] and [s] the state file at [path] was downloaded [n] times,
    no other file was, and nothing was uploaded. *)
Definition loads_only {P : Platform} (path : string) (s0 : Sys P) (n : nat)
    (s : Sys P) : Prop :=
  exists evs,
    trace s = (trace s0 ++ evs)%list
    /\ map fst (filter is_download evs) = repeat (workspace_download path) n
    /\ filter is_upload evs = [].

(** The same, for at most [k] downloads. *)
Definition loads_upto {P : Platform} (path : string) (s0 : Sys P) (k : nat)
    (s : Sys P) : Prop :=
  exists n, n <= k /\ loads_only path s0 n s.

(** The calls of a group after its load. *)
Definition after_load_calls : list string :=
  (data_source_calls ++ dashboard_calls ++ query_calls ++ viz_calls
   ++ widget_calls)%list.

(** The deletions of the save step. *)
Definition delete_calls : list string :=
  ["queries.delete"; "query_visualizations.delete"; "dashboard_widgets.delete"].

(** ** Viz definitions that the builders accept *)

(** The parameters of the builder of a viz kind, as its signature declares
    them: the required ones, then the optional ones. *)
Definition builder_params (t : string) : option (list string * list string) :=
  if String.eqb t "table" then
    Some (["name"; "columns"],
          ["items_per_page"; "condensed"; "with_row_number"; "description"])
  else if String.eqb t "counter" then
    Some (["name"; "value_column"],
          ["description"; "counter_label"; "value_row_number";
           "target_row_number"; "string_decimal"; "string_decimal_char";
           "string_thousand_separator"; "tooltip_format"; "count_row"])
  else None.

(** The viz attributes of [q] name a kind with a builder, give every required
    parameter of it, and nothing but its parameters besides the kind. *)
Definition viz_accepted (q : SimpleQuery) : Prop :=
  exists t required optional,
    viz_type q = Some t
    /\ builder_params t = Some (required, optional)
    /\ (forall k, In k required -> In k (Dict.keys (viz q)))
    /\ (forall k, In k (Dict.keys (viz q)) ->
                  k = "type" \/ In k required \/ In k optional).

(** The keyword arguments [kwargs] fit a signature with the parameters
    [required] and [optional]. *)
Definition kwargs_fit (required optional : list string)
    (kwargs : Dict.dict string) : Prop :=
  (forall k, In k required -> In k (Dict.keys kwargs))
  /\ (forall k, In k (Dict.keys kwargs) -> In k (required ++ optional)).

(** ** The desired queries of a folder *)

(** The text of a definition file as the reconciler sees it: what the
    callback makes of it, when there is one. *)
Definition seen_text (callback : option (string -> string)) (f : SqlFile)
  : string :=
  match callback with
  | Some cb => cb (file_text f)
  | None => file_text f
  end.

(** [q] is the query of the file [f] of the folder at [folder_path], for the
    group [ref]. *)
Definition query_of_file (callback : option (string -> string))
    (folder_path ref : string) (f : SqlFile) (q : SimpleQuery) : Prop :=
  dashboard_ref q = ref
  /\ name q = file_name f
  /\ query q = seen_text callback f
  /\ _parse_magic_comment (joinpath folder_path (file_name f)) "-- viz "
       (seen_text callback f) = Return (viz q)
  /\ _parse_magic_comment (joinpath folder_path (file_name f)) "-- widget "
       (seen_text callback f) = Return (widget q).

(** The file [f] raises [e] when its markers are read: the viz marker, or
    the widget marker after a viz marker that reads well. *)
Definition file_raises (callback : option (string -> string))
    (folder_path : string) (f : SqlFile) (e : exn) : Prop :=
  _parse_magic_comment (joinpath folder_path (file_name f)) "-- viz "
    (seen_text callback f) = Raise e
  \/ ((exists attrs,
          _parse_magic_comment (joinpath folder_path (file_name f)) "-- viz "
            (seen_text callback f) = Return attrs)
      /\ _parse_magic_comment (joinpath folder_path (file_name f)) "-- widget "
           (seen_text callback f) = Raise e).

(** Two definition files of one folder, and the queries they give. *)
Definition example_files : list SqlFile :=
  [sql_file "mounts.sql" "table"; sql_file_at_row "jobs.sql" "4"].

Definition example_queries : list SimpleQuery :=
  Eval vm_compute in
    match desired_queries_of None "/queries/assessment/extra" "assessment_extra"
            example_files with
    | Return qs => qs
    | Raise _ => []
    end.

(** ** Marker lines *)

(** Does [old] occur in [s]? *)
Fixpoint occurs (old s : string) : bool :=
  match s with
  | EmptyString => false
  | String c s' => String.prefix old s || occurs old s'
  end.

Fixpoint has_char (c : ascii) (s : string) : bool :=
  match s with
  | EmptyString => false
  | String d s' => Ascii.eqb d c || has_char c s'
  end.

(** [sep.join(parts)] *)
Fixpoint join (sep : string) (parts : list string) : string :=
  match parts with
  | [] => ""
  | [p] => p
  | p :: rest => p ++ sep ++ join sep rest
  end.

(** An attribute as a marker line spells it. *)
Definition render_attr (kv : string * string) : string :=
  fst kv ++ "=" ++ snd kv.

(** The marker line that spells the attributes [pairs]. *)
Definition marker_line (magic : string) (pairs : list (string * string))
  : string :=
  magic ++ join ", " (map render_attr pairs).

(** An attribute that a marker line can carry: no [=] in its key or its
    value, and no [", "] in its spelling. *)
Definition plain_attr (kv : string * string) : Prop :=
  has_char "=" (fst kv) = false
  /\ has_char "=" (snd kv) = false
  /\ occurs ", " (render_attr kv) = false.

(** ** What a load keeps *)

(** The state [st] is the state [loaded] less the entries of the keys
    [dead]. *)
Definition without (dead : list string) (loaded : Dict.dict string)
  : Dict.dict string :=
  filter (fun kv => negb (str_in (fst kv) dead)) loaded.

(** The calls [evs] account for the keys [dead] among the entries [entries]:
    a dead key is the key of a query whose lookup failed, and every other
    query of the entries was looked up and found. *)
Definition accounts_for {B : Type} (entries : Dict.dict string)
    (dead : list string) (evs : list (event B)) : Prop :=
  (forall k, In k dead ->
             is_query_key k
             /\ exists v code,
                 In (k, v) entries /\ In (queries_get v, Some code) evs)
  /\ (forall k v, In (k, v) entries -> is_query_key k -> ~ In k dead ->
                  In (queries_get v, @None string) evs).

(** Where a load that read the state [loaded] leaves the instance that
    started in [s]. *)
Definition swept {P : Platform} (loaded : Dict.dict string) (s s' : Sys P)
  : Prop :=
  exists dead,
    _state s' = without dead loaded
    /\ accounts_for loaded dead (new_events s s').

(** A state file with a dashboard, a query that is gone and its
    visualization, and a workspace that holds it. *)
Definition swept_pairs : list (string * string) :=
  [("g:dashboard_id", "1"); ("g_old.sql:query_id", "99");
   ("g_old.sql:viz_id", "3")].

Definition swept_world : Fake.world :=
  Fake.set_folders ["/remote"]
    (Fake.set_files [("/remote/state.json", Fake.Json swept_pairs)] Fake.empty).

(** ** A query that died between two runs *)

(** The query of [tables.sql] in the group [g]. *)
Definition tables_query : SimpleQuery :=
  Eval vm_compute in
    match desired_queries_of None "/queries/g" "g" [sql_file "tables.sql" "table"]
    with
    | Return (q :: _) => q
    | _ => {| dashboard_ref := "g"; name := "tables.sql"; query := "";
              viz := []; widget := [] |}
    end.

(** The state after a load that dropped the entry of the query of
    [tables.sql] and kept the entry of its visualization, and the
    workspace. *)
Definition dead_query_state : Dict.dict string :=
  [("g:dashboard_id", "1"); ("g_tables.sql:viz_id", "3")].

Definition dead_query_world : Fake.world :=
  {| Fake.files := []; Fake.folders := ["/remote"]; Fake.next_id := 10;
     Fake.live_queries := []; Fake.live_vizs := ["3"];
     Fake.boards := [("1", [])] |}.

(** ** Redeploying a dashboard *)

(** The successful deletions of the widgets [widgets], in order. *)
Definition widget_deletions {B : Type} (widgets : list string)
  : list (event B) :=
  map (fun w => (dashboard_widgets_delete w, @None string)) widgets.

(** A dashboard with two widgets, recorded for the group [g]. *)
Definition redeploy_world : Fake.world :=
  {| Fake.files := []; Fake.folders := ["/remote"]; Fake.next_id := 10;
     Fake.live_queries := []; Fake.live_vizs := [];
     Fake.boards := [("7", ["5"; "6"])] |}.

(** ** Widget attributes *)




(** ** What a run can raise *)

(** [m] raises nothing but errors that satisfy [E]. *)
Definition raises_only {P : Platform} {A : Type} (E : exn -> Prop) (m : M P A)
  : Prop :=
  forall s, wp m (fun _ _ => True) (fun e _ => E e) s.

(** The errors of the workspace: a failed call, a key that the data sources
    or the state lack, no warehouse to choose. *)
Definition workspace_error (e : exn) : Prop :=
  (exists code, e = DatabricksError code)
  \/ (exists k, e = KeyError k)
  \/ e = ValueError
           "need either configured warehouse_id or an existing SQL warehouse".

(** One group, and a configured warehouse that has no data source. *)
Definition cfg_missing_warehouse : DashboardFromFiles :=
  {| _local_folder := {| local_path := "/queries"; step_folders := one_group |};
     _remote_folder := "/remote";
     _name_prefix := "[UCX]";
     _query_text_callback := None;
     _warehouse_id := Some "missing" |}.

(** * Properties *)

(** ** Strings and keys *)

Lemma append_assoc (a b c : string) : (a ++ b) ++ c = a ++ (b ++ c).
Proof. induction a as [|x a IH]; simpl; [reflexivity | now rewrite IH]. Qed.

Lemma length_append (a b : string) :
  String.length (a ++ b) = String.length a + String.length b.
Proof. induction a as [|x a IH]; simpl; [reflexivity | now rewrite IH]. Qed.

Lemma append_inv_tail (s a b : string) : a ++ s = b ++ s -> a = b.
Proof.
  revert b; induction a as [|x a IH]; intros [|y b] H; simpl in H.
  - reflexivity.
  - apply (f_equal String.length) in H; simpl in H.
    rewrite length_append in H; lia.
  - apply (f_equal String.length) in H; simpl in H.
    rewrite length_append in H; lia.
  - injection H as -> H. f_equal. now apply IH.
Qed.

Lemma prefix_colon (c : ascii) (s : string) :
  String.prefix ":" (String c s) = Ascii.eqb c ":".
Proof.
  change (String.prefix ":" (String c s))
    with (if ascii_dec ":" c then String.prefix "" s else false).
  destruct (ascii_dec ":" c) as [<-|E].
  - destruct s; reflexivity.
  - symmetry. apply Ascii.eqb_neq. congruence.
Qed.

Lemma split_colon_cons (c : ascii) (s : string) :
  PyStr.split ":" (String c s) =
  if Ascii.eqb c ":" then "" :: PyStr.split ":" s
  else match PyStr.split ":" s with
       | [] => [String c ""]
       | h :: t => String c h :: t
       end.
Proof.
  unfold PyStr.split.
  change (PyStr.split_go ":" 0 (String c s))
    with (if String.prefix ":" (String c s)
          then "" :: PyStr.split_go ":" 0 s
          else match PyStr.split_go ":" 0 s with
               | [] => [String c ""]
               | h :: t => String c h :: t
               end).
  now rewrite prefix_colon.
Qed.

Lemma split_colon_nonempty (s : string) : PyStr.split ":" s <> [].
Proof.
  destruct s as [|c s]; [discriminate|].
  rewrite split_colon_cons.
  destruct (Ascii.eqb c ":"); [discriminate|].
  destruct (PyStr.split ":" s); discriminate.
Qed.

Lemma split_colon_app (a b : string) :
  PyStr.split ":" (a ++ ":" ++ b) = (PyStr.split ":" a ++ PyStr.split ":" b)%list.
Proof.
  induction a as [|c a IH].
  - change ("" ++ ":" ++ b) with (String ":" b).
    rewrite split_colon_cons. reflexivity.
  - change (String c a ++ ":" ++ b) with (String c (a ++ ":" ++ b)).
    rewrite !split_colon_cons, IH.
    destruct (Ascii.eqb c ":"); [reflexivity|].
    destruct (PyStr.split ":" a) as [|h t] eqn:E; [|reflexivity].
    now apply split_colon_nonempty in E.
Qed.

Lemma split_colon_free (s : string) :
  has_colon s = false -> PyStr.split ":" s = [s].
Proof.
  induction s as [|c s IH]; intros H; [reflexivity|].
  simpl in H. apply orb_false_iff in H as [Hc Hs].
  rewrite split_colon_cons, Hc, (IH Hs). reflexivity.
Qed.

Lemma split_colon_single (s : string) :
  length (PyStr.split ":" s) = 1 -> has_colon s = false.
Proof.
  induction s as [|c s IH]; intros H; [reflexivity|].
  rewrite split_colon_cons in H. simpl.
  destruct (Ascii.eqb c ":"); simpl in *.
  - pose proof (split_colon_nonempty s).
    destruct (PyStr.split ":" s); [congruence | simpl in H; lia].
  - apply IH. pose proof (split_colon_nonempty s).
    destruct (PyStr.split ":" s); [congruence | simpl in *; lia].
Qed.

Lemma kind_name_colon_free (k : kind) : has_colon (kind_name k) = false.
Proof. destruct k; reflexivity. Qed.

Lemma kind_name_inj (k k' : kind) : kind_name k = kind_name k' -> k = k'.
Proof. destruct k, k'; simpl; intros H; try reflexivity; discriminate. Qed.

Lemma split_derive_key (r : string) (k : kind) :
  PyStr.split ":" (derive_key r k) = (PyStr.split ":" r ++ [kind_name k])%list.
Proof.
  unfold derive_key.
  now rewrite split_colon_app, (split_colon_free _ (kind_name_colon_free k)).
Qed.

Lemma derive_key_inj (r r' : string) (k k' : kind) :
  derive_key r' k' = derive_key r k -> r' = r /\ k' = k.
Proof.
  intros H.
  assert (Hk : k' = k).
  { apply (f_equal (PyStr.split ":")) in H.
    rewrite !split_derive_key in H.
    apply app_inj_tail in H as [_ H]. now apply kind_name_inj. }
  subst k'. split; [|reflexivity].
  unfold derive_key in H. now apply append_inv_tail in H.
Qed.

Lemma query_key_derive (q : SimpleQuery) :
  query_key q = derive_key (query_ref q) query_id.
Proof. unfold query_key, derive_key, query_ref. now rewrite !append_assoc. Qed.

Lemma viz_key_derive (q : SimpleQuery) :
  viz_key q = derive_key (query_ref q) viz_id.
Proof. unfold viz_key, derive_key, query_ref. now rewrite !append_assoc. Qed.

Lemma widget_key_derive (q : SimpleQuery) :
  widget_key q = derive_key (query_ref q) widget_id.
Proof. unfold widget_key, derive_key, query_ref. now rewrite !append_assoc. Qed.

Lemma dashboard_key_derive (ref : string) :
  dashboard_key ref = derive_key ref dashboard_id.
Proof. reflexivity. Qed.

(** C9, as the code has it: a reference with a colon in it yields a key that
    the two-part split of the sweep and of the filter refuses. *)
Lemma state_key_split_fails_on_colon :
  split_key (derive_key "a:b" query_id)
  = Raise (ValueError "too many values to unpack (expected 2)")
  /\ ~ (forall r k, split_key (derive_key r k) = Return (r, kind_name k)).
Proof.
  split; [reflexivity|].
  intros H. specialize (H "a:b" query_id). discriminate H.
Qed.

(** C9, amended: the key of a reference and a kind is a function of the two,
    no two distinct pairs share a key, and for a reference without a colon
    the split on the separator gives the reference and the kind back; the
    keys of the program are keys of this form. *)
Theorem state_key_roundtrip (r : string) (k : kind) :
  derive_key r k = r ++ ":" ++ kind_name k
  /\ (forall r' k', derive_key r' k' = derive_key r k -> r' = r /\ k' = k)
  /\ (has_colon r = false ->
      split_key (derive_key r k) = Return (r, kind_name k))
  /\ (forall q, query_key q = derive_key (query_ref q) query_id
                /\ viz_key q = derive_key (query_ref q) viz_id
                /\ widget_key q = derive_key (query_ref q) widget_id)
  /\ (forall ref, dashboard_key ref = derive_key ref dashboard_id).
Proof.
  split; [reflexivity|].
  split; [intros r' k'; apply derive_key_inj|].
  split.
  - intros H. unfold split_key.
    now rewrite split_derive_key, (split_colon_free _ H).
  - split; [|reflexivity].
    intros q. auto using query_key_derive, viz_key_derive, widget_key_derive.
Qed.

Lemma state_key_roundtrip_witness :
  has_colon "assessment_main" = false
  /\ split_key (derive_key "assessment_main" dashboard_id)
     = Return ("assessment_main", "dashboard_id").
Proof.
  split; [reflexivity|].
  apply (proj1 (proj2 (proj2 (state_key_roundtrip "assessment_main" dashboard_id)))).
  reflexivity.
Defined.

(** ** The magic-comment loader *)

Lemma find_none_all {A} (p : A -> bool) (l : list A) :
  (forall x, In x l -> p x = false) -> find p l = None.
Proof.
  induction l as [|x l IH]; intros H; [reflexivity|].
  simpl. rewrite (H x (or_introl eq_refl)).
  apply IH. intros y Hy. apply H. now right.
Qed.

Lemma dict_of_parts_error (parts : list string) :
  forall i acc e, dict_of_parts i parts acc = Raise e -> exists m, e = ValueError m.
Proof.
  induction parts as [|p parts IH]; intros i acc e H; simpl in H; [discriminate|].
  destruct (PyStr.split "=" p) as [|a [|b [|c l]]]; try (injection H as <-; eauto).
  eapply IH; eauto.
Qed.

(** C6, on the code: a text without a line that starts with the marker makes
    [next] raise a bare [StopIteration]; the [SyntaxError] that names the file
    and the marker is not what comes out. *)
Theorem parse_magic_comment_missing_marker (f magic text : string) :
  (forall l, In l (PyStr.splitlines text) -> PyStr.startswith magic l = false) ->
  _parse_magic_comment f magic text = Raise StopIteration.
Proof.
  intros H. unfold _parse_magic_comment, next_startswith.
  now rewrite (find_none_all _ _ H).
Qed.

Lemma parse_magic_comment_missing_marker_witness :
  (forall l, In l (PyStr.splitlines "select 1") ->
             PyStr.startswith "-- viz " l = false)
  /\ _parse_magic_comment "q.sql" "-- viz " "select 1" = Raise StopIteration.
Proof.
  assert (H : forall l, In l (PyStr.splitlines "select 1") ->
                        PyStr.startswith "-- viz " l = false).
  { intros l [<-|[]]. reflexivity. }
  split; [exact H|].
  apply (parse_magic_comment_missing_marker "q.sql" "-- viz " "select 1" H).
Defined.

(** The message that names the file and the marker is out of reach for the
    two markers of the module: whatever the text, no [SyntaxError]. *)
Lemma parse_magic_comment_no_syntax_error (f magic text msg : string) :
  magic <> "" -> _parse_magic_comment f magic text <> Raise (SyntaxError msg).
Proof.
  intros Hm H. unfold _parse_magic_comment, next_startswith in H.
  destruct (find (PyStr.startswith magic) (PyStr.splitlines text)) as [l|] eqn:E;
    [|discriminate].
  apply find_some in E as [_ E].
  destruct (String.eqb_spec l "") as [->|Hl].
  - destruct magic; [congruence | discriminate E].
  - apply dict_of_parts_error in H as [m H]. discriminate.
Qed.

(** ** Loading the state *)

Ltac munfold :=
  unfold bind, ret, raise, lift, get_state, set_state, state_item, state_store,
    state_del, next_pos, logger, try_except, remote.




(** ** Dictionaries *)

Lemma str_in_In (k : string) (l : list string) : str_in k l = true <-> In k l.
Proof.
  unfold str_in. rewrite existsb_exists. split.
  - intros [x [Hx E]]. apply String.eqb_eq in E. now subst.
  - intros H. exists k. split; [assumption | apply String.eqb_refl].
Qed.

Lemma str_in_not_In (k : string) (l : list string) :
  str_in k l = false <-> ~ In k l.
Proof.
  rewrite <- str_in_In. destruct (str_in k l); split; congruence.
Qed.

Lemma dict_get_In {V} (k : string) (d : Dict.dict V) (v : V) :
  Dict.get k d = Some v -> In (k, v) d.
Proof.
  induction d as [|[k' v'] d IH]; simpl; [discriminate|].
  destruct (String.eqb_spec k k') as [->|_].
  - intros [= ->]. now left.
  - intros H. right. now apply IH.
Qed.

Lemma dict_get_None {V} (k : string) (d : Dict.dict V) :
  Dict.get k d = None <-> ~ In k (Dict.keys d).
Proof.
  induction d as [|[k' v'] d IH]; simpl; [tauto|].
  destruct (String.eqb_spec k k') as [->|Hk].
  - split; [discriminate | intros H; exfalso; apply H; now left].
  - rewrite IH. split; intros H; [intros [E|E]; [congruence | auto] | tauto].
Qed.

Lemma dict_mem_In {V} (k : string) (d : Dict.dict V) :
  Dict.mem k d = true <-> In k (Dict.keys d).
Proof.
  unfold Dict.mem. pose proof (dict_get_None k d) as H.
  destruct (Dict.get k d); split; intros H'; try reflexivity; try discriminate.
  - destruct (in_dec string_dec k (Dict.keys d)) as [|n]; [assumption|].
    apply H in n. discriminate.
  - exfalso. now apply (proj1 H).
Qed.

Lemma dict_set_fresh {V} (k : string) (v : V) (d : Dict.dict V) :
  ~ In k (Dict.keys d) -> Dict.set k v d = (d ++ [(k, v)])%list.
Proof.
  induction d as [|[k' v'] d IH]; simpl; intros H; [reflexivity|].
  destruct (String.eqb_spec k k') as [->|_]; [tauto|].
  rewrite IH; [reflexivity | tauto].
Qed.

Lemma kept_keys (desired : list string) (st : Dict.dict string) (k : string) :
  In k (Dict.keys (kept desired st)) -> In k (Dict.keys st).
Proof.
  unfold Dict.keys, kept. rewrite !in_map_iff.
  intros [kv [E H]]. apply filter_In in H as [H _]. eauto.
Qed.

(** ** Saving the state *)






(** The same save, run: the query is already gone, its deletion fails and
    is logged, the visualization after it is deleted all the same, the
    dashboard orphan is dropped without a call, and only the desired entry is
    uploaded. *)
Lemma store_query_state_best_effort :
  let r := _store_query_state Fake.platform remote_cfg stale_desired
             (sys_with stale_state stale_world) in
  fst r = Return tt
  /\ trace (snd r)
     = [(queries_delete "99", Some "RESOURCE_DOES_NOT_EXIST");
        (query_visualizations_delete "3", None);
        (workspace_upload "/remote/state.json"
           (Fake.Json [("g:dashboard_id", "1")]) AUTO true, None)]
  /\ log (snd r)
     = [(INFO, "Failed to delete query_id-99 --- RESOURCE_DOES_NOT_EXIST")]
  /\ Fake.live_vizs (world (snd r)) = [].
Proof. repeat split. Qed.

(** ** Keys that do not split in two *)

Lemma unpack2_bad (parts : list string) :
  length parts <> 2 -> exists msg, unpack2 parts = Raise (ValueError msg).
Proof.
  destruct parts as [|a [|b [|c l]]]; simpl; intros H; eauto. congruence.
Qed.

Lemma unpack2_ok (parts : list string) :
  length parts = 2 -> exists a b, parts = [a; b].
Proof.
  destruct parts as [|a [|b [|c l]]]; simpl; intros H; try discriminate. eauto.
Qed.

Lemma new_events_app {P : Platform} (s s' : Sys P) (evs : list (event (bytes P))) :
  trace s' = (trace s ++ evs)%list -> new_events s s' = evs.
Proof.
  intros H. unfold new_events. rewrite H.
  rewrite skipn_app, skipn_all, Nat.sub_diag. reflexivity.
Qed.

(** An entry whose key splits in two never makes the sweep raise. *)
Lemma sweep_entry_ok (P : Platform) (acc : list string) (kv : string * string)
    (s : Sys P) :
  length (PyStr.split ":" (fst kv)) = 2 ->
  exists acc' s', sweep_entry P acc kv s = (Return acc', s').
Proof.
  intros H. apply unpack2_ok in H as (a & b & H).
  unfold sweep_entry. munfold. rewrite H. cbn.
  destruct (String.eqb (fst kv) "dashboard_id"); [eauto|].
  destruct (negb (String.eqb b "query_id")); [eauto|].
  destruct (ws P (queries_get (snd kv)) (world s)) as [[u|code] w]; eauto.
Qed.

Lemma sweep_loop_malformed (P : Platform) (items : Dict.dict string) :
  forall (acc : list string) (s : Sys P) (k : string),
    In k (Dict.keys items) ->
    length (PyStr.split ":" k) <> 2 ->
    exists msg s',
      for_fold items acc (sweep_entry P) s = (Raise (ValueError msg), s').
Proof.
  induction items as [|kv items IH]; intros acc s k Hin Hbad; [destruct Hin|].
  cbn [for_fold]. unfold bind at 1.
  destruct (Nat.eq_dec (length (PyStr.split ":" (fst kv))) 2) as [Hok|Hko].
  - destruct (sweep_entry_ok P acc kv s Hok) as (acc' & s1 & E). rewrite E.
    destruct Hin as [<-|Hin]; [congruence|]. now apply (IH acc' s1 k).
  - destruct (unpack2_bad _ Hko) as [msg E].
    unfold sweep_entry. unfold bind at 1, lift at 1. rewrite E. eauto.
Qed.

(** An entry that is desired, or whose key splits in two, never makes the
    filter raise, and its only call is a deletion. *)
Lemma store_entry_ok (P : Platform) (desired : list string)
    (acc : Dict.dict string) (kv : string * string) (s : Sys P) :
  str_in (fst kv) desired = true \/ length (PyStr.split ":" (fst kv)) = 2 ->
  exists acc' s' evs,
    store_entry P desired acc kv s = (Return acc', s')
    /\ trace s' = (trace s ++ evs)%list
    /\ forallb (fun ev => negb (is_upload ev)) evs = true.
Proof.
  intros H. unfold store_entry.
  destruct (str_in (fst kv) desired) eqn:Hd.
  - exists (Dict.set (fst kv) (snd kv) acc), s, []. now rewrite app_nil_r.
  - destruct H as [H|H]; [discriminate|].
    apply unpack2_ok in H as (a & b & H). munfold. rewrite H. cbn.
    unfold destructors.
    destruct (String.eqb b "query_id");
      [|destruct (String.eqb b "viz_id"); [|destruct (String.eqb b "widget_id")]].
    4: { exists acc, s, []. now rewrite app_nil_r. }
    all: match goal with |- context [ws ?Q ?c (world ?x)] =>
           destruct (ws Q c (world x)) as [[u|code] w] end;
      cbn; eexists _, _, [_]; repeat split.
Qed.

Lemma store_loop_malformed (P : Platform) (desired : list string)
    (items : Dict.dict string) :
  forall (acc : Dict.dict string) (s : Sys P) (k : string),
    In k (Dict.keys items) ->
    str_in k desired = false ->
    length (PyStr.split ":" k) <> 2 ->
    exists msg s' evs,
      for_fold items acc (store_entry P desired) s = (Raise (ValueError msg), s')
      /\ trace s' = (trace s ++ evs)%list
      /\ forallb (fun ev => negb (is_upload ev)) evs = true.
Proof.
  induction items as [|kv items IH]; intros acc s k Hin Hd Hbad; [destruct Hin|].
  cbn [for_fold]. unfold bind at 1.
  destruct (str_in (fst kv) desired) eqn:Hkv;
    [|destruct (Nat.eq_dec (length (PyStr.split ":" (fst kv))) 2) as [Hok|Hko]].
  - destruct (store_entry_ok P desired acc kv s (or_introl Hkv))
      as (acc' & s1 & evs1 & E & Ht & Hu). rewrite E.
    destruct Hin as [<-|Hin]; [congruence|].
    destruct (IH acc' s1 k Hin Hd Hbad) as (msg & s' & evs & E' & Ht' & Hu').
    exists msg, s', (evs1 ++ evs)%list. rewrite E', Ht', Ht, <- app_assoc.
    repeat split. rewrite forallb_app, Hu, Hu'. reflexivity.
  - destruct (store_entry_ok P desired acc kv s (or_intror Hok))
      as (acc' & s1 & evs1 & E & Ht & Hu). rewrite E.
    destruct Hin as [<-|Hin]; [congruence|].
    destruct (IH acc' s1 k Hin Hd Hbad) as (msg & s' & evs & E' & Ht' & Hu').
    exists msg, s', (evs1 ++ evs)%list. rewrite E', Ht', Ht, <- app_assoc.
    repeat split. rewrite forallb_app, Hu, Hu'. reflexivity.
  - destruct (unpack2_bad _ Hko) as [msg E].
    unfold store_entry. rewrite Hkv. unfold bind at 1, lift at 1. rewrite E.
    exists msg, s, []. now rewrite app_nil_r.
Qed.

(** C10, on the code: a fresh install from a step folder with a colon in its
    name runs to the end; the key with two colons that it accumulates is
    desired, so the save keeps it without splitting it, and uploads it. *)
Lemma save_keeps_desired_key_with_colons :
  let r := create_dashboards Fake.platform (cfg_of colon_group)
             (init Fake.platform Fake.empty) in
  fst r = Return [("a:b_main", "1")]
  /\ _state (snd r) = [("a:b_main:dashboard_id", "1")]
  /\ length (PyStr.split ":" "a:b_main:dashboard_id") = 3
  /\ Fake.files (world (snd r))
     = [("/remote/state.json", Fake.Json [("a:b_main:dashboard_id", "1")])]
  /\ ~ (forall (s : Sys Fake.platform) queries k,
          In k (Dict.keys (_state s)) ->
          length (PyStr.split ":" k) <> 2 ->
          exists msg s',
            _store_query_state Fake.platform (cfg_of colon_group) queries s
            = (Raise (ValueError msg), s')).
Proof.
  repeat split.
  intros H.
  destruct (H (sys_with [("a:b_main:dashboard_id", "1")] Fake.empty)
              [("a:b_main", [])] "a:b_main:dashboard_id")
    as (msg & s' & E).
  - now left.
  - vm_compute. discriminate.
  - vm_compute in E. discriminate E.
Qed.

(** C10, amended: the sweep of a load splits every key of the loaded state,
    so one key with no colon or with several makes the load raise
    [ValueError], which no handler of the load catches; the filter of a save
    splits the keys that are not desired, so one such key that does not split
    in two makes the save raise [ValueError] before the upload. *)
Theorem malformed_key_raises (P : Platform) (self : DashboardFromFiles) :
  (forall (s : Sys P) content pairs w1 k,
      ws P (workspace_download (_query_state self)) (world s) = (Ok content, w1) ->
      json_load P content = Some pairs ->
      In k (Dict.keys (Dict.of_pairs pairs)) ->
      length (PyStr.split ":" k) <> 2 ->
      exists msg s',
        _installed_query_state P self s = (Raise (ValueError msg), s'))
  /\ (forall (s : Sys P) queries k,
         In k (Dict.keys (_state s)) ->
         str_in k (desired_keys_of queries) = false ->
         length (PyStr.split ":" k) <> 2 ->
         exists msg s',
           _store_query_state P self queries s = (Raise (ValueError msg), s')
           /\ exists evs, trace s' = (trace s ++ evs)%list
                          /\ forallb (fun ev => negb (is_upload ev)) evs = true).
Proof.
  split.
  - intros s content pairs w1 k Hd Hj Hin Hbad.
    unfold _installed_query_state.
    unfold bind at 1, try_except, bind at 1, remote at 1. rewrite Hd, Hj.
    unfold bind at 1, set_state at 1. unfold bind at 1, get_state at 1.
    cbn [_state]. unfold bind at 1.
    match goal with |- context [for_fold _ _ _ ?s1] =>
      destruct (sweep_loop_malformed P (Dict.of_pairs pairs) [] s1 k Hin Hbad)
        as (msg & s' & E) end.
    rewrite E. eauto.
  - intros s queries k Hin Hd Hbad.
    destruct (store_loop_malformed P (desired_keys_of queries) (_state s) [] s k
                Hin Hd Hbad) as (msg & s' & evs & E & Ht & Hu).
    exists msg, s'. split; [|eauto].
    unfold _store_query_state, bind, get_state.
    match goal with
    | |- context [for_fold ?l ?a ?f s] =>
        replace (for_fold l a f s) with (@Raise (Dict.dict string) (ValueError msg), s')
          by (symmetry; exact E)
    end.
    reflexivity.
Qed.

Lemma malformed_key_raises_witness :
  (exists msg s',
      _installed_query_state Fake.platform remote_cfg (sys_with [] flat_key_world)
      = (Raise (ValueError msg), s'))
  /\ (exists msg s',
         _store_query_state Fake.platform remote_cfg []
           (sys_with [("legacy", "1")] stale_world)
         = (Raise (ValueError msg), s')
         /\ exists evs, trace s' = ([] ++ evs)%list
                        /\ forallb (fun ev => negb (is_upload ev)) evs = true).
Proof.
  split.
  - refine (proj1 (malformed_key_raises Fake.platform remote_cfg)
              (sys_with [] flat_key_world) (Fake.Json [("legacy", "1")])
              [("legacy", "1")] flat_key_world "legacy" eq_refl eq_refl _ _).
    + now left.
    + vm_compute. discriminate.
  - refine (proj2 (malformed_key_raises Fake.platform remote_cfg)
              (sys_with [("legacy", "1")] stale_world) [] "legacy" _ eq_refl _).
    + now left.
    + vm_compute. discriminate.
Defined.

(** ** Rules for [wp] *)

Section Rules.

Variable P : Platform.

Lemma wp_mono {A} (m : M P A) (post post' : A -> Sys P -> Prop)
    (epost epost' : exn -> Sys P -> Prop) (s : Sys P) :
  wp m post epost s ->
  (forall a s', post a s' -> post' a s') ->
  (forall e s', epost e s' -> epost' e s') ->
  wp m post' epost' s.
Proof.
  unfold wp. destruct (m s) as [[a|e] s']; auto.
Qed.

Lemma wp_bind {A B} (m : M P A) (k : A -> M P B) post epost (s : Sys P) :
  wp m (fun a s' => wp (k a) post epost s') epost s ->
  wp (bind m k) post epost s.
Proof.
  unfold wp, bind. destruct (m s) as [[a|e] s']; auto.
Qed.

Lemma wp_ret {A} (a : A) (post : A -> Sys P -> Prop) epost (s : Sys P) :
  post a s -> wp (ret a) post epost s.
Proof. auto. Qed.

Lemma wp_raise {A} (e : exn) (post : A -> Sys P -> Prop)
    (epost : exn -> Sys P -> Prop) (s : Sys P) :
  epost e s -> wp (raise e) post epost s.
Proof. auto. Qed.

Lemma wp_lift {A} (o : outcome A) (post : A -> Sys P -> Prop)
    (epost : exn -> Sys P -> Prop) (s : Sys P) :
  match o with Return a => post a s | Raise e => epost e s end ->
  wp (lift o) post epost s.
Proof. unfold wp, lift. destruct o; auto. Qed.

Lemma wp_try {A} (body : M P A) handler (post : A -> Sys P -> Prop)
    (epost : exn -> Sys P -> Prop) (s : Sys P) :
  wp body post
     (fun e s' => match handler e with
                  | Some h => wp h post epost s'
                  | None => epost e s'
                  end) s ->
  wp (try_except body handler) post epost s.
Proof.
  unfold wp, try_except. destruct (body s) as [[a|e] s']; auto.
  destruct (handler e); auto.
Qed.

Lemma wp_remote (c : call (bytes P)) (post : reply c -> Sys P -> Prop)
    (epost : exn -> Sys P -> Prop) (s : Sys P) :
  match ws P c (world s) with
  | (Ok a, w') => post a (after_calls s w' [(c, None)])
  | (Failed code, w') =>
      epost (DatabricksError code) (after_calls s w' [(c, Some code)])
  end ->
  wp (remote c) post epost s.
Proof.
  unfold wp, remote, after_calls.
  destruct (ws P c (world s)) as [[a|code] w']; auto.
Qed.

Lemma wp_for_each {A} (I : list A -> Sys P -> Prop) (l : list A)
    (body : A -> M P unit) (post : unit -> Sys P -> Prop) epost :
  forall s,
    I [] s ->
    (forall done x rest s1,
        l = (done ++ x :: rest)%list -> I done s1 ->
        wp (body x) (fun _ s2 => I (done ++ [x])%list s2) epost s1) ->
    (forall s1, I l s1 -> post tt s1) ->
    wp (for_each l body) post epost s.
Proof.
  assert (G : forall rest done s,
             l = (done ++ rest)%list -> I done s ->
             (forall done x rest s1,
                 l = (done ++ x :: rest)%list -> I done s1 ->
                 wp (body x) (fun _ s2 => I (done ++ [x])%list s2) epost s1) ->
             (forall s1, I l s1 -> post tt s1) ->
             wp (for_each rest body) post epost s).
  { induction rest as [|x rest IH]; intros done s Hl HI Hstep Hpost.
    - rewrite app_nil_r in Hl. subst done. now apply Hpost.
    - cbn [for_each]. apply wp_bind.
      eapply wp_mono; [apply (Hstep done x rest s Hl HI) | | auto].
      intros u s' HI'. apply (IH (done ++ [x])%list); auto.
      now rewrite <- app_assoc. }
  intros s HI Hstep Hpost. now apply (G l []).
Qed.

Lemma wp_for_fold {A B} (I : list A -> B -> Sys P -> Prop) (l : list A)
    (body : B -> A -> M P B) (post : B -> Sys P -> Prop) epost :
  forall acc s,
    I [] acc s ->
    (forall done x rest acc1 s1,
        l = (done ++ x :: rest)%list -> I done acc1 s1 ->
        wp (body acc1 x) (fun acc2 s2 => I (done ++ [x])%list acc2 s2) epost s1) ->
    (forall acc1 s1, I l acc1 s1 -> post acc1 s1) ->
    wp (for_fold l acc body) post epost s.
Proof.
  assert (G : forall rest done acc s,
             l = (done ++ rest)%list -> I done acc s ->
             (forall done x rest acc1 s1,
                 l = (done ++ x :: rest)%list -> I done acc1 s1 ->
                 wp (body acc1 x)
                    (fun acc2 s2 => I (done ++ [x])%list acc2 s2) epost s1) ->
             (forall acc1 s1, I l acc1 s1 -> post acc1 s1) ->
             wp (for_fold rest acc body) post epost s).
  { induction rest as [|x rest IH]; intros done acc s Hl HI Hstep Hpost.
    - rewrite app_nil_r in Hl. subst done. now apply Hpost.
    - cbn [for_fold]. apply wp_bind.
      eapply wp_mono; [apply (Hstep done x rest acc s Hl HI) | | auto].
      intros acc' s' HI'. apply (IH (done ++ [x])%list); auto.
      now rewrite <- app_assoc. }
  intros acc s HI Hstep Hpost. now apply (G l []).
Qed.

(** What a computation did, read off [wp]. *)
Lemma wp_run {A} (m : M P A) post epost (s : Sys P) :
  wp m post epost s ->
  exists out s', m s = (out, s')
                 /\ match out with
                    | Return a => post a s'
                    | Raise e => epost e s'
                    end.
Proof.
  unfold wp. destruct (m s) as [[a|e] s'] eqn:E; eauto.
Qed.

End Rules.

(** ** Validation *)

Lemma untouched_refl {P : Platform} (s : Sys P) : untouched s s.
Proof. now repeat split. Qed.

Lemma untouched_trans {P : Platform} (s1 s2 s3 : Sys P) :
  untouched s1 s2 -> untouched s2 s3 -> untouched s1 s3.
Proof.
  intros (a & b & c) (a' & b' & c'). repeat split; congruence.
Qed.

Lemma validate_query_wp (P : Platform) (self : DashboardFromFiles)
    (q : SimpleQuery) (s : Sys P) :
  wp (validate_query P q)
     (fun _ s' => untouched s s' /\ builders_ok q)
     (fun e s' =>
        untouched s s'
        /\ exists err, e = validation_error q err
                       /\ (_get_viz_options q = Raise err
                           \/ exists pos, widget_options_at pos q = Raise err))
     s.
Proof.
  unfold wp, validate_query, _get_widget_options, validation_error, builders_ok.
  munfold.
  destruct (_get_viz_options q) as [args|err] eqn:Hv; cbn.
  - destruct (widget_options_at (_pos s + 1) q) as [o|err] eqn:Hw; cbn.
    + split; [now repeat split | eauto].
    + split; [now repeat split | eauto 6].
  - split; [now repeat split | eauto].
Qed.

Lemma validate_dashboard_wp (P : Platform) (self : DashboardFromFiles)
    (step : StepFolder) (dash : DashboardFolder) (s : Sys P) :
  In step (step_folders (_local_folder self)) ->
  In dash (dashboard_folders step) ->
  wp (validate_dashboard P self step dash)
     (fun _ s' =>
        untouched s s'
        /\ exists qs, group_queries self step dash = Return qs
                      /\ forall q, In q qs -> builders_ok q)
     (fun e s' => untouched s s' /\ validation_failure self e)
     s.
Proof.
  intros Hstep Hdash. unfold validate_dashboard, _desired_queries.
  apply wp_bind, wp_lift. fold (group_queries self step dash).
  destruct (group_queries self step dash) as [qs|e] eqn:Hq.
  - apply (wp_for_each P
             (fun done s' => untouched s s' /\ forall q, In q done -> builders_ok q)).
    + split; [apply untouched_refl | intros q []].
    + intros done q rest s1 Hl [Hu Hdone].
      eapply wp_mono; [apply (validate_query_wp P self q s1) | |].
      * intros _ s2 [Hu2 Hok]. split; [eapply untouched_trans; eauto|].
        intros q' Hin. apply in_app_or in Hin as [Hin|[<-|[]]]; auto.
      * intros e s2 [Hu2 (err & -> & Herr)].
        split; [eapply untouched_trans; eauto|].
        right. exists q, err. repeat split; [|assumption].
        exists step, dash, qs. repeat split; auto.
        rewrite Hl. apply in_or_app. right. now left.
    + intros s1 [Hu Hall]. eauto.
  - split; [apply untouched_refl|]. left. eauto.
Qed.

Lemma validate_step_wp (P : Platform) (self : DashboardFromFiles)
    (step : StepFolder) (s : Sys P) :
  In step (step_folders (_local_folder self)) ->
  wp (validate_step P self step)
     (fun _ s' =>
        untouched s s'
        /\ forall dash, In dash (dashboard_folders step) ->
             exists qs, group_queries self step dash = Return qs
                        /\ forall q, In q qs -> builders_ok q)
     (fun e s' => untouched s s' /\ validation_failure self e)
     s.
Proof.
  intros Hstep. unfold validate_step. apply wp_bind.
  unfold wp at 1, logger.
  apply (wp_for_each P
           (fun done s' =>
              untouched s s'
              /\ forall dash, In dash done ->
                   exists qs, group_queries self step dash = Return qs
                              /\ forall q, In q qs -> builders_ok q)).
  - split; [now repeat split | intros dash []].
  - intros done dash rest s1 Hl [Hu Hdone].
    eapply wp_mono; [apply (validate_dashboard_wp P self step dash s1 Hstep) | |].
    + rewrite Hl. apply in_or_app. right. now left.
    + intros _ s2 [Hu2 Hok]. split; [eapply untouched_trans; eauto|].
      intros d Hin. apply in_app_or in Hin as [Hin|[<-|[]]]; auto.
    + intros e s2 [Hu2 Hf]. split; [eapply untouched_trans; eauto | assumption].
  - intros s1 H. exact H.
Qed.

(** C8, on the code: the error names the query by its file name alone, so
    the same failure comes out for a query of that name in another group; and
    it is the first error only, so a second faulty query changes nothing. *)
Lemma validate_error_has_no_group_and_is_first_only :
  let one := fst (validate Fake.platform (cfg_of pie_group)
                    (init Fake.platform Fake.empty)) in
  one = Raise (validation_error
                 {| dashboard_ref := "assessment_main"; name := "tables.sql";
                    query := file_text (sql_file "tables.sql" "pie");
                    viz := [("type", "pie"); ("name", "Rows"); ("columns", "a,b")];
                    widget := [("title", "Rows"); ("col", "0")] |}
                 (SyntaxError (file_text (sql_file "tables.sql" "pie")
                               ++ ": unknown viz type: pie")))
  /\ fst (validate Fake.platform (cfg_of pie_elsewhere)
            (init Fake.platform Fake.empty)) = one
  /\ group_ref "migration" "main" <> group_ref "assessment" "main"
  /\ fst (validate Fake.platform (cfg_of two_pies)
            (init Fake.platform Fake.empty)) = one.
Proof.
  repeat split. vm_compute. discriminate.
Qed.

(** The error of a widget definition does not depend on the counter. *)
Lemma widget_options_raise_any_pos (q : SimpleQuery) (pos pos' : Z) (e : exn) :
  widget_options_at pos q = Raise e -> widget_options_at pos' q = Raise e.
Proof.
  unfold widget_options_at, int_attr.
  destruct (Dict.get "col" (widget q)) as [c|];
    [destruct (PyStr.int c); [|auto]|];
    (destruct (Dict.get "row" (widget q)) as [r|];
     [destruct (PyStr.int r); [|auto]|]);
    (destruct (Dict.get "size_x" (widget q)) as [x|];
     [destruct (PyStr.int x); [|auto]|]);
    (destruct (Dict.get "size_y" (widget q)) as [y|];
     [destruct (PyStr.int y); [|auto]|]);
    discriminate.
Qed.

Lemma parse_magic_comment_error_kind (f magic text : string) (e : exn) :
  magic <> "" -> _parse_magic_comment f magic text = Raise e -> loader_error e.
Proof.
  intros Hm H. unfold _parse_magic_comment, next_startswith in H.
  destruct (find (PyStr.startswith magic) (PyStr.splitlines text)) as [l|] eqn:E.
  - destruct (String.eqb_spec l "") as [->|Hl].
    + apply find_some in E as [_ E].
      destruct magic; [contradiction | discriminate E].
    + right. eapply dict_of_parts_error. exact H.
  - injection H as <-. now left.
Qed.

Lemma desired_queries_error_kind (callback : option (string -> string))
    (folder_path ref : string) (files : list SqlFile) (e : exn) :
  desired_queries_of callback folder_path ref files = Raise e -> loader_error e.
Proof.
  induction files as [|f files IH]; cbn [desired_queries_of]; [discriminate|].
  destruct (_parse_magic_comment _ "-- viz " _) as [v|e1] eqn:Ev.
  - destruct (_parse_magic_comment _ "-- widget " _) as [w|e2] eqn:Ew.
    + destruct (desired_queries_of callback folder_path ref files) as [rest|e3];
        [discriminate|].
      intros [= <-]. now apply IH.
    + intros [= <-].
      apply (parse_magic_comment_error_kind _ "-- widget " _ _ ltac:(discriminate) Ew).
  - intros [= <-].
    apply (parse_magic_comment_error_kind _ "-- viz " _ _ ltac:(discriminate) Ev).
Qed.

Lemma validate_query_first (P : Platform) (q : SimpleQuery) (s : Sys P) :
  wp (validate_query P q)
     (fun _ s' => untouched s s' /\ builders_ok q)
     (fun e s' =>
        untouched s s'
        /\ exists err,
            e = AssertionError ("Error in " ++ name q ++ ": " ++ exn_str err) err
            /\ builder_error q err)
     s.
Proof.
  unfold wp, validate_query, _get_widget_options, builders_ok, builder_error.
  munfold.
  destruct (_get_viz_options q) as [args|err] eqn:Hv; cbn.
  - destruct (widget_options_at (_pos s + 1) q) as [o|err] eqn:Hw; cbn.
    + split; [now repeat split | eauto].
    + split; [now repeat split|]. exists err. split; [reflexivity|].
      right. split; [eauto|]. intros pos.
      now apply (widget_options_raise_any_pos q (_pos s + 1)).
  - split; [now repeat split|]. exists err. split; [reflexivity | now left].
Qed.

Lemma validate_dashboard_first (P : Platform) (self : DashboardFromFiles)
    (step : StepFolder) (dash : DashboardFolder) (s : Sys P) :
  wp (validate_dashboard P self step dash)
     (fun _ s' => untouched s s' /\ group_ok self (step, dash))
     (fun e s' => untouched s s' /\ failure_at self step dash e)
     s.
Proof.
  unfold validate_dashboard, _desired_queries, failure_at, group_ok.
  apply wp_bind, wp_lift. fold (group_queries self step dash). cbn [fst snd].
  destruct (group_queries self step dash) as [qs|e] eqn:Hq.
  - apply (wp_for_each P
             (fun done s' => untouched s s' /\ forall q, In q done -> builders_ok q)).
    + split; [apply untouched_refl | intros q []].
    + intros done q rest s1 Hl [Hu Hdone].
      eapply wp_mono; [apply (validate_query_first P q s1) | |].
      * intros _ s2 [Hu2 Hok]. split; [eapply untouched_trans; eauto|].
        intros q' Hin. apply in_app_or in Hin as [Hin|[<-|[]]]; auto.
      * intros e s2 [Hu2 (err & -> & Herr)].
        split; [eapply untouched_trans; eauto|].
        right. exists done, q, rest, err. rewrite <- Hl.
        split; [reflexivity|]. split; [exact Hdone|].
        split; [exact Herr | reflexivity].
    + intros s1 [Hu Hall]. eauto.
  - split; [apply untouched_refl|]. left. split; [reflexivity|].
    unfold group_queries in Hq. now apply desired_queries_error_kind in Hq.
Qed.

Lemma validate_step_first (P : Platform) (self : DashboardFromFiles)
    (step : StepFolder) (s : Sys P) :
  wp (validate_step P self step)
     (fun _ s' =>
        untouched s s'
        /\ forall dash, In dash (dashboard_folders step) ->
                        group_ok self (step, dash))
     (fun e s' =>
        untouched s s'
        /\ exists before dash after,
            dashboard_folders step = (before ++ dash :: after)%list
            /\ (forall d, In d before -> group_ok self (step, d))
            /\ failure_at self step dash e)
     s.
Proof.
  unfold validate_step. apply wp_bind. unfold wp at 1, logger.
  apply (wp_for_each P
           (fun done s' =>
              untouched s s'
              /\ forall dash, In dash done -> group_ok self (step, dash))).
  - split; [now repeat split | intros dash []].
  - intros done dash rest s1 Hl [Hu Hdone].
    eapply wp_mono; [apply (validate_dashboard_first P self step dash s1) | |].
    + intros _ s2 [Hu2 Hok]. split; [eapply untouched_trans; eauto|].
      intros d Hin. apply in_app_or in Hin as [Hin|[<-|[]]]; auto.
    + intros e s2 [Hu2 Hf]. split; [eapply untouched_trans; eauto|].
      exists done, dash, rest.
      split; [exact Hl|]. split; [exact Hdone | exact Hf].
  - intros s1 H. exact H.
Qed.

Lemma validate_first (P : Platform) (self : DashboardFromFiles) (s : Sys P) :
  wp (validate P self)
     (fun _ s' => untouched s s')
     (fun e s' => untouched s s' /\ first_failure self e)
     s.
Proof.
  unfold validate.
  apply (wp_for_each P
           (fun done s' =>
              untouched s s'
              /\ forall step, In step done ->
                   forall dash, In dash (dashboard_folders step) ->
                                group_ok self (step, dash))).
  - split; [apply untouched_refl | intros step []].
  - intros done step rest s1 Hl [Hu Hdone].
    eapply wp_mono; [apply (validate_step_first P self step s1) | |].
    + intros _ s2 [Hu2 Hok]. split; [eapply untouched_trans; eauto|].
      intros st Hst. apply in_app_or in Hst as [Hst|[<-|[]]]; auto.
    + intros e s2 [Hu2 (before & dash & after & Hd & Hb & Hf)].
      split; [eapply untouched_trans; eauto|].
      exists (flat_map (fun st => map (fun d => (st, d)) (dashboard_folders st))
                done
              ++ map (fun d => (step, d)) before)%list,
             step, dash,
             (map (fun d => (step, d)) after
              ++ flat_map (fun st => map (fun d => (st, d)) (dashboard_folders st))
                   rest)%list.
      split; [|split; [|exact Hf]].
      * unfold folder_groups. rewrite Hl, flat_map_app. cbn [flat_map].
        rewrite Hd, map_app. cbn [map]. now rewrite <- !app_assoc.
      * intros g Hg. apply in_app_or in Hg as [Hg|Hg].
        -- apply in_flat_map in Hg as (st & Hst & Hg).
           apply in_map_iff in Hg as (d & <- & Hin). now apply Hdone.
        -- apply in_map_iff in Hg as (d & <- & Hin). now apply Hb.
  - intros s1 [Hu _]. exact Hu.
Qed.

(** The first error is one error: the failing group and the failing query
    are the first that are not in order, and a query is refused with one
    error. *)
Lemma builder_error_not_ok (q : SimpleQuery) (err : exn) :
  builder_error q err -> ~ builders_ok q.
Proof.
  intros [Hv|[_ Hw]] [[args Ha] (pos & o & Ho)].
  - rewrite Hv in Ha. discriminate.
  - rewrite (Hw pos) in Ho. discriminate.
Qed.

Lemma builder_error_unique (q : SimpleQuery) (e1 e2 : exn) :
  builder_error q e1 -> builder_error q e2 -> e1 = e2.
Proof.
  intros [H1|[[a1 H1] W1]] [H2|[[a2 H2] W2]].
  - rewrite H1 in H2. now injection H2.
  - rewrite H1 in H2. discriminate.
  - rewrite H1 in H2. discriminate.
  - specialize (W1 0%Z). rewrite (W2 0%Z) in W1. now injection W1.
Qed.

Lemma first_split_unique {A : Type} (ok : A -> Prop) (b1 : list A) :
  forall (b2 a1 a2 : list A) (x1 x2 : A),
    (b1 ++ x1 :: a1 = b2 ++ x2 :: a2)%list ->
    (forall y, In y b1 -> ok y) -> (forall y, In y b2 -> ok y) ->
    ~ ok x1 -> ~ ok x2 ->
    x1 = x2.
Proof.
  induction b1 as [|y b1 IH]; intros [|z b2] a1 a2 x1 x2 E H1 H2 N1 N2;
    cbn in E.
  - now injection E.
  - injection E as <- _. exfalso. apply N1, H2. now left.
  - injection E as -> _. exfalso. apply N2, H1. now left.
  - injection E as _ E. apply (IH b2 a1 a2 x1 x2 E); auto.
    + intros w Hw. apply H1. now right.
    + intros w Hw. apply H2. now right.
Qed.

Lemma failure_at_not_ok (self : DashboardFromFiles) (step : StepFolder)
    (dash : DashboardFolder) (e : exn) :
  failure_at self step dash e -> ~ group_ok self (step, dash).
Proof.
  intros [[Hq _]|(done & q & rest & err & Hq & _ & Hb & _)] (qs & Hqs & Hok);
    cbn [fst snd] in Hqs; rewrite Hq in Hqs.
  - discriminate.
  - injection Hqs as <-. apply (builder_error_not_ok q err Hb), Hok.
    apply in_or_app. right. now left.
Qed.

Lemma failure_at_unique (self : DashboardFromFiles) (step : StepFolder)
    (dash : DashboardFolder) (e1 e2 : exn) :
  failure_at self step dash e1 -> failure_at self step dash e2 -> e1 = e2.
Proof.
  intros [[H1 _]|(d1 & q1 & r1 & err1 & H1 & Hd1 & Hb1 & ->)]
         [[H2 _]|(d2 & q2 & r2 & err2 & H2 & Hd2 & Hb2 & ->)];
    rewrite H1 in H2; try discriminate.
  - now injection H2.
  - injection H2 as H2.
    assert (Hq : q1 = q2).
    { apply (first_split_unique builders_ok d1 d2 r1 r2 q1 q2 H2 Hd1 Hd2);
        eapply builder_error_not_ok; eauto. }
    subst q2. now rewrite (builder_error_unique q1 err1 err2 Hb1 Hb2).
Qed.

Lemma first_failure_unique (self : DashboardFromFiles) (e1 e2 : exn) :
  first_failure self e1 -> first_failure self e2 -> e1 = e2.
Proof.
  intros (b1 & s1 & d1 & a1 & E1 & Hb1 & F1) (b2 & s2 & d2 & a2 & E2 & Hb2 & F2).
  rewrite E1 in E2.
  assert (Hg : (s1, d1) = (s2, d2)).
  { apply (first_split_unique (group_ok self) b1 b2 a1 a2 _ _ E2 Hb1 Hb2);
      eapply failure_at_not_ok; eauto. }
  injection Hg as <- <-. now apply (failure_at_unique self s1 d1).
Qed.

(** A file without a marker: the error of [validate] is the bare
    [StopIteration] of the loader, not an [AssertionError], and it does not
    name the file. *)
Lemma validate_missing_marker_is_not_wrapped :
  fst (validate Fake.platform (cfg_of no_marker_group)
         (init Fake.platform Fake.empty)) = Raise StopIteration.
Proof. vm_compute. reflexivity. Qed.

(** C8, amended: [validate] makes no remote call and leaves the workspace and
    the state in memory as they were.  When it returns, every group has
    loaded and both builders have accepted every desired query.  When it
    raises, it raises the first error met, in the order of the folders: every
    group before the failing one has loaded and has all its queries accepted
    by both builders, and the failing group either does not load, and the
    error is the [StopIteration] or the [ValueError] of the loader as it is,
    with no name in it; or it loads, the queries before the failing one are
    accepted by both builders, and the error is the [AssertionError] that
    carries the name of the failing query, not its group, and the message of
    the builder that refused it.  No other error is the first one in this
    sense. *)
Theorem validate_is_dry_and_raises_first_error (P : Platform)
    (self : DashboardFromFiles) (s : Sys P) :
  exists out s',
    validate P self s = (out, s')
    /\ untouched s s'
    /\ match out with
       | Return _ => all_definitions_ok self
       | Raise e =>
           validation_failure self e
           /\ first_failure self e
           /\ forall e', first_failure self e' -> e' = e
       end.
Proof.
  assert (H : wp (validate P self)
                (fun _ s' => untouched s s' /\ all_definitions_ok self)
                (fun e s' => untouched s s' /\ validation_failure self e) s).
  { unfold validate.
    apply (wp_for_each P
             (fun done s' =>
                untouched s s'
                /\ forall step, In step done ->
                     forall dash, In dash (dashboard_folders step) ->
                       exists qs, group_queries self step dash = Return qs
                                  /\ forall q, In q qs -> builders_ok q)).
    - split; [apply untouched_refl | intros step []].
    - intros done step rest s1 Hl [Hu Hdone].
      assert (Hin : In step (step_folders (_local_folder self))).
      { rewrite Hl. apply in_or_app. right. now left. }
      eapply wp_mono; [apply (validate_step_wp P self step s1 Hin) | |].
      + intros _ s2 [Hu2 Hok]. split; [eapply untouched_trans; eauto|].
        intros st Hst. apply in_app_or in Hst as [Hst|[<-|[]]]; auto.
      + intros e s2 [Hu2 Hf]. split; [eapply untouched_trans; eauto | assumption].
    - intros s1 [Hu Hall]. split; [assumption|].
      intros step dash Hs Hd. now apply (Hall step Hs dash Hd). }
  pose proof (validate_first P self s) as H2. unfold wp in H, H2.
  destruct (validate P self s) as [[u|e] s'] eqn:E.
  - exists (Return u), s'. destruct H as [Hu Hok].
    split; [reflexivity|]. split; [exact Hu | exact Hok].
  - exists (Raise e), s'. destruct H as [Hu Hf]. destruct H2 as [_ Hfirst].
    split; [reflexivity|]. split; [exact Hu|]. split; [exact Hf|].
    split; [exact Hfirst|]. intros e' He'.
    exact (first_failure_unique self e' e He' Hfirst).
Qed.

(** ** Unknown viz kinds *)

Lemma unknown_kind_raises (q : SimpleQuery) :
  known_viz_type q = false -> _get_viz_options q = Raise (unknown_viz_type q).
Proof.
  unfold known_viz_type, _get_viz_options, unknown_viz_type, Dict.mem.
  destruct (viz_type q) as [t|]; [|reflexivity].
  destruct (Dict.get t viz_types); [discriminate | reflexivity].
Qed.

Lemma only_calls_refl {P : Platform} (names : list string) (s : Sys P) :
  only_calls names s s.
Proof. exists []. now rewrite app_nil_r. Qed.

Lemma only_calls_trans {P : Platform} (names : list string) (s1 s2 s3 : Sys P) :
  only_calls names s1 s2 -> only_calls names s2 s3 -> only_calls names s1 s3.
Proof.
  intros (e1 & H1 & F1) (e2 & H2 & F2). exists (e1 ++ e2)%list. split.
  - now rewrite H2, H1, <- app_assoc.
  - rewrite forallb_app. apply andb_true_iff. now split.
Qed.

Lemma only_calls_step {P : Platform} (names : list string) (s : Sys P)
    (w : World P) (c : call (bytes P)) (r : option string) :
  str_in (call_name c) names = true ->
  only_calls names s (after_calls s w [(c, r)]).
Proof.
  intros H. exists [(c, r)]. split; [reflexivity|]. cbn. now rewrite H.
Qed.

(** The query step makes query calls only, whatever its outcome. *)
Lemma install_query_calls (P : Platform) (q : SimpleQuery)
    (dashboard_name data_source parent : string) (s : Sys P) :
  wp (_install_query P q dashboard_name data_source parent)
     (fun _ s' => only_calls query_calls s s')
     (fun _ s' => only_calls query_calls s s') s.
Proof.
  unfold wp, _install_query. munfold. cbn.
  destruct (Dict.mem (query_key q) (_state s)).
  - destruct (Dict.get (query_key q) (_state s)) as [id|];
      [|apply only_calls_refl].
    cbn. destruct (ws P _ (world s)) as [[u|code] w];
      eexists [_]; split; reflexivity.
  - destruct (ws P _ (world s)) as [[id|code] w] eqn:E1; cbn.
    + destruct (ws P (dbsql_permissions_set _ _ _) w) as [[u|code] w2] eqn:E2; cbn;
        eexists [_; _]; (split; [cbn; now rewrite <- app_assoc | reflexivity]).
    + eexists [_]; split; reflexivity.
Qed.

Lemma install_viz_unknown (P : Platform) (q : SimpleQuery) (s : Sys P) :
  known_viz_type q = false ->
  _install_viz P q s = (Raise (unknown_viz_type q), s).
Proof.
  intros H. unfold _install_viz. munfold. now rewrite (unknown_kind_raises q H).
Qed.

Lemma validate_query_unknown (P : Platform) (q : SimpleQuery) (s : Sys P) :
  known_viz_type q = false ->
  validate_query P q s
  = (Raise (validation_error q (unknown_viz_type q)), s).
Proof.
  intros H. unfold validate_query. munfold. now rewrite (unknown_kind_raises q H).
Qed.

Lemma wp_any {P : Platform} {A} (m : M P A) (post : A -> Sys P -> Prop)
    (s : Sys P) :
  (forall a s', post a s') -> wp m post (fun _ _ => True) s.
Proof. intros H. unfold wp. destruct (m s) as [[a|e] s']; auto. Qed.

(** A loop with an iteration that never returns never returns. *)
Lemma for_each_never_returns {P : Platform} {A} (l : list A)
    (body : A -> M P unit) (x : A) :
  In x l ->
  (forall s, wp (body x) (fun _ _ => False) (fun _ _ => True) s) ->
  forall s, wp (for_each l body) (fun _ _ => False) (fun _ _ => True) s.
Proof.
  intros Hin Hx s. apply in_split in Hin as (l1 & l2 & ->).
  apply (wp_for_each P (fun done _ => length done <= length l1)).
  - cbn. lia.
  - intros done y rest s1 Hl Hlen.
    destruct (Nat.eq_dec (length done) (length l1)) as [E|E].
    + assert (y = x) as ->.
      { clear - Hl E. revert l1 Hl E.
        induction done as [|d done IH]; intros [|a l1] Hl E; try discriminate.
        - now injection Hl.
        - cbn in *. injection Hl as _ Hl. injection E as E. eauto. }
      eapply wp_mono; [apply Hx | intros _ _ [] | auto].
    + apply wp_any. intros _ _. rewrite length_app. cbn. lia.
  - intros s1 H. rewrite length_app in H. cbn in H. lia.
Qed.

Lemma for_fold_never_returns {P : Platform} {A B} (l : list A)
    (body : B -> A -> M P B) (x : A) :
  In x l ->
  (forall acc s, wp (body acc x) (fun _ _ => False) (fun _ _ => True) s) ->
  forall acc s, wp (for_fold l acc body) (fun _ _ => False) (fun _ _ => True) s.
Proof.
  intros Hin Hx acc s. apply in_split in Hin as (l1 & l2 & ->).
  apply (wp_for_fold P (fun done _ _ => length done <= length l1)).
  - cbn. lia.
  - intros done y rest acc1 s1 Hl Hlen.
    destruct (Nat.eq_dec (length done) (length l1)) as [E|E].
    + assert (y = x) as ->.
      { clear - Hl E. revert l1 Hl E.
        induction done as [|d done IH]; intros [|a l1] Hl E; try discriminate.
        - now injection Hl.
        - cbn in *. injection Hl as _ Hl. injection E as E. eauto. }
      eapply wp_mono; [apply Hx | intros _ _ [] | auto].
    + apply wp_any. intros _ _. rewrite length_app. cbn. lia.
  - intros acc1 s1 H. rewrite length_app in H. cbn in H. lia.
Qed.

Lemma wp_never_bind {P : Platform} {A B} (m : M P A) (k : A -> M P B)
    (s : Sys P) :
  wp m (fun _ _ => False) (fun _ _ => True) s ->
  wp (bind m k) (fun _ _ => False) (fun _ _ => True) s.
Proof.
  intros H. apply wp_bind. eapply wp_mono; [exact H | intros _ _ [] | auto].
Qed.

Lemma wp_never_run {P : Platform} {A} (m : M P A) (s : Sys P) :
  wp m (fun _ _ => False) (fun _ _ => True) s ->
  exists e s', m s = (Raise e, s').
Proof.
  unfold wp. destruct (m s) as [[a|e] s']; [intros [] | eauto].
Qed.

Lemma install_one_unknown (P : Platform) (q : SimpleQuery)
    (dashboard_name data_source parent ref : string) (s : Sys P) :
  known_viz_type q = false ->
  wp (install_one P dashboard_name data_source parent ref q)
     (fun _ _ => False)
     (fun _ s' => only_calls query_calls s s') s.
Proof.
  intros H. unfold install_one. apply wp_bind.
  eapply wp_mono; [apply install_query_calls | | auto].
  intros u s1 H1. cbn beta. apply wp_bind.
  unfold wp at 1. now rewrite (install_viz_unknown P q s1 H).
Qed.

Lemma validate_never_returns (P : Platform) (self : DashboardFromFiles)
    (q : SimpleQuery) (s : Sys P) :
  known_viz_type q = false -> desired_in self q ->
  wp (validate P self) (fun _ _ => False) (fun _ _ => True) s.
Proof.
  intros Hq (step & dash & qs & Hs & Hd & Hg & Hin).
  unfold validate. apply (for_each_never_returns _ _ step Hs). clear s.
  intros s. unfold validate_step. apply wp_bind. unfold wp at 1, logger.
  apply (for_each_never_returns _ _ dash Hd). clear s.
  intros s. unfold validate_dashboard, _desired_queries.
  apply wp_bind, wp_lift. fold (group_queries self step dash). rewrite Hg.
  apply (for_each_never_returns _ _ q Hin). clear s.
  intros s. unfold wp. now rewrite (validate_query_unknown P q s Hq).
Qed.

Lemma create_dashboards_never_returns (P : Platform) (self : DashboardFromFiles)
    (q : SimpleQuery) (s : Sys P) :
  known_viz_type q = false -> desired_in self q ->
  wp (create_dashboards P self) (fun _ _ => False) (fun _ _ => True) s.
Proof.
  intros Hq (step & dash & qs & Hs & Hd & Hg & Hin).
  unfold create_dashboards. apply wp_never_bind.
  apply (for_fold_never_returns _ _ step Hs). clear s.
  intros acc s. unfold create_step. apply wp_bind. unfold wp at 1, logger.
  apply (for_fold_never_returns _ _ dash Hd). clear acc s.
  intros acc s. unfold create_dashboard.
  apply wp_bind. unfold wp at 1, logger.
  apply wp_bind. unfold wp at 1, logger.
  unfold _desired_queries.
  apply wp_bind, wp_lift. fold (group_queries self step dash). rewrite Hg.
  apply wp_bind, wp_any. intros parent s1.
  apply wp_bind, wp_any. intros source s2.
  apply wp_bind, wp_any. intros u s3.
  apply wp_never_bind.
  apply (for_each_never_returns _ _ q Hin).
  intros s4. eapply wp_mono; [apply install_one_unknown, Hq | auto | auto].
Qed.

(** C5, on the code: the query of a definition that declares a pie is created
    remotely, and its run permission set, before the viz step raises; the
    error carries the text of the query and the kind. *)
Lemma unknown_viz_kind_raised_after_query_created :
  let r := create_dashboards Fake.platform (cfg_of pie_group)
             (init Fake.platform Fake.empty) in
  fst r = Raise (SyntaxError (file_text (sql_file "tables.sql" "pie")
                              ++ ": unknown viz type: pie"))
  /\ call_names (trace (snd r))
     = ["workspace.download"; "workspace.mkdirs"; "workspace.get_status";
        "data_sources.list"; "warehouses.list";
        "dashboards.create"; "dbsql_permissions.set";
        "queries.create"; "dbsql_permissions.set"]
  /\ Fake.live_queries (world (snd r)) = ["2"]
  /\ _state (snd r)
     = [("assessment_main:dashboard_id", "1");
        ("assessment_main_tables.sql:query_id", "2")].
Proof. repeat split. Qed.

(** C5, amended: for a query whose declared kind is not [table] or [counter].
    Validation raises the [AssertionError] that names the query.  The viz
    step raises the [SyntaxError] that carries the query text and the kind,
    before any call and with nothing changed; in a reconciliation this comes
    after the query step, so the calls made for the query are query calls
    only: no visualization and no widget call.  A desired set that holds such
    a query makes both [validate] and [create_dashboards] raise. *)
Theorem unknown_viz_kind_rejected (P : Platform) (self : DashboardFromFiles)
    (q : SimpleQuery) :
  known_viz_type q = false ->
  (forall s : Sys P,
      validate_query P q s
      = (Raise (validation_error q (unknown_viz_type q)), s))
  /\ (forall s : Sys P, _install_viz P q s = (Raise (unknown_viz_type q), s))
  /\ (forall dashboard_name data_source parent ref (s : Sys P),
         exists e s',
           install_one P dashboard_name data_source parent ref q s = (Raise e, s')
           /\ only_calls query_calls s s')
  /\ (desired_in self q ->
      forall s : Sys P,
        (exists e s', validate P self s = (Raise e, s'))
        /\ (exists e s', create_dashboards P self s = (Raise e, s'))).
Proof.
  intros Hq. repeat split.
  - intros s. now apply validate_query_unknown.
  - intros s. now apply install_viz_unknown.
  - intros dn ds parent ref s.
    pose proof (install_one_unknown P q dn ds parent ref s Hq) as H.
    apply wp_run in H as (out & s' & E & H).
    destruct out as [u|e]; [destruct H|]. eauto.
  - apply wp_never_run. now apply (validate_never_returns P self q).
  - apply wp_never_run. now apply (create_dashboards_never_returns P self q).
Qed.

Lemma unknown_viz_kind_rejected_witness :
  let q := {| dashboard_ref := "assessment_main"; name := "tables.sql";
              query := file_text (sql_file "tables.sql" "pie");
              viz := [("type", "pie"); ("name", "Rows"); ("columns", "a,b")];
              widget := [("title", "Rows"); ("col", "0")] |} in
  known_viz_type q = false
  /\ desired_in (cfg_of pie_group) q
  /\ (exists e s',
         validate Fake.platform (cfg_of pie_group) (init Fake.platform Fake.empty)
         = (Raise e, s'))
  /\ (exists e s',
         create_dashboards Fake.platform (cfg_of pie_group)
           (init Fake.platform Fake.empty) = (Raise e, s')).
Proof.
  intros q.
  assert (Hq : known_viz_type q = false) by reflexivity.
  assert (Hd : desired_in (cfg_of pie_group) q).
  { eexists _, _, _. repeat split; [now left | now left | reflexivity | now left]. }
  split; [exact Hq|]. split; [exact Hd|].
  exact (proj2 (proj2 (proj2
           (unknown_viz_kind_rejected Fake.platform (cfg_of pie_group) q Hq)))
           Hd (init Fake.platform Fake.empty)).
Defined.

(** ** Rules for invariants *)

Section Preserves.

Variable P : Platform.
Variable names : list string.
Variable I : Sys P -> Prop.
Hypothesis HI : closed names I.

Lemma preserves_ret {A} (a : A) : preserves I (ret a).
Proof. intros s H. exact H. Qed.

Lemma preserves_raise {A} (e : exn) : preserves I (@raise P A e).
Proof. intros s H. exact H. Qed.

Lemma preserves_lift {A} (o : outcome A) : preserves I (lift o).
Proof. intros s H. apply wp_lift. now destruct o. Qed.

Lemma preserves_bind {A B} (m : M P A) (k : A -> M P B) :
  preserves I m -> (forall a, preserves I (k a)) -> preserves I (bind m k).
Proof.
  intros Hm Hk s H. apply wp_bind.
  eapply wp_mono; [apply (Hm s H) | | auto].
  intros a s' H'. now apply Hk.
Qed.

Lemma preserves_try {A} (body : M P A) handler :
  preserves I body ->
  (forall e h, handler e = Some h -> preserves I h) ->
  preserves I (try_except body handler).
Proof.
  intros Hb Hh s H. apply wp_try.
  eapply wp_mono; [apply (Hb s H) | auto |].
  intros e s' H'. destruct (handler e) as [h|] eqn:E; [|assumption].
  now apply (Hh e h E).
Qed.

Lemma preserves_for_each {A} (l : list A) (body : A -> M P unit) :
  (forall x, In x l -> preserves I (body x)) -> preserves I (for_each l body).
Proof.
  intros Hb s H. apply (wp_for_each P (fun _ s' => I s')); auto.
  intros done x rest s1 Hl H1. apply Hb; [|assumption].
  rewrite Hl. apply in_or_app. right. now left.
Qed.

Lemma preserves_for_fold {A B} (l : list A) (acc : B) (body : B -> A -> M P B) :
  (forall acc x, In x l -> preserves I (body acc x)) ->
  preserves I (for_fold l acc body).
Proof.
  intros Hb s H. apply (wp_for_fold P (fun _ _ s' => I s')); auto.
  intros done x rest acc1 s1 Hl H1. apply Hb; [|assumption].
  rewrite Hl. apply in_or_app. right. now left.
Qed.

Lemma preserves_get_state : preserves I get_state.
Proof. intros s H. exact H. Qed.

Lemma preserves_set_state (d : Dict.dict string) : preserves I (set_state d).
Proof. intros s H. now apply HI. Qed.

Lemma preserves_state_item (k : string) : preserves I (state_item k).
Proof.
  intros s H. unfold wp, state_item. now destruct (Dict.get k (_state s)).
Qed.

Lemma preserves_state_store (k v : string) : preserves I (state_store k v).
Proof. intros s H. now apply HI. Qed.

Lemma preserves_state_del (k : string) : preserves I (state_del k).
Proof.
  intros s H. unfold wp, state_del, bind, get_state.
  destruct (Dict.mem k (_state s)); [now apply HI | exact H].
Qed.

Lemma preserves_logger (level : LogLevel) (msg : string) :
  preserves I (logger level msg).
Proof. intros s H. now apply HI. Qed.

Lemma preserves_remote (c : call (bytes P)) :
  In (call_name c) names -> preserves I (remote c).
Proof.
  intros Hc s H. destruct HI as (_ & _ & Hr). specialize (Hr s c Hc H).
  unfold wp. destruct (remote c s) as [[a|e] s']; exact Hr.
Qed.

End Preserves.

Ltac in_names :=
  match goal with
  | H : forall n, In n ?l -> In n ?names |- In ?x ?names =>
      apply H; cbn; tauto
  | |- In _ _ => cbn; tauto
  end.

(** Walks a computation down to its primitives. *)
Ltac pres HI :=
  lazymatch goal with
  | |- preserves _ (bind _ _) =>
      apply (preserves_bind _ _ _); [pres HI | intros; pres HI]
  | |- preserves _ (ret _) => apply preserves_ret
  | |- preserves _ (raise _) => apply preserves_raise
  | |- preserves _ (lift _) => apply preserves_lift
  | |- preserves _ get_state => apply preserves_get_state
  | |- preserves _ (set_state _) => apply (preserves_set_state _ _ _ HI)
  | |- preserves _ (state_item _) => apply preserves_state_item
  | |- preserves _ (state_store _ _) => apply (preserves_state_store _ _ _ HI)
  | |- preserves _ (state_del _) => apply (preserves_state_del _ _ _ HI)
  | |- preserves _ (logger _ _) => apply (preserves_logger _ _ _ HI)
  | |- preserves _ (remote ?c) =>
      apply (preserves_remote _ _ _ HI c); try in_names
  | |- preserves _ (for_each _ _) =>
      apply preserves_for_each; intros; pres HI
  | |- preserves _ (for_fold _ _ _) =>
      apply preserves_for_fold; intros; pres HI
  | |- preserves _ (try_except _ _) =>
      apply preserves_try;
      [pres HI
      | let e := fresh "e" in let h := fresh "h" in let E := fresh "E" in
        intros e h E; destruct e; cbn in E; try discriminate E;
        injection E as <-; pres HI]
  | |- preserves _ (if ?b then _ else _) => destruct b; pres HI
  | |- preserves _ (match destructors ?Q ?k ?v with _ => _ end) =>
      let E := fresh "E" in destruct (destructors Q k v) eqn:E; pres HI
  | |- preserves _ (match ?x with _ => _ end) => destruct x; pres HI
  | |- preserves _ (let _ := _ in _) => cbv zeta; pres HI
  | |- _ => idtac
  end.

(** ** What each step calls *)

Section Footprints.

Variable P : Platform.
Variable self : DashboardFromFiles.
Variable names : list string.
Variable I : Sys P -> Prop.
Hypothesis HI : closed names I.

Lemma installed_query_state_preserves :
  (forall n, In n load_calls -> In n names) ->
  preserves I (_installed_query_state P self).
Proof.
  intros Hn. unfold _installed_query_state, sweep_entry. pres HI.
Qed.

Lemma dashboard_data_source_preserves :
  (forall n, In n data_source_calls -> In n names) ->
  preserves I (_dashboard_data_source P self).
Proof.
  intros Hn. unfold _dashboard_data_source. pres HI.
Qed.

Lemma install_dashboard_preserves (dashboard_name parent ref : string) :
  (forall n, In n dashboard_calls -> In n names) ->
  preserves I (_install_dashboard P dashboard_name parent ref).
Proof.
  intros Hn. unfold _install_dashboard. pres HI.
Qed.

Lemma install_query_preserves (q : SimpleQuery)
    (dashboard_name data_source parent : string) :
  (forall n, In n query_calls -> In n names) ->
  preserves I (_install_query P q dashboard_name data_source parent).
Proof.
  intros Hn. unfold _install_query. pres HI.
Qed.

Lemma install_viz_preserves (q : SimpleQuery) :
  (forall n, In n viz_calls -> In n names) ->
  preserves I (_install_viz P q).
Proof.
  intros Hn. unfold _install_viz. pres HI.
Qed.



End Footprints.

(** ** Widget rows *)








Section RunCounter.

Variable P : Platform.
Variable self : DashboardFromFiles.
Variable s0 : Sys P.








End RunCounter.



(** Three widgets without a row, one in the first group and two in the
    second, on a fresh instance: rows 1, 2 and 3. *)
Lemma default_rows_across_groups :
  let s := init Fake.platform Fake.empty in
  let r := create_dashboards Fake.platform (cfg_of two_groups) s in
  widget_rows (new_events s (snd r)) = [1; 2; 3]%Z
  /\ _pos (snd r) = 3%Z.
Proof. split; reflexivity. Qed.

(** The counter moves for a widget with a row of its own as well: the
    widgets around it get 1 and 3. *)
Lemma default_rows_around_explicit_row :
  let s := init Fake.platform Fake.empty in
  let r := create_dashboards Fake.platform (cfg_of mixed_rows) s in
  widget_rows (new_events s (snd r)) = [1; 7; 3]%Z.
Proof. reflexivity. Qed.

(** ** More on dictionaries *)

Lemma dict_get_set_same {V} (k : string) (v : V) (d : Dict.dict V) :
  Dict.get k (Dict.set k v d) = Some v.
Proof.
  induction d as [|[k' v'] d IH]; cbn.
  - now rewrite String.eqb_refl.
  - destruct (String.eqb_spec k k') as [->|Hk]; cbn.
    + now rewrite String.eqb_refl.
    + destruct (String.eqb_spec k k'); [congruence | exact IH].
Qed.

Lemma dict_get_set_other {V} (k k0 : string) (v : V) (d : Dict.dict V) :
  k0 <> k -> Dict.get k0 (Dict.set k v d) = Dict.get k0 d.
Proof.
  intros Hk. induction d as [|[k' v'] d IH]; cbn.
  - destruct (String.eqb_spec k0 k); [congruence | reflexivity].
  - destruct (String.eqb_spec k k') as [->|Hk']; cbn.
    + destruct (String.eqb_spec k0 k'); [congruence | reflexivity].
    + destruct (String.eqb_spec k0 k'); [reflexivity | exact IH].
Qed.

Lemma dict_keys_set {V} (k : string) (v : V) (d : Dict.dict V) :
  Dict.keys (Dict.set k v d)
  = if Dict.mem k d then Dict.keys d else (Dict.keys d ++ [k])%list.
Proof.
  unfold Dict.mem, Dict.keys. induction d as [|[k' v'] d IH]; cbn; [reflexivity|].
  destruct (String.eqb_spec k k') as [->|Hk]; cbn; [reflexivity|].
  rewrite IH. now destruct (Dict.get k d).
Qed.

Lemma dict_wf_set {V} (k : string) (v : V) (d : Dict.dict V) :
  Dict.wf d -> Dict.wf (Dict.set k v d).
Proof.
  unfold Dict.wf. intros H. rewrite dict_keys_set.
  destruct (Dict.mem k d) eqn:E; [assumption|].
  apply NoDup_app; [assumption | repeat constructor; intros [] |].
  intros x Hx [<-|[]]. apply dict_mem_In in Hx. congruence.
Qed.

Lemma dict_in_set {V} (k : string) (v : V) (d : Dict.dict V) (k0 : string) (v0 : V) :
  In (k0, v0) (Dict.set k v d) -> (k0 = k /\ v0 = v) \/ In (k0, v0) d.
Proof.
  induction d as [|[k' v'] d IH]; cbn.
  - intros [[= <- <-]|[]]. now left.
  - destruct (String.eqb_spec k k') as [->|Hk]; cbn.
    + intros [[= <- <-]|H]; [now left | right; now right].
    + intros [H|H]; [right; now left|].
      destruct (IH H) as [?|?]; [now left | right; now right].
Qed.

Lemma dict_wf_get {V} (k : string) (v : V) (d : Dict.dict V) :
  Dict.wf d -> In (k, v) d -> Dict.get k d = Some v.
Proof.
  unfold Dict.wf. induction d as [|[k' v'] d IH]; cbn; [intros _ []|].
  intros Hnd [[= -> ->]|Hin].
  - now rewrite String.eqb_refl.
  - apply NoDup_cons_iff in Hnd as [Hk Hnd].
    destruct (String.eqb_spec k k') as [->|_]; [|now apply IH].
    exfalso. apply Hk. unfold Dict.keys. apply in_map_iff. now exists (k', v).
Qed.

Lemma dict_of_pairs_wf {V} (d : Dict.dict V) : Dict.wf d -> Dict.of_pairs d = d.
Proof.
  unfold Dict.of_pairs, Dict.wf.
  assert (G : forall (l acc : Dict.dict V),
             NoDup (Dict.keys acc ++ Dict.keys l) ->
             fold_left (fun d kv => Dict.set (fst kv) (snd kv) d) l acc
             = (acc ++ l)%list).
  { induction l as [|[k v] l IH]; intros acc H; cbn.
    - now rewrite app_nil_r.
    - rewrite dict_set_fresh.
      + rewrite IH; [now rewrite <- app_assoc|].
        unfold Dict.keys in *. now rewrite map_app, <- app_assoc.
      + intros Hin. apply NoDup_remove_2 in H. apply H.
        apply in_or_app. now left. }
  intros H. now apply (G d []).
Qed.

(** ** The in-memory workspace is faithful *)

Lemma fake_faithful (path : string) :
  faithful Fake.platform path (fake_stored path) fake_alive.
Proof.
  split.
  - intros w. unfold fake_stored. cbn. now destruct (Dict.get path (Fake.files w)).
  - intros w b f o u w' H. cbn in H. inversion H; subst. unfold fake_stored.
    cbn. apply dict_get_set_same.
  - intros c w Hc. unfold fake_stored.
    destruct c; cbn in *; try congruence;
      repeat match goal with
             | |- context [if ?b then _ else _] => destruct b
             | |- context [match Dict.get ?k ?d with _ => _ end] =>
                 destruct (Dict.get k d)
             end; reflexivity.
  - intros w id H. unfold fake_alive in H. cbn.
    apply str_in_In in H. rewrite H. now exists tt.
  - intros w parent role meta id w' H. cbn in H. inversion H; subst.
    unfold fake_alive. cbn. apply in_or_app. right. now left.
  - intros c w id Hc H. unfold fake_alive in *.
    destruct c; cbn in *; try congruence;
      repeat match goal with
             | |- context [if ?b then _ else _] => destruct b
             | |- context [match Dict.get ?k ?d with _ => _ end] =>
                 destruct (Dict.get k d)
             end; cbn; try assumption.
    apply in_or_app. now left.
  - reflexivity.
Qed.

(** ** Kinds of keys *)

Lemma query_key_kind (r : string) (k : kind) :
  is_query_key (derive_key r k) -> k = query_id.
Proof.
  intros [a H]. rewrite split_derive_key in H.
  change [a; "query_id"] with ([a] ++ ["query_id"])%list in H.
  apply app_inj_tail in H as [_ H].
  now apply (kind_name_inj k query_id).
Qed.

Lemma widget_key_kind (r : string) (k : kind) :
  is_widget_key (derive_key r k) -> k = widget_id.
Proof.
  intros [q H]. rewrite widget_key_derive in H.
  now apply derive_key_inj in H as [_ H].
Qed.

Lemma dashboard_key_not_query (ref : string) : ~ is_query_key (dashboard_key ref).
Proof. intros H. apply (query_key_kind ref dashboard_id) in H. discriminate. Qed.

Lemma viz_key_not_query (q : SimpleQuery) : ~ is_query_key (viz_key q).
Proof.
  rewrite viz_key_derive. intros H. apply query_key_kind in H. discriminate.
Qed.

Lemma widget_key_not_query (q : SimpleQuery) : ~ is_query_key (widget_key q).
Proof.
  rewrite widget_key_derive. intros H. apply query_key_kind in H. discriminate.
Qed.

Lemma dashboard_key_not_widget (ref : string) : ~ is_widget_key (dashboard_key ref).
Proof. intros H. apply (widget_key_kind ref dashboard_id) in H. discriminate. Qed.

Lemma query_key_not_widget (q : SimpleQuery) : ~ is_widget_key (query_key q).
Proof.
  rewrite query_key_derive. intros H. apply widget_key_kind in H. discriminate.
Qed.

Lemma viz_key_not_widget (q : SimpleQuery) : ~ is_widget_key (viz_key q).
Proof.
  rewrite viz_key_derive. intros H. apply widget_key_kind in H. discriminate.
Qed.

Lemma dashboard_key_inj (r r' : string) : dashboard_key r = dashboard_key r' -> r = r'.
Proof.
  intros H. now apply (derive_key_inj r' r dashboard_id dashboard_id) in H as [H _].
Qed.

(** ** The steps of a reconciliation, one by one *)

Lemma wp_conj {P : Platform} {A} (m : M P A) post1 post2 epost1 epost2 (s : Sys P) :
  wp m post1 epost1 s -> wp m post2 epost2 s ->
  wp m (fun a s' => post1 a s' /\ post2 a s')
       (fun e s' => epost1 e s' /\ epost2 e s') s.
Proof. unfold wp. destruct (m s) as [[a|e] s']; auto. Qed.

Lemma wp_returned {P : Platform} {A} (m : M P A) post epost (s s' : Sys P) (a : A) :
  wp m post epost s -> m s = (Return a, s') -> post a s'.
Proof. unfold wp. intros H E. now rewrite E in H. Qed.

Ltac split_calls :=
  repeat match goal with
         | |- context [ws ?Q ?c ?w] =>
             let r := fresh "r" in
             let w' := fresh "w" in
             destruct (ws Q c w) as [[r|r] w']; cbn
         end.

Section Steps.

Variable P : Platform.
Variable self : DashboardFromFiles.

Lemma data_source_state (s : Sys P) :
  wp (_dashboard_data_source P self)
     (fun _ s' => _state s' = _state s) (fun _ _ => True) s.
Proof.
  unfold wp, _dashboard_data_source. munfold. split_calls; auto;
    repeat match goal with
           | |- context [match _warehouse_id self with _ => _ end] =>
               destruct (_warehouse_id self); cbn
           | |- context [if ?b then _ else _] => destruct b; cbn
           | |- context [match ?l with [] => _ | _ :: _ => _ end] =>
               destruct l; cbn
           | |- context [match Dict.get ?k ?d with _ => _ end] =>
               destruct (Dict.get k d); cbn
           end; auto.
Qed.

Lemma install_dashboard_state (dashboard_name parent ref : string) (s : Sys P) :
  wp (_install_dashboard P dashboard_name parent ref)
     (fun _ s' =>
        if Dict.mem (dashboard_key ref) (_state s)
        then _state s' = _state s
        else exists id, _state s' = Dict.set (dashboard_key ref) id (_state s))
     (fun _ _ => True) s.
Proof.
  unfold _install_dashboard. apply wp_bind. unfold wp at 1, get_state.
  destruct (Dict.mem (dashboard_key ref) (_state s)) eqn:E.
  - apply wp_bind. unfold wp at 1, state_item.
    destruct (Dict.get (dashboard_key ref) (_state s)); [|exact I].
    apply wp_bind.
    match goal with |- wp (remote ?c) _ _ _ => apply (wp_remote P c) end.
    destruct (ws P _ (world s)) as [[widgets|code] w]; [|exact I].
    apply (wp_for_each P (fun _ s' => _state s' = _state s)); auto.
    intros done x rest s1 Hl H1.
    apply (wp_remote P (dashboard_widgets_delete x)).
    now destruct (ws P _ (world s1)) as [[u|code] w1].
  - unfold wp. munfold. split_calls; eauto.
Qed.

Lemma install_viz_state (q : SimpleQuery) (s : Sys P) :
  wp (_install_viz P q)
     (fun _ s' =>
        if Dict.mem (viz_key q) (_state s)
        then _state s' = _state s
        else exists id, _state s' = Dict.set (viz_key q) id (_state s))
     (fun _ _ => True) s.
Proof.
  unfold wp, _install_viz. munfold.
  destruct (_get_viz_options q); cbn; [|exact I].
  destruct (Dict.mem (viz_key q) (_state s)) eqn:E.
  - destruct (Dict.get (viz_key q) (_state s)); cbn; [|exact I].
    split_calls; auto.
  - destruct (Dict.get (query_key q) (_state s)); cbn; [|exact I].
    split_calls; eauto.
Qed.

Lemma install_widget_state (q : SimpleQuery) (ref : string) (s : Sys P) :
  wp (_install_widget P q ref)
     (fun _ s' => exists id, _state s' = Dict.set (widget_key q) id (_state s))
     (fun _ _ => True) s.
Proof.
  unfold wp, _install_widget, _get_widget_options. munfold.
  destruct (Dict.get (dashboard_key ref) (_state s)); cbn; [|exact I].
  destruct (widget_options_at (_pos s + 1) q); cbn; [|exact I].
  destruct (Dict.get (viz_key q) (_state s)); cbn; [|exact I].
  split_calls; eauto.
Qed.

(** The widget step calls [dashboard_widgets.create] and nothing else. *)
Lemma install_widget_preserves (names : list string) (I : Sys P -> Prop)
    (q : SimpleQuery) (ref : string) :
  closed names I ->
  (forall s p, I s -> I (Build_Sys P (_state s) p (world s) (trace s) (log s))) ->
  In "dashboard_widgets.create" names ->
  preserves I (_install_widget P q ref).
Proof.
  intros HI Hpos Hn. unfold _install_widget, _get_widget_options.
  assert (Hnext : preserves I (@next_pos P)).
  { intros s H. unfold wp, next_pos. now apply Hpos. }
  pres HI; try exact Hnext.
Qed.

End Steps.

(** ** Against a faithful workspace *)

Section Faithful.

Variable P : Platform.
Variable self : DashboardFromFiles.
Variable stored : World P -> option (bytes P).
Variable alive : World P -> string -> Prop.
Hypothesis F : faithful P (_query_state self) stored alive.

Lemma remote_world (c : call (bytes P)) (s : Sys P) :
  world (snd (remote c s)) = snd (ws P c (world s)).
Proof. unfold remote. now destruct (ws P c (world s)) as [[a|code] w]. Qed.

Lemma remote_trace (c : call (bytes P)) (s : Sys P) :
  exists r, trace (snd (remote c s)) = (trace s ++ [(c, r)])%list.
Proof. unfold remote. destruct (ws P c (world s)) as [[a|code] w]; cbn; eauto. Qed.

Lemma calm_refl (s : Sys P) : calm stored alive s s.
Proof. split; auto. Qed.

Lemma calm_closed (names : list string) (s0 : Sys P) :
  ~ In "workspace.upload" names -> ~ In "queries.delete" names ->
  closed names (calm stored alive s0).
Proof.
  intros Hu Hd. split; [|split].
  - intros s d H. exact H.
  - intros s l H. exact H.
  - intros s c Hc [Hs Ha]. unfold calm. rewrite remote_world. split.
    + rewrite (stored_kept _ _ _ _ F); [exact Hs|].
      intros E. apply Hu. now rewrite <- E.
    + intros id Hid. apply (alive_kept _ _ _ _ F); [|auto].
      intros E. apply Hd. now rewrite <- E.
Qed.

Lemma second_world_closed (names : list string) (st1 : Dict.dict string) :
  ~ In "workspace.upload" names -> ~ In "queries.delete" names ->
  ~ In "dashboards.create" names -> ~ In "queries.create" names ->
  ~ In "query_visualizations.create" names ->
  closed names (second_run_world stored alive st1).
Proof.
  intros Hu Hd H1 H2 H3. split; [|split].
  - intros s d H. exact H.
  - intros s l H. exact H.
  - intros s c Hc (Hs & Ha & Ht). unfold second_run_world, no_creation.
    rewrite remote_world. split; [|split].
    + rewrite (stored_kept _ _ _ _ F); [exact Hs|].
      intros E. apply Hu. now rewrite <- E.
    + intros k v Hin Hk. apply (alive_kept _ _ _ _ F); [|eauto].
      intros E. apply Hd. now rewrite <- E.
    + destruct (remote_trace c s) as [r ->].
      rewrite forallb_app. apply andb_true_iff. split; [exact Ht|].
      cbn. rewrite andb_true_r.
      destruct c; try reflexivity; exfalso; cbn in Hc; auto.
Qed.

Lemma second_world_pos (st1 : Dict.dict string) (s : Sys P) (p : Z) :
  second_run_world stored alive st1 s ->
  second_run_world stored alive st1
    (Build_Sys P (_state s) p (world s) (trace s) (log s)).
Proof. intros H. exact H. Qed.

Lemma calm_pos (s0 s : Sys P) (p : Z) :
  calm stored alive s0 s ->
  calm stored alive s0 (Build_Sys P (_state s) p (world s) (trace s) (log s)).
Proof. intros H. exact H. Qed.

(** A load with no state file leaves the state in memory alone. *)
Lemma load_absent (s : Sys P) :
  stored (world s) = None ->
  wp (_installed_query_state P self)
     (fun _ s' => _state s' = _state s) (fun _ _ => True) s.
Proof.
  intros Hs. pose proof (download_stored _ _ _ _ F (world s)) as Hd.
  rewrite Hs in Hd.
  unfold wp, _installed_query_state. munfold.
  destruct (ws P (workspace_download (_query_state self)) (world s)) as [r w].
  cbn in Hd. subst r. cbn. split_calls; auto.
Qed.

(** A load of the state file of a first run whose queries are alive puts
    that state in memory, whole. *)
Lemma load_existing (st1 : Dict.dict string) (s : Sys P) :
  stored (world s) = Some (json_dumps P st1) ->
  Dict.wf st1 ->
  queries_alive alive st1 (world s) ->
  wp (_installed_query_state P self)
     (fun _ s' => _state s' = st1) (fun _ _ => True) s.
Proof.
  intros Hs Hwf Ha. pose proof (download_stored _ _ _ _ F (world s)) as Hd.
  rewrite Hs in Hd.
  assert (Ha1 : queries_alive alive st1
                  (snd (ws P (workspace_download (_query_state self)) (world s)))).
  { intros k v Hin Hk. apply (alive_kept _ _ _ _ F); [discriminate | eauto]. }
  unfold _installed_query_state. apply wp_bind, wp_try, wp_bind.
  apply (wp_remote P (workspace_download (_query_state self))).
  destruct (ws P (workspace_download (_query_state self)) (world s)) as [r w].
  cbn in Hd, Ha1. subst r. rewrite (json_roundtrip _ _ _ _ F).
  rewrite (dict_of_pairs_wf _ Hwf).
  apply wp_bind. unfold wp at 1, set_state.
  apply wp_bind. unfold wp at 1, get_state. cbn [_state].
  apply wp_bind.
  apply (wp_for_fold P
           (fun _ acc s' => acc = [] /\ _state s' = st1
                            /\ queries_alive alive st1 (world s'))).
  - now repeat split.
  - intros done [k v] rest acc1 s1 Hl (-> & Hst & Hal).
    unfold sweep_entry. cbn [fst snd]. apply wp_bind, wp_lift.
    destruct (PyStr.split ":" k) as [|a [|b [|c l]]] eqn:Hk; cbn [unpack2];
      try exact I.
    cbn [snd].
    destruct (String.eqb k "dashboard_id"); [now repeat split|].
    destruct (String.eqb_spec b "query_id") as [->|Hb]; cbn [negb];
      [|now repeat split].
    assert (Hv : alive (world s1) v).
    { apply (Hal k v); [|now exists a].
      rewrite Hl. apply in_or_app. right. now left. }
    destruct (get_alive _ _ _ _ F _ _ Hv) as [u Hu].
    assert (Hal' : queries_alive alive st1
                     (snd (ws P (queries_get v) (world s1)))).
    { intros k' v' Hin Hk'. apply (alive_kept _ _ _ _ F); [discriminate | eauto]. }
    apply wp_try, wp_bind. apply (wp_remote P (queries_get v)).
    destruct (ws P (queries_get v) (world s1)) as [r w1]. cbn in Hu, Hal'.
    subst r. now repeat split.
  - intros acc1 s1 (-> & Hst & Hal). cbn [for_each].
    unfold wp at 1, ret. cbn beta iota.
    apply wp_bind.
    apply (wp_remote P (workspace_get_status (_remote_folder self))).
    now destruct (ws P _ (world s1)) as [[id|code] w1].
Qed.

(** The query step leaves a recorded query alone; a query that was not
    recorded is recorded under an identifier that is alive. *)
Lemma install_query_state (q : SimpleQuery)
    (dashboard_name data_source parent : string) (s : Sys P) :
  wp (_install_query P q dashboard_name data_source parent)
     (fun _ s' =>
        if Dict.mem (query_key q) (_state s)
        then _state s' = _state s
        else exists id, _state s' = Dict.set (query_key q) id (_state s)
                        /\ alive (world s') id)
     (fun _ _ => True) s.
Proof.
  unfold _install_query. cbv zeta. apply wp_bind. unfold wp at 1, get_state.
  destruct (Dict.mem (query_key q) (_state s)) eqn:E.
  - unfold wp. munfold.
    destruct (Dict.get (query_key q) (_state s)); cbn; [|exact I].
    split_calls; auto.
  - apply wp_bind.
    match goal with |- wp (remote ?c) _ _ _ => apply (wp_remote P c) end.
    match goal with |- context [ws P ?c (world s)] =>
      destruct (ws P c (world s)) as [[id|code] w] eqn:Hc end; [|exact I].
    apply (created_alive _ _ _ _ F) in Hc.
    apply wp_bind.
    match goal with |- wp (remote ?c) _ _ _ =>
      apply (wp_remote P c);
      pose proof (alive_kept _ _ _ _ F c w id) as Hk end.
    cbn [world after_calls].
    match goal with |- context [ws P ?c w] =>
      destruct (ws P c w) as [[u|code] w2] end; [|exact I].
    cbn in Hk. unfold wp, state_store. munfold. cbn.
    exists id. split; [reflexivity|]. apply Hk; [discriminate | exact Hc].
Qed.

End Faithful.

(** ** Steps on recorded resources *)

Section Recorded.

Variable P : Platform.
Variable names : list string.
Variable I : Sys P -> Prop.
Hypothesis HI : closed names I.

Lemma install_dashboard_recorded (dashboard_name parent ref : string) (s : Sys P) :
  In "dashboards.get" names -> In "dashboard_widgets.delete" names ->
  Dict.mem (dashboard_key ref) (_state s) = true -> I s ->
  wp (_install_dashboard P dashboard_name parent ref)
     (fun _ s' => I s') (fun _ s' => I s') s.
Proof.
  intros H1 H2 Hm Hs. unfold _install_dashboard.
  apply wp_bind. unfold wp at 1, get_state. rewrite Hm.
  refine ((_ : preserves I _) s Hs). pres HI.
Qed.

Lemma install_query_recorded (q : SimpleQuery)
    (dashboard_name data_source parent : string) (s : Sys P) :
  In "queries.update" names ->
  Dict.mem (query_key q) (_state s) = true -> I s ->
  wp (_install_query P q dashboard_name data_source parent)
     (fun _ s' => I s') (fun _ s' => I s') s.
Proof.
  intros H1 Hm Hs. unfold _install_query. cbv zeta.
  apply wp_bind. unfold wp at 1, get_state. rewrite Hm.
  refine ((_ : preserves I _) s Hs). pres HI.
Qed.

Lemma install_viz_recorded (q : SimpleQuery) (s : Sys P) :
  In "query_visualizations.update" names ->
  Dict.mem (viz_key q) (_state s) = true -> I s ->
  wp (_install_viz P q) (fun _ s' => I s') (fun _ s' => I s') s.
Proof.
  intros H1 Hm Hs. unfold _install_viz.
  apply wp_bind, wp_lift. destruct (_get_viz_options q); [|exact Hs].
  apply wp_bind. unfold wp at 1, get_state. rewrite Hm.
  refine ((_ : preserves I _) s Hs). pres HI.
Qed.

End Recorded.

(** A save whose state holds desired keys only is the upload of the state. *)
Lemma store_loop_all_desired (P : Platform) (desired : list string)
    (items : Dict.dict string) :
  forall (acc : Dict.dict string) (s : Sys P),
    (forall k, In k (Dict.keys items) -> In k desired) ->
    NoDup (Dict.keys acc ++ Dict.keys items) ->
    for_fold items acc (store_entry P desired) s = (Return (acc ++ items)%list, s).
Proof.
  induction items as [|[k v] items IH]; intros acc s Hd Hnd.
  - cbn. now rewrite app_nil_r.
  - cbn [for_fold]. unfold bind at 1, store_entry at 1. cbn [fst snd].
    assert (Hk : str_in k desired = true).
    { apply str_in_In, Hd. now left. }
    rewrite Hk. unfold ret at 1.
    rewrite dict_set_fresh.
    + rewrite IH.
      * now rewrite <- app_assoc.
      * intros k' Hk'. apply Hd. now right.
      * unfold Dict.keys in *. now rewrite map_app, <- app_assoc.
    + intros Hin. apply NoDup_remove_2 in Hnd. apply Hnd.
      apply in_or_app. now left.
Qed.

Lemma save_all_desired (P : Platform) (self : DashboardFromFiles)
    (queries : Dict.dict (list SimpleQuery)) (s : Sys P) :
  (forall k, In k (Dict.keys (_state s)) -> In k (desired_keys_of queries)) ->
  Dict.wf (_state s) ->
  _store_query_state P self queries s
  = remote (workspace_upload (_query_state self) (json_dumps P (_state s))
              AUTO true) s.
Proof.
  intros Hd Hwf.
  pose proof (store_loop_all_desired P (desired_keys_of queries) (_state s) [] s
                Hd Hwf) as E.
  unfold _store_query_state, bind, get_state.
  match goal with
  | |- context [for_fold ?l ?a ?f s] =>
      replace (for_fold l a f s) with
        (@Return (Dict.dict string) ([] ++ _state s)%list, s)
        by (symmetry; exact E)
  end.
  reflexivity.
Qed.

(** ** The first run *)

Section FirstRun.

Variable P : Platform.
Variable self : DashboardFromFiles.
Variable stored : World P -> option (bytes P).
Variable alive : World P -> string -> Prop.
Hypothesis F : faithful P (_query_state self) stored alive.

Lemma first_inv_calm ks gs acc (s s' : Sys P) :
  first_inv stored alive ks gs acc s ->
  calm stored alive s s' -> _state s' = _state s ->
  first_inv stored alive ks gs acc s'.
Proof.
  intros (H1 & H2 & H3 & H4 & H5 & H6) [Hs Ha] E.
  unfold first_inv. rewrite E, Hs. repeat split; try tauto; try apply H4; try apply H6.
  intros k v Hin Hk. apply Ha. eauto.
Qed.

Lemma first_inv_step ks gs acc (s s' : Sys P) (k : string) :
  first_inv stored alive ks gs acc s ->
  calm stored alive s s' ->
  (if Dict.mem k (_state s)
   then _state s' = _state s
   else exists id, _state s' = Dict.set k id (_state s)
                   /\ (is_query_key k -> alive (world s') id)) ->
  first_inv stored alive (ks ++ [k]) gs acc s'.
Proof.
  intros Hinv Hc Hst.
  destruct (Dict.mem k (_state s)) eqn:Em.
  - pose proof (first_inv_calm _ _ _ _ _ Hinv Hc Hst) as (H1 & H2 & H3 & H4 & H5 & H6).
    repeat split; try tauto; try apply H6.
    + intros Hk. apply in_or_app. left. now apply H4.
    + intros Hk. apply in_app_or in Hk as [Hk|[<-|[]]]; [now apply H4|].
      rewrite Hst. now apply dict_mem_In.
  - destruct Hinv as (H1 & H2 & H3 & H4 & H5 & H6 & H7).
    destruct Hc as [Hs Ha]. destruct Hst as (id & E & Hid).
    unfold first_inv. rewrite E, Hs. repeat split; try tauto.
    + now apply dict_wf_set.
    + intros k0 v0 Hin Hk0. apply dict_in_set in Hin as [[-> ->]|Hin]; eauto.
    + rewrite dict_keys_set, Em. intros Hk.
      apply in_app_or in Hk as [Hk|Hk]; apply in_or_app; [left; now apply H4 | now right].
    + rewrite dict_keys_set, Em. intros Hk.
      apply in_app_or in Hk as [Hk|Hk]; apply in_or_app; [left; now apply H4 | now right].
    + intros ref v Hin. rewrite dict_get_set_other; [now apply H7|].
      intros Ek. subst k. specialize (H7 ref v Hin).
      unfold Dict.mem in Em. now rewrite H7 in Em.
Qed.

(** The widget of a query is stored whether or not it was recorded. *)
Lemma first_inv_widget ks gs acc (s s' : Sys P) (q : SimpleQuery) :
  first_inv stored alive ks gs acc s ->
  calm stored alive s s' ->
  (exists id, _state s' = Dict.set (widget_key q) id (_state s)) ->
  first_inv stored alive (ks ++ [widget_key q]) gs acc s'.
Proof.
  intros (H1 & H2 & H3 & H4 & H5 & H6 & H7) [Hs Ha] (id & E).
  unfold first_inv. rewrite E, Hs. repeat split; try tauto.
  - now apply dict_wf_set.
  - intros k0 v0 Hin Hk0. apply dict_in_set in Hin as [[-> ->]|Hin]; eauto.
    now apply widget_key_not_query in Hk0.
  - rewrite dict_keys_set. intros Hk. apply in_or_app.
    destruct (Dict.mem (widget_key q) (_state s)).
    + left. now apply H4.
    + apply in_app_or in Hk as [Hk|Hk]; [left; now apply H4 | now right].
  - rewrite dict_keys_set. intros Hk.
    destruct (Dict.mem (widget_key q) (_state s)) eqn:Em.
    + apply in_app_or in Hk as [Hk|[<-|[]]]; [now apply H4 | now apply dict_mem_In].
    + apply in_app_or in Hk as [Hk|Hk]; apply in_or_app; [left; now apply H4 | now right].
  - intros ref v Hin. rewrite dict_get_set_other; [now apply H7|].
    intros Hk. apply (dashboard_key_not_widget ref). now exists q.
Qed.

Lemma wp_calm {A} (m : M P A) (Q : A -> Sys P -> Prop) (s : Sys P) :
  preserves (calm stored alive s) m ->
  wp m Q (fun _ _ => True) s ->
  wp m (fun a s' => calm stored alive s s' /\ Q a s') (fun _ _ => True) s.
Proof.
  intros Hp Hq.
  eapply wp_mono; [apply (wp_conj _ _ _ _ _ _ (Hp s (calm_refl P stored alive s)) Hq)
                  | auto | auto].
Qed.

Lemma install_calm (s : Sys P) : closed install_calls (calm stored alive s).
Proof. apply (calm_closed P self stored alive F); cbn; intuition discriminate. Qed.

Lemma first_run_query ks gs acc (q : SimpleQuery)
    (dashboard_name data_source parent ref : string) (s : Sys P) :
  first_inv stored alive ks gs acc s ->
  wp (install_one P dashboard_name data_source parent ref q)
     (fun _ s' =>
        first_inv stored alive (ks ++ [query_key q; viz_key q; widget_key q])
          gs acc s')
     (fun _ _ => True) s.
Proof.
  intros H. unfold install_one. apply wp_bind.
  eapply wp_mono; [apply wp_calm;
                   [apply (install_query_preserves P _ _ (install_calm s));
                    intros n Hn; cbn in *; tauto
                   | apply (install_query_state P self stored alive F)]
                  | | auto].
  intros u s1 [Hc Hst]. cbn beta.
  assert (H1 : first_inv stored alive (ks ++ [query_key q]) gs acc s1).
  { apply (first_inv_step _ _ _ s); auto.
    destruct (Dict.mem (query_key q) (_state s)); [assumption|].
    destruct Hst as (id & E & Ha). eauto. }
  clear H Hc Hst. apply wp_bind.
  eapply wp_mono; [apply wp_calm;
                   [apply (install_viz_preserves P _ _ (install_calm s1));
                    intros n Hn; cbn in *; tauto
                   | apply install_viz_state]
                  | | auto].
  intros u2 s2 [Hc Hst]. cbn beta.
  assert (H2 : first_inv stored alive ((ks ++ [query_key q]) ++ [viz_key q])
                 gs acc s2).
  { apply (first_inv_step _ _ _ s1); auto.
    destruct (Dict.mem (viz_key q) (_state s1)); [assumption|].
    destruct Hst as (id & E). exists id. split; [assumption|].
    intros Hk. now apply viz_key_not_query in Hk. }
  clear H1 Hc Hst.
  eapply wp_mono; [apply wp_calm;
                   [apply (install_widget_preserves P _ _ _ _ (install_calm s2));
                    [intros s' p H'; exact H' | cbn; tauto]
                   | apply install_widget_state]
                  | | auto].
  intros u3 s3 [Hc Hst]. cbn beta.
  pose proof (first_inv_widget _ _ _ _ _ q H2 Hc Hst) as H3.
  now rewrite <- !app_assoc in H3.
Qed.

End FirstRun.

Lemma desired_keys_app (gs : Dict.dict (list SimpleQuery)) (ref : string)
    (qs : list SimpleQuery) :
  desired_keys_of (gs ++ [(ref, qs)])%list
  = (desired_keys_of gs ++ group_keys ref qs)%list.
Proof.
  unfold desired_keys_of, group_keys. rewrite flat_map_app. cbn.
  now rewrite app_nil_r.
Qed.

Lemma group_keys_snoc (ref : string) (done : list SimpleQuery) (q : SimpleQuery) :
  group_keys ref (done ++ [q])%list
  = (group_keys ref done ++ [query_key q; viz_key q; widget_key q])%list.
Proof.
  unfold group_keys. rewrite flat_map_app. reflexivity.
Qed.

Lemma step_groups_refs (self : DashboardFromFiles) (step : StepFolder)
    (dashes : list DashboardFolder) :
  map fst (step_groups self step dashes) = map (ref_of step) dashes.
Proof. unfold step_groups. rewrite map_map. reflexivity. Qed.

Lemma run_groups_refs (self : DashboardFromFiles) (steps : list StepFolder) :
  map fst (run_groups self steps)
  = flat_map (fun step => map (ref_of step) (dashboard_folders step)) steps.
Proof.
  unfold run_groups. induction steps as [|step steps IH]; cbn; [reflexivity|].
  now rewrite map_app, step_groups_refs, IH.
Qed.

Lemma NoDup_app_l {A} (a b : list A) : NoDup (a ++ b) -> NoDup a.
Proof.
  induction a as [|x a IH]; cbn; intros H; [constructor|].
  apply NoDup_cons_iff in H as [Hx H]. constructor; [|now apply IH].
  intros Hin. apply Hx. apply in_or_app. now left.
Qed.

Lemma dict_set_new {V} (k : string) (v : V) (d : Dict.dict V) :
  ~ In k (map fst d) -> Dict.set k v d = (d ++ [(k, v)])%list.
Proof. apply dict_set_fresh. Qed.

Section FirstRunGroups.

Variable P : Platform.
Variable self : DashboardFromFiles.
Variable stored : World P -> option (bytes P).
Variable alive : World P -> string -> Prop.
Hypothesis F : faithful P (_query_state self) stored alive.

Lemma first_inv_group_done gs acc (ref : string) (qs : list SimpleQuery)
    (v : string) (s : Sys P) :
  first_inv stored alive (desired_keys_of gs ++ group_keys ref qs) gs acc s ->
  ~ In ref (map fst gs) ->
  Dict.get (dashboard_key ref) (_state s) = Some v ->
  first_inv stored alive (desired_keys_of (gs ++ [(ref, qs)])%list)
    (gs ++ [(ref, qs)])%list
    (Dict.set ref v (fst acc), Dict.set ref qs (snd acc)) s.
Proof.
  intros (H1 & H2 & H3 & H4 & H5 & H6 & H7) Hn Hv.
  unfold first_inv. rewrite desired_keys_app. cbn [fst snd].
  repeat split; try tauto; try apply H4.
  - rewrite H5. now apply dict_set_new.
  - rewrite dict_set_new; [|now rewrite H6].
    now rewrite !map_app, H6.
  - intros r x Hin. rewrite dict_set_new in Hin; [|now rewrite H6].
    apply in_app_or in Hin as [Hin|[[= <- <-]|[]]]; auto.
Qed.

Lemma first_run_group gs acc (step : StepFolder) (dash : DashboardFolder)
    (s : Sys P) :
  first_inv stored alive (desired_keys_of gs) gs acc s ->
  ~ In (ref_of step dash) (map fst gs) ->
  wp (create_dashboard P self step acc dash)
     (fun acc' s' =>
        first_inv stored alive
          (desired_keys_of (gs ++ [(ref_of step dash, queries_of self step dash)])%list)
          (gs ++ [(ref_of step dash, queries_of self step dash)])%list acc' s')
     (fun _ _ => True) s.
Proof.
  intros H Hn. unfold create_dashboard, _desired_queries.
  apply wp_bind. unfold wp at 1, logger.
  apply wp_bind. unfold wp at 1, logger.
  match goal with |- wp _ _ _ ?s1 =>
    assert (H0 : first_inv stored alive (desired_keys_of gs) gs acc s1) by exact H;
    generalize dependent s1 end.
  clear H s. intros s H.
  apply wp_bind, wp_lift. fold (group_queries self step dash).
  unfold queries_of. fold (ref_of step dash).
  destruct (group_queries self step dash) as [qs|e]; [|exact I].
  apply wp_bind.
  eapply wp_mono;
    [apply (wp_calm P stored alive);
     [apply (installed_query_state_preserves P self _ _
               (install_calm P self stored alive F s));
      intros n Hin; cbn in *; tauto
     | apply (load_absent P self stored alive F), H]
    | | auto].
  intros parent s1 [Hc Hst]. cbn beta.
  pose proof (first_inv_calm P stored alive _ _ _ _ _ H Hc Hst) as H1.
  clear H Hc Hst. apply wp_bind.
  eapply wp_mono;
    [apply (wp_calm P stored alive);
     [apply (dashboard_data_source_preserves P self _ _
               (install_calm P self stored alive F s1));
      intros n Hin; cbn in *; tauto
     | apply data_source_state]
    | | auto].
  intros source s2 [Hc Hst]. cbn beta.
  pose proof (first_inv_calm P stored alive _ _ _ _ _ H1 Hc Hst) as H2.
  clear H1 Hc Hst. apply wp_bind.
  eapply wp_mono;
    [apply (wp_calm P stored alive);
     [apply (install_dashboard_preserves P _ _
               (install_calm P self stored alive F s2));
      intros n Hin; cbn in *; tauto
     | apply install_dashboard_state]
    | | auto].
  intros u s3 [Hc Hst]. cbn beta.
  assert (H3 : first_inv stored alive
                 (desired_keys_of gs ++ group_keys (ref_of step dash) [])
                 gs acc s3).
  { apply (first_inv_step P stored alive _ _ _ s2); auto.
    destruct (Dict.mem (dashboard_key (ref_of step dash)) (_state s2));
      [assumption|].
    destruct Hst as (id & E). exists id. split; [assumption|].
    intros Hk. now apply dashboard_key_not_query in Hk. }
  clear H2 Hc Hst. apply wp_bind.
  apply (wp_for_each P
           (fun done s' =>
              first_inv stored alive
                (desired_keys_of gs ++ group_keys (ref_of step dash) done)
                gs acc s')).
  - exact H3.
  - intros done q rest s4 Hl H4.
    eapply wp_mono; [apply (first_run_query P self stored alive F); exact H4 | | auto].
    intros u4 s5 H5. cbn beta. now rewrite group_keys_snoc, app_assoc.
  - intros s4 H4. apply wp_bind. unfold wp at 1, state_item.
    destruct (Dict.get (dashboard_key (ref_of step dash)) (_state s4)) as [v|] eqn:Ev;
      [|exact I].
    unfold wp, ret. now apply first_inv_group_done.
Qed.

Lemma first_run_step gs acc (step : StepFolder) (s : Sys P) :
  first_inv stored alive (desired_keys_of gs) gs acc s ->
  NoDup (map fst gs ++ map (ref_of step) (dashboard_folders step)) ->
  wp (create_step P self acc step)
     (fun acc' s' =>
        let gs' := (gs ++ step_groups self step (dashboard_folders step))%list in
        first_inv stored alive (desired_keys_of gs') gs' acc' s')
     (fun _ _ => True) s.
Proof.
  intros H Hnd. unfold create_step.
  apply wp_bind. unfold wp at 1, logger.
  match goal with |- wp _ _ _ ?s1 =>
    assert (H0 : first_inv stored alive (desired_keys_of gs) gs acc s1) by exact H;
    generalize dependent s1 end.
  clear H s. intros s H.
  apply (wp_for_fold P
           (fun done acc' s' =>
              let gs' := (gs ++ step_groups self step done)%list in
              first_inv stored alive (desired_keys_of gs') gs' acc' s')).
  - cbn. now rewrite app_nil_r.
  - intros done dash rest acc1 s1 Hl H1. cbn zeta in *.
    eapply wp_mono; [apply first_run_group; [exact H1|] | | auto].
    + rewrite map_app, step_groups_refs.
      rewrite Hl, map_app, app_assoc in Hnd. cbn in Hnd.
      apply NoDup_remove_2 in Hnd. intros Hin. apply Hnd.
      apply in_or_app. now left.
    + intros acc2 s2 H2. cbn beta.
      unfold step_groups in *. rewrite map_app. cbn [map].
      now rewrite app_assoc.
  - intros acc1 s1 H1. exact H1.
Qed.

Lemma first_run_groups gs_done (steps : list StepFolder) acc (s : Sys P) :
  first_inv stored alive (desired_keys_of gs_done) gs_done acc s ->
  NoDup (map fst gs_done ++ map fst (run_groups self steps)) ->
  wp (for_fold steps acc (create_step P self))
     (fun acc' s' =>
        let gs' := (gs_done ++ run_groups self steps)%list in
        first_inv stored alive (desired_keys_of gs') gs' acc' s')
     (fun _ _ => True) s.
Proof.
  intros H Hnd.
  apply (wp_for_fold P
           (fun done acc' s' =>
              let gs' := (gs_done ++ run_groups self done)%list in
              first_inv stored alive (desired_keys_of gs') gs' acc' s')).
  - cbn. now rewrite app_nil_r.
  - intros done step rest acc1 s1 Hl H1. cbn zeta in *.
    eapply wp_mono; [apply first_run_step; [exact H1|] | | auto].
    + rewrite Hl in Hnd. unfold run_groups in Hnd.
      rewrite flat_map_app in Hnd. cbn [flat_map] in Hnd.
      rewrite !map_app, step_groups_refs in Hnd.
      rewrite map_app. fold (run_groups self done).
      rewrite !app_assoc in Hnd. apply NoDup_app_l in Hnd.
      exact Hnd.
    + intros acc2 s2 H2. cbn beta zeta in *.
      unfold run_groups in *. rewrite flat_map_app. cbn [flat_map].
      now rewrite app_nil_r, app_assoc.
  - intros acc1 s1 H1. exact H1.
Qed.

(** A first run that returns, from a workspace without a state file. *)
Lemma first_run (w0 : World P) :
  stored w0 = None ->
  NoDup (group_refs self) ->
  wp (create_dashboards P self)
     (fun d s' => first_run_done self stored alive (_state s') d s')
     (fun _ _ => True) (init P w0).
Proof.
  intros Hw Hnd. unfold create_dashboards. apply wp_bind.
  eapply wp_mono; [apply (first_run_groups [] _ ([], [])) | | auto].
  - unfold first_inv, dashboards_agree, queries_alive, Dict.wf. cbn.
    repeat split; auto using NoDup_nil; tauto.
  - cbn [map app]. rewrite run_groups_refs. exact Hnd.
  - intros acc s1 H. cbn [app] in H. cbn beta zeta.
    fold (all_groups self) in H.
    destruct H as (H1 & H2 & H3 & H4 & H5 & H6).
    destruct acc as [d qpd]. cbn [fst snd] in *. subst qpd.
    apply wp_bind. unfold wp at 1.
    rewrite save_all_desired; [|intros k; apply H4 | exact H2].
    pose proof (alive_kept _ _ _ _ F
                  (workspace_upload (_query_state self) (json_dumps P (_state s1))
                     AUTO true) (world s1)) as Ha.
    pose proof (upload_stored _ _ _ _ F (world s1) (json_dumps P (_state s1))
                  AUTO true) as Hu.
    unfold remote.
    destruct (ws P _ (world s1)) as [[u|code] w1]; [|exact I].
    unfold wp, ret. cbn in *. repeat split; try tauto; try apply H4; try apply H6.
    + eapply Hu; reflexivity.
    + intros k v Hin Hk. apply Ha; [discriminate | eauto].
Qed.

End FirstRunGroups.

(** ** The second run *)

Lemma same_resources_refl (st : Dict.dict string) :
  Dict.wf st -> same_resources st st.
Proof. intros H. repeat split; auto. Qed.

Lemma same_resources_widget (st1 st : Dict.dict string) (q : SimpleQuery)
    (id : string) :
  same_resources st1 st -> In (widget_key q) (Dict.keys st1) ->
  same_resources st1 (Dict.set (widget_key q) id st).
Proof.
  intros (Hwf & Hk & Hv) Hin.
  assert (Hm : Dict.mem (widget_key q) st = true).
  { apply dict_mem_In. now apply Hk. }
  split; [now apply dict_wf_set|]. split.
  - intros k. rewrite dict_keys_set, Hm. apply Hk.
  - intros k Hw. rewrite dict_get_set_other; [now apply Hv|].
    intros ->. apply Hw. now exists q.
Qed.

Lemma same_resources_mem (st1 st : Dict.dict string) (k : string) :
  same_resources st1 st -> In k (Dict.keys st1) -> Dict.mem k st = true.
Proof. intros (_ & Hk & _) Hin. apply dict_mem_In. now apply Hk. Qed.

Lemma group_keys_desired (gs : Dict.dict (list SimpleQuery)) (ref : string)
    (qs : list SimpleQuery) (k : string) :
  In (ref, qs) gs -> In k (group_keys ref qs) -> In k (desired_keys_of gs).
Proof.
  intros Hg Hk. unfold desired_keys_of. apply in_flat_map.
  exists (ref, qs). split; [assumption | exact Hk].
Qed.

Lemma agree_unique (f : string -> option string) (d1 d2 : Dict.dict string) :
  map fst d1 = map fst d2 ->
  (forall r v, In (r, v) d1 -> f r = Some v) ->
  (forall r v, In (r, v) d2 -> f r = Some v) ->
  d1 = d2.
Proof.
  revert d2. induction d1 as [|[r1 v1] d1 IH]; intros [|[r2 v2] d2] Hm H1 H2;
    try discriminate; [reflexivity|].
  cbn in Hm. injection Hm as -> Hm.
  assert (v1 = v2) as ->.
  { specialize (H1 r2 v1 (or_introl eq_refl)).
    specialize (H2 r2 v2 (or_introl eq_refl)). congruence. }
  f_equal. apply IH; auto.
  - intros r v Hin. apply H1. now right.
  - intros r v Hin. apply H2. now right.
Qed.

Section SecondRun.

Variable P : Platform.
Variable self : DashboardFromFiles.
Variable stored : World P -> option (bytes P).
Variable alive : World P -> string -> Prop.
Hypothesis F : faithful P (_query_state self) stored alive.
Variable st1 : Dict.dict string.
Hypothesis Hwf : Dict.wf st1.

Lemma update_world : closed update_calls (second_run_world stored alive st1).
Proof.
  apply (second_world_closed P self stored alive F); cbn; intuition discriminate.
Qed.

Lemma wp_both {A} (I : Sys P -> Prop) (m : M P A) (Q : A -> Sys P -> Prop)
    (s : Sys P) :
  wp m (fun _ s' => I s') (fun _ s' => I s') s ->
  wp m Q (fun _ _ => True) s ->
  wp m (fun a s' => I s' /\ Q a s') (fun _ _ => True) s.
Proof.
  intros Hp Hq. eapply wp_mono; [apply (wp_conj _ _ _ _ _ _ Hp Hq) | auto | auto].
Qed.

Lemma second_run_query (q : SimpleQuery)
    (dashboard_name data_source parent ref : string) (s : Sys P) :
  second_run_world stored alive st1 s ->
  same_resources st1 (_state s) ->
  (forall k, In k [query_key q; viz_key q; widget_key q] -> In k (Dict.keys st1)) ->
  wp (install_one P dashboard_name data_source parent ref q)
     (fun _ s' => second_run_world stored alive st1 s'
                  /\ same_resources st1 (_state s'))
     (fun _ _ => True) s.
Proof.
  intros Hw Hs Hk. unfold install_one.
  assert (Hq : Dict.mem (query_key q) (_state s) = true).
  { apply (same_resources_mem st1); [assumption | apply Hk; cbn; tauto]. }
  apply wp_bind.
  eapply wp_mono;
    [apply wp_both;
     [apply (install_query_recorded P _ _ update_world); [cbn; tauto | exact Hq | exact Hw]
     | apply (install_query_state P self stored alive F)]
    | | auto].
  intros u s1 [Hw1 Hst]. cbn beta. rewrite Hq in Hst.
  rewrite <- Hst in Hs. clear Hw Hst Hq s.
  assert (Hv : Dict.mem (viz_key q) (_state s1) = true).
  { apply (same_resources_mem st1); [assumption | apply Hk; cbn; tauto]. }
  apply wp_bind.
  eapply wp_mono;
    [apply wp_both;
     [apply (install_viz_recorded P _ _ update_world); [cbn; tauto | exact Hv | exact Hw1]
     | apply install_viz_state]
    | | auto].
  intros u2 s2 [Hw2 Hst]. cbn beta. rewrite Hv in Hst.
  rewrite <- Hst in Hs. clear Hw1 Hst Hv s1.
  eapply wp_mono;
    [apply wp_both;
     [apply (install_widget_preserves P _ _ _ _ update_world);
      [intros s' p H'; exact H' | cbn; tauto | exact Hw2]
     | apply install_widget_state]
    | | auto].
  intros u3 s3 [Hw3 (id & Hst)]. split; [assumption|].
  rewrite Hst. apply same_resources_widget; [assumption|].
  apply Hk. cbn. tauto.
Qed.

Lemma second_run_group gs acc (step : StepFolder) (dash : DashboardFolder)
    (s : Sys P) :
  second_run_world stored alive st1 s ->
  snd acc = gs ->
  dashboards_agree (fst acc) gs st1 ->
  ~ In (ref_of step dash) (map fst gs) ->
  (forall k, In k (group_keys (ref_of step dash) (queries_of self step dash)) ->
             In k (Dict.keys st1)) ->
  wp (create_dashboard P self step acc dash)
     (fun acc' s' =>
        let gs' := (gs ++ [(ref_of step dash, queries_of self step dash)])%list in
        second_run_world stored alive st1 s'
        /\ same_resources st1 (_state s')
        /\ snd acc' = gs'
        /\ dashboards_agree (fst acc') gs' st1)
     (fun _ _ => True) s.
Proof.
  intros Hw Hacc Hagree Hn Hk. unfold create_dashboard, _desired_queries.
  apply wp_bind. unfold wp at 1, logger.
  apply wp_bind. unfold wp at 1, logger.
  match goal with |- wp _ _ _ ?s1 =>
    assert (H0 : second_run_world stored alive st1 s1) by exact Hw;
    generalize dependent s1 end.
  clear Hw s. intros s Hw.
  apply wp_bind, wp_lift. fold (group_queries self step dash).
  unfold queries_of in *. fold (ref_of step dash).
  destruct (group_queries self step dash) as [qs|e]; [|exact I].
  apply wp_bind.
  destruct Hw as (Hw1 & Hw2 & Hw3).
  eapply wp_mono;
    [apply wp_both;
     [apply (installed_query_state_preserves P self _ _ update_world);
      [intros n Hin; cbn in *; tauto | now repeat split]
     | apply (load_existing P self stored alive F st1); assumption]
    | | auto].
  clear Hw1 Hw2 Hw3 s. intros parent s [Hw Hst]. cbn beta.
  assert (Hs : same_resources st1 (_state s)).
  { rewrite Hst. now apply same_resources_refl. }
  clear Hst. apply wp_bind.
  eapply wp_mono;
    [apply wp_both;
     [apply (dashboard_data_source_preserves P self _ _ update_world);
      [intros n Hin; cbn in *; tauto | exact Hw]
     | apply data_source_state]
    | | auto].
  intros source s2 [Hw2 Hst]. cbn beta. rewrite <- Hst in Hs.
  clear Hw Hst s.
  assert (Hd : Dict.mem (dashboard_key (ref_of step dash)) (_state s2) = true).
  { apply (same_resources_mem st1); [assumption | apply Hk; now left]. }
  apply wp_bind.
  eapply wp_mono;
    [apply wp_both;
     [apply (install_dashboard_recorded P _ _ update_world);
      [cbn; tauto | cbn; tauto | exact Hd | exact Hw2]
     | apply install_dashboard_state]
    | | auto].
  intros u s3 [Hw3 Hst]. cbn beta. rewrite Hd in Hst. rewrite <- Hst in Hs.
  clear Hw2 Hst Hd s2. apply wp_bind.
  apply (wp_for_each P
           (fun _ s' => second_run_world stored alive st1 s'
                        /\ same_resources st1 (_state s'))).
  - now split.
  - intros done q rest s4 Hl [Hw4 Hs4].
    apply second_run_query; auto.
    intros k Hin. apply Hk. right. rewrite Hl. apply in_flat_map.
    exists q. split; [apply in_or_app; right; now left | exact Hin].
  - intros s4 [Hw4 Hs4]. apply wp_bind. unfold wp at 1, state_item.
    destruct (Dict.get (dashboard_key (ref_of step dash)) (_state s4)) as [v|] eqn:Ev;
      [|exact I].
    unfold wp, ret. cbn [fst snd]. split; [assumption|]. split; [assumption|].
    destruct Hagree as [Hm He]. split; [|split].
    + rewrite Hacc. now apply dict_set_new.
    + rewrite dict_set_new; [|now rewrite Hm]. now rewrite !map_app, Hm.
    + intros r x Hin. rewrite dict_set_new in Hin; [|now rewrite Hm].
      apply in_app_or in Hin as [Hin|[[= <- <-]|[]]]; auto.
      destruct Hs4 as (_ & _ & Hv). rewrite <- Hv; [assumption|].
      apply dashboard_key_not_widget.
Qed.

End SecondRun.

Section SecondRunGroups.

Variable P : Platform.
Variable self : DashboardFromFiles.
Variable stored : World P -> option (bytes P).
Variable alive : World P -> string -> Prop.
Hypothesis F : faithful P (_query_state self) stored alive.
Variable st1 : Dict.dict string.
Hypothesis Hwf : Dict.wf st1.

Lemma second_run_step gs acc (step : StepFolder) (s : Sys P) :
  second_run_inv stored alive st1 gs acc s ->
  NoDup (map fst gs ++ map (ref_of step) (dashboard_folders step)) ->
  (forall dash k,
      In dash (dashboard_folders step) ->
      In k (group_keys (ref_of step dash) (queries_of self step dash)) ->
      In k (Dict.keys st1)) ->
  wp (create_step P self acc step)
     (fun acc' s' =>
        second_run_inv stored alive st1
          (gs ++ step_groups self step (dashboard_folders step))%list acc' s')
     (fun _ _ => True) s.
Proof.
  intros H Hnd Hk. unfold create_step.
  apply wp_bind. unfold wp at 1, logger.
  match goal with |- wp _ _ _ ?s1 =>
    assert (H0 : second_run_inv stored alive st1 gs acc s1) by exact H;
    generalize dependent s1 end.
  clear H s. intros s H.
  apply (wp_for_fold P
           (fun done acc' s' =>
              second_run_inv stored alive st1
                (gs ++ step_groups self step done)%list acc' s')).
  - cbn. now rewrite app_nil_r.
  - intros done dash rest acc1 s1 Hl (Hw & Hs & Hacc & Hag).
    eapply wp_mono;
      [apply (second_run_group P self stored alive F st1 Hwf _ acc1 step dash s1
                Hw Hacc Hag)
      | | auto].
    + rewrite map_app, step_groups_refs.
      rewrite Hl, map_app, app_assoc in Hnd. cbn in Hnd.
      apply NoDup_remove_2 in Hnd. intros Hin. apply Hnd.
      apply in_or_app. now left.
    + intros k. apply Hk. rewrite Hl. apply in_or_app. right. now left.
    + intros acc2 s2 (Hw2 & Hs2 & Hacc2 & Hag2). cbn zeta in *.
      unfold step_groups in *. rewrite map_app. cbn [map].
      rewrite app_assoc. repeat split; try tauto; try apply Hw2; try apply Hs2;
        try apply Hag2.
  - intros acc1 s1 H1. exact H1.
Qed.

Lemma second_run_groups (steps : list StepFolder) acc (s : Sys P) :
  second_run_inv stored alive st1 [] acc s ->
  NoDup (map fst (run_groups self steps)) ->
  (forall step dash k,
      In step steps -> In dash (dashboard_folders step) ->
      In k (group_keys (ref_of step dash) (queries_of self step dash)) ->
      In k (Dict.keys st1)) ->
  wp (for_fold steps acc (create_step P self))
     (fun acc' s' => second_run_inv stored alive st1 (run_groups self steps) acc' s')
     (fun _ _ => True) s.
Proof.
  intros H Hnd Hk.
  apply (wp_for_fold P
           (fun done acc' s' =>
              second_run_inv stored alive st1 (run_groups self done) acc' s')).
  - exact H.
  - intros done step rest acc1 s1 Hl H1.
    eapply wp_mono; [apply second_run_step; [exact H1| |] | | auto].
    + rewrite Hl in Hnd. unfold run_groups in Hnd.
      rewrite flat_map_app in Hnd. cbn [flat_map] in Hnd.
      rewrite !map_app, step_groups_refs in Hnd.
      rewrite app_assoc in Hnd. apply NoDup_app_l in Hnd. exact Hnd.
    + intros dash k Hd. apply Hk; [|assumption].
      rewrite Hl. apply in_or_app. right. now left.
    + intros acc2 s2 H2. cbn beta.
      unfold run_groups in *. rewrite flat_map_app. cbn [flat_map].
      now rewrite app_nil_r.
  - intros acc1 s1 H1. exact H1.
Qed.

Lemma all_groups_member (step : StepFolder) (dash : DashboardFolder) :
  In step (step_folders (_local_folder self)) ->
  In dash (dashboard_folders step) ->
  In (ref_of step dash, queries_of self step dash) (all_groups self).
Proof.
  intros Hs Hd. unfold all_groups, run_groups. apply in_flat_map.
  exists step. split; [assumption|]. unfold step_groups. apply in_map_iff.
  now exists dash.
Qed.

(** A second run that returns, from the workspace a first run left. *)
Lemma second_run (d1 : Dict.dict string) (s1 : Sys P) :
  first_run_done self stored alive st1 d1 s1 ->
  NoDup (group_refs self) ->
  wp (create_dashboards P self)
     (fun d s' =>
        d = d1
        /\ no_creation s'
        /\ stored (world s') = Some (json_dumps P (_state s'))
        /\ same_resources st1 (_state s'))
     (fun _ _ => True) (init P (world s1)).
Proof.
  intros (H1 & _ & H3 & H4 & H5) Hnd. unfold create_dashboards. apply wp_bind.
  eapply wp_mono; [apply (second_run_groups _ ([], [])) | | auto].
  - unfold second_run_inv, second_run_world, no_creation, dashboards_agree.
    cbn. repeat split; auto. intros r v [].
  - rewrite run_groups_refs. exact Hnd.
  - intros step dash k Hs Hd Hk. apply H4.
    apply (group_keys_desired _ (ref_of step dash) (queries_of self step dash));
      [now apply all_groups_member | exact Hk].
  - intros acc s2 ((Hw1 & Hw2 & Hw3) & Hst & Hacc & Hag). cbn beta.
    fold (all_groups self) in *.
    destruct acc as [d qpd]. cbn [fst snd] in *. subst qpd.
    assert (Hs : same_resources st1 (_state s2)).
    { destruct Hst as [[Hg Hst]|Hst]; [|assumption].
      rewrite Hst. rewrite Hg in H4. cbn in H4.
      destruct st1 as [|[k v] rest].
      - now apply same_resources_refl.
      - exfalso. apply (H4 k). now left. }
    destruct Hs as (Hs1 & Hs2 & Hs3).
    apply wp_bind. unfold wp at 1.
    rewrite save_all_desired;
      [|intros k Hk; apply H4; now apply Hs2 | exact Hs1].
    pose proof (upload_stored _ _ _ _ F (world s2) (json_dumps P (_state s2))
                  AUTO true) as Hu.
    unfold remote.
    destruct (ws P _ (world s2)) as [[u|code] w2]; [|exact I].
    unfold wp, ret. cbn in *. repeat split; try tauto; try apply Hs2.
    + destruct H5 as [Hm1 He1]. destruct Hag as [Hm2 He2].
      apply (agree_unique (fun r => Dict.get (dashboard_key r) st1)); auto.
      congruence.
    + unfold no_creation in *. cbn. rewrite forallb_app.
      apply andb_true_iff. split; [exact Hw3 | reflexivity].
    + eapply Hu; reflexivity.
Qed.

End SecondRunGroups.

(** ** Idempotence *)

(** C2, on the code: the second run over an unchanged group creates its
    widget again, a create call; and the claim needs more than an unchanged
    desired set: with a state file already there and two groups the second
    run creates a dashboard again (the first group's entries were lost to the
    reload, see [state_reloaded_for_every_group]), and with two groups of one
    reference it creates a query again. *)
Lemma second_run_creates_widgets :
  let first := create_dashboards Fake.platform (cfg_of one_group)
                 (init Fake.platform Fake.empty) in
  let second := create_dashboards Fake.platform (cfg_of one_group)
                  (init Fake.platform (world (snd first))) in
  let again := fun steps w =>
    let run1 := create_dashboards Fake.platform (cfg_of steps)
                  (init Fake.platform w) in
    call_names
      (filter (fun ev => creates_resource (fst ev))
         (trace (snd (create_dashboards Fake.platform (cfg_of steps)
                        (init Fake.platform (world (snd run1))))))) in
  fst first = Return [("assessment_main", "1")]
  /\ fst second = fst first
  /\ call_names (trace (snd second))
     = ["workspace.download"; "queries.get"; "workspace.get_status";
        "data_sources.list"; "warehouses.list"; "dashboards.get";
        "dashboard_widgets.delete"; "queries.update";
        "query_visualizations.update"; "dashboard_widgets.create";
        "workspace.upload"]
  /\ again two_groups installed_world
     = ["dashboards.create"; "queries.create"; "query_visualizations.create"]
  /\ again same_ref_groups Fake.empty
     = ["queries.create"; "query_visualizations.create"].
Proof. repeat split. Qed.

(** C2, amended: against a workspace that keeps what it is given, for a
    desired set whose groups have distinct references, when the first run
    starts without a state file and both runs return.  The two runs return
    the same dashboards; the second run makes no call that creates a
    dashboard, a query or a visualization; each run leaves its state in the
    state file, and the two states have the same keys and, but for the
    widgets, the same identifiers, every desired key among them. *)
Theorem second_run_only_updates (P : Platform) (self : DashboardFromFiles)
    (stored : World P -> option (bytes P)) (alive : World P -> string -> Prop)
    (w0 : World P) (d1 d2 : Dict.dict string) (s1 s2 : Sys P) :
  faithful P (_query_state self) stored alive ->
  stored w0 = None ->
  NoDup (group_refs self) ->
  create_dashboards P self (init P w0) = (Return d1, s1) ->
  create_dashboards P self (init P (world s1)) = (Return d2, s2) ->
  d2 = d1
  /\ no_creation s2
  /\ stored (world s1) = Some (json_dumps P (_state s1))
  /\ stored (world s2) = Some (json_dumps P (_state s2))
  /\ same_resources (_state s1) (_state s2)
  /\ (forall k, In k (desired_keys_of (all_groups self)) ->
                In k (Dict.keys (_state s1))).
Proof.
  intros F Hw Hnd E1 E2.
  pose proof (wp_returned _ _ _ _ _ _
                (first_run P self stored alive F w0 Hw Hnd) E1) as H1.
  cbn beta in H1.
  pose proof H1 as (Hs1 & Hwf & _ & Hk & _).
  pose proof (wp_returned _ _ _ _ _ _
                (second_run P self stored alive F (_state s1) Hwf d1 s1 H1 Hnd) E2)
    as (Hd & Hn & Hs2 & Hsame).
  repeat split; try assumption; try apply Hsame.
  intros k. apply Hk.
Qed.

Lemma second_run_only_updates_witness :
  let self := cfg_of two_groups in
  let first := create_dashboards Fake.platform self
                 (init Fake.platform Fake.empty) in
  let second := create_dashboards Fake.platform self
                  (init Fake.platform (world (snd first))) in
  fake_stored "/remote/state.json" Fake.empty = None
  /\ NoDup (group_refs self)
  /\ fst first = Return [("assessment_main", "1"); ("assessment_extra", "5")]
  /\ fst second = fst first
  /\ no_creation (snd second)
  /\ same_resources (_state (snd first)) (_state (snd second)).
Proof.
  intros self first second.
  assert (Hnd : NoDup (group_refs self)).
  { vm_compute. repeat constructor; cbn; intuition discriminate. }
  assert (E1 : create_dashboards Fake.platform self (init Fake.platform Fake.empty)
               = (Return [("assessment_main", "1"); ("assessment_extra", "5")],
                  snd first)) by (vm_compute; reflexivity).
  assert (E2 : create_dashboards Fake.platform self
                 (init Fake.platform (world (snd first)))
               = (Return [("assessment_main", "1"); ("assessment_extra", "5")],
                  snd second)) by (vm_compute; reflexivity).
  destruct (second_run_only_updates Fake.platform self
              (fake_stored "/remote/state.json") fake_alive Fake.empty _ _ _ _
              (fake_faithful "/remote/state.json") eq_refl Hnd E1 E2)
    as (_ & Hn & _ & _ & Hs & _).
  split; [vm_compute; reflexivity|].
  split; [exact Hnd|].
  split; [vm_compute; reflexivity|].
  split; [vm_compute; reflexivity|].
  split; [exact Hn | exact Hs].
Defined.

(** ** Loading once *)

(** C1, on the code: two groups against a workspace that already holds a
    state file.  The state file is downloaded once for each group; the second
    download replaces the state in memory, so the entries recorded for the
    first group are gone by the time the state is saved, and its dashboard
    stays in the workspace with no entry pointing at it. *)
Theorem state_reloaded_for_every_group :
  let r := create_dashboards Fake.platform (cfg_of two_groups)
             (init Fake.platform installed_world) in
  fst r = Return [("assessment_main", "1"); ("assessment_extra", "5")]
  /\ length (filter is_download (trace (snd r))) = 2
  /\ length (filter is_upload (trace (snd r))) = 1
  /\ Dict.get "assessment_main:dashboard_id" (_state (snd r)) = None
  /\ Fake.files (world (snd r))
     = [("/remote/state.json",
         Fake.Json
           [("assessment_extra:dashboard_id", "5");
            ("assessment_extra_mounts.sql:query_id", "6");
            ("assessment_extra_mounts.sql:viz_id", "7");
            ("assessment_extra_mounts.sql:widget_id", "8");
            ("assessment_extra_jobs.sql:query_id", "9");
            ("assessment_extra_jobs.sql:viz_id", "10");
            ("assessment_extra_jobs.sql:widget_id", "11")])]
  /\ Fake.boards (world (snd r)) = [("1", ["4"]); ("5", ["8"; "11"])].
Proof. repeat split. Qed.

(** * Further properties of the module *)

(** ** The validation pass moves the widget counter *)







(** ** Traffic on the state file *)

Lemma repeat_snoc {A : Type} (x : A) (n : nat) :
  (repeat x n ++ [x])%list = repeat x (S n).
Proof. induction n; cbn; [reflexivity | now rewrite IHn]. Qed.

Lemma destructors_delete_call (P : Platform) (kind v : string)
    (c : call (bytes P)) :
  destructors P kind v = Some c -> In (call_name c) delete_calls.
Proof.
  unfold destructors.
  destruct (String.eqb kind "query_id"); [intros [= <-]; cbn; tauto|].
  destruct (String.eqb kind "viz_id"); [intros [= <-]; cbn; tauto|].
  destruct (String.eqb kind "widget_id"); [intros [= <-]; cbn; tauto|].
  discriminate.
Qed.

Section Traffic.

Variable P : Platform.
Variable self : DashboardFromFiles.
Variable s0 : Sys P.

Lemma loads_only_closed (names : list string) (n : nat) :
  ~ In "workspace.download" names -> ~ In "workspace.upload" names ->
  closed names (loads_only (_query_state self) s0 n).
Proof.
  intros Hd Hu. split; [|split].
  - intros s d (evs & H & R). now exists evs.
  - intros s l (evs & H & R). now exists evs.
  - intros s c Hc (evs & H & D & U).
    assert (Hdl : forall r, is_download (c, r) = false).
    { intros r. destruct c; try reflexivity. exfalso. apply Hd, Hc. }
    assert (Hul : forall r, is_upload (c, r) = false).
    { intros r. destruct c; try reflexivity. exfalso. apply Hu, Hc. }
    destruct (remote_trace P c s) as [r Hr].
    exists (evs ++ [(c, r)])%list. rewrite Hr, H, <- app_assoc.
    split; [reflexivity|]. rewrite !filter_app. cbn [filter].
    rewrite Hdl, Hul, !app_nil_r. now split.
Qed.

Lemma loads_only_upto (n k : nat) (s : Sys P) :
  n <= k -> loads_only (_query_state self) s0 n s ->
  loads_upto (_query_state self) s0 k s.
Proof. intros H H1. now exists n. Qed.

(** A load downloads the state file once, whatever comes of it. *)
Lemma load_traffic (n : nat) (s : Sys P) :
  loads_only (_query_state self) s0 n s ->
  wp (_installed_query_state P self)
     (fun _ s' => loads_only (_query_state self) s0 (S n) s')
     (fun _ s' => loads_only (_query_state self) s0 (S n) s') s.
Proof.
  intros H.
  assert (HJ : closed ["workspace.mkdirs"; "workspace.get_status"; "queries.get"]
                 (loads_only (_query_state self) s0 (S n)))
    by (apply loads_only_closed; cbn; intuition discriminate).
  assert (Hdl : forall r w,
             loads_only (_query_state self) s0 (S n)
               (after_calls s w [(workspace_download (_query_state self), r)])).
  { destruct H as (evs & Ht & Hd & Hu). intros r w.
    exists (evs ++ [(workspace_download (_query_state self), r)])%list.
    cbn [after_calls trace]. rewrite Ht, <- app_assoc.
    split; [reflexivity|]. rewrite !filter_app, map_app. cbn.
    split; [|rewrite app_nil_r; exact Hu].
    etransitivity; [|apply (repeat_snoc _ n)]. f_equal. exact Hd. }
  unfold _installed_query_state. apply wp_bind.
  apply wp_mono with
    (post := fun (_ : unit) s' => loads_only (_query_state self) s0 (S n) s')
    (epost := fun (_ : exn) s' => loads_only (_query_state self) s0 (S n) s').
  - apply wp_try, wp_bind.
    apply (wp_remote P (workspace_download (_query_state self))).
    destruct (ws P (workspace_download (_query_state self)) (world s))
      as [[content|code] w].
    + match goal with
      | |- wp ?m _ _ _ =>
          assert (Hm : preserves (loads_only (_query_state self) s0 (S n)) m)
            by (unfold sweep_entry; pres HJ)
      end.
      eapply wp_mono; [apply Hm, Hdl | auto |].
      intros e s1 H1. destruct e; try exact H1.
      destruct (negb (String.eqb error_code "RESOURCE_DOES_NOT_EXIST"));
        [exact H1|].
      apply (preserves_remote P _ _ HJ (workspace_mkdirs (_remote_folder self)));
        [cbn; tauto | exact H1].
    + cbn beta iota.
      destruct (negb (String.eqb code "RESOURCE_DOES_NOT_EXIST")).
      * apply Hdl.
      * apply (preserves_remote P _ _ HJ (workspace_mkdirs (_remote_folder self)));
          [cbn; tauto | apply Hdl].
  - intros u s1 H1. cbn beta.
    match goal with
    | |- wp ?m _ _ _ =>
        assert (Hm : preserves (loads_only (_query_state self) s0 (S n)) m)
          by pres HJ
    end.
    apply Hm, H1.
  - auto.
Qed.

(** A group downloads the state file once, unless its definitions fail to
    load; it uploads nothing. *)
Lemma create_dashboard_traffic (n : nat) (step : StepFolder)
    (dash : DashboardFolder) (acc : Locals) (s : Sys P) :
  loads_only (_query_state self) s0 n s ->
  wp (create_dashboard P self step acc dash)
     (fun _ s' => loads_only (_query_state self) s0 (S n) s')
     (fun _ s' => loads_upto (_query_state self) s0 (S n) s') s.
Proof.
  intros H. unfold create_dashboard, _desired_queries.
  assert (H0 : closed [] (loads_only (_query_state self) s0 n))
    by (apply loads_only_closed; cbn; tauto).
  assert (HJ : closed after_load_calls (loads_only (_query_state self) s0 (S n)))
    by (apply loads_only_closed; cbn; intuition discriminate).
  apply wp_bind.
  eapply wp_mono;
    [apply (preserves_logger P _ _ H0); exact H
    | | intros e s1 H1; apply (loads_only_upto n); [lia | exact H1]].
  intros u1 s1 H1. cbn beta. apply wp_bind.
  eapply wp_mono;
    [apply (preserves_logger P _ _ H0); exact H1
    | | intros e s2 H2; apply (loads_only_upto n); [lia | exact H2]].
  intros u2 s2 H2. cbn beta.
  apply wp_bind, wp_lift.
  match goal with |- match ?o with _ => _ end => destruct o as [qs|e] end;
    [|apply (loads_only_upto n); [lia | exact H2]].
  apply wp_bind.
  eapply wp_mono;
    [apply load_traffic; exact H2
    | | intros e s3 H3; apply (loads_only_upto (S n)); [lia | exact H3]].
  intros parent s3 H3. cbn beta.
  match goal with
  | |- wp ?m _ _ _ =>
      assert (Hm : preserves (loads_only (_query_state self) s0 (S n)) m)
  end.
  { apply preserves_bind.
    { apply (dashboard_data_source_preserves P self _ _ HJ).
      intros x Hx. unfold after_load_calls. cbn in *. tauto. }
    intros source. apply preserves_bind.
    { apply (install_dashboard_preserves P _ _ HJ).
      intros x Hx. unfold after_load_calls. cbn in *. tauto. }
    intros u. apply preserves_bind.
    { apply preserves_for_each. intros q Hq. unfold install_one.
      apply preserves_bind.
      { apply (install_query_preserves P _ _ HJ).
        intros x Hx. unfold after_load_calls. cbn in *. tauto. }
      intros u'. apply preserves_bind.
      { apply (install_viz_preserves P _ _ HJ).
        intros x Hx. unfold after_load_calls. cbn in *. tauto. }
      intros u''. apply (install_widget_preserves P _ _ q _ HJ).
      - intros s' p H'. exact H'.
      - cbn. tauto. }
    intros u'. pres HJ. }
  eapply wp_mono; [apply Hm, H3 | auto |].
  intros e s4 H4. apply (loads_only_upto (S n)); [lia | exact H4].
Qed.

Lemma create_step_traffic (n : nat) (step : StepFolder) (acc : Locals)
    (s : Sys P) :
  loads_only (_query_state self) s0 n s ->
  wp (create_step P self acc step)
     (fun _ s' =>
        loads_only (_query_state self) s0
          (n + length (dashboard_folders step)) s')
     (fun _ s' =>
        loads_upto (_query_state self) s0
          (n + length (dashboard_folders step)) s') s.
Proof.
  intros H. unfold create_step.
  assert (H0 : closed [] (loads_only (_query_state self) s0 n))
    by (apply loads_only_closed; cbn; tauto).
  apply wp_bind.
  eapply wp_mono;
    [apply (preserves_logger P _ _ H0); exact H
    | | intros e s1 H1; apply (loads_only_upto n); [lia | exact H1]].
  intros u1 s1 H1. cbn beta.
  apply (wp_for_fold P
           (fun done _ s' =>
              loads_only (_query_state self) s0 (n + length done) s')).
  - cbn. now rewrite Nat.add_0_r.
  - intros done dash rest acc1 s2 Hl H2.
    eapply wp_mono; [apply create_dashboard_traffic; exact H2 | |].
    + intros acc2 s3 H3. rewrite length_app. cbn.
      now replace (n + (length done + 1)) with (S (n + length done)) by lia.
    + intros e s3 (m & Hm & H3). exists m. split; [|exact H3].
      rewrite Hl, length_app. cbn. lia.
  - intros acc1 s2 H2. exact H2.
Qed.

Lemma length_group_refs_app (steps : list StepFolder) :
  length (flat_map (fun step =>
                      map (fun dash => group_ref (step_folder_name step)
                                         (dashboard_folder_name dash))
                          (dashboard_folders step)) steps)
  = length (flat_map dashboard_folders steps).
Proof.
  induction steps as [|step steps IH]; [reflexivity|].
  cbn. now rewrite !length_app, length_map, IH.
Qed.

(** The calls of a whole run on the state file. *)
Lemma create_dashboards_traffic (s : Sys P) :
  s = s0 ->
  wp (create_dashboards P self)
     (fun _ s' =>
        exists evs content,
          trace s' = (trace s0 ++ evs
                      ++ [(workspace_upload (_query_state self) content AUTO true,
                           None)])%list
          /\ map fst (filter is_download evs)
             = repeat (workspace_download (_query_state self))
                 (length (group_refs self))
          /\ filter is_upload evs = [])
     (fun e s' =>
        loads_upto (_query_state self) s0 (length (group_refs self)) s'
        \/ exists evs content code,
            e = DatabricksError code
            /\ trace s' = (trace s0 ++ evs
                           ++ [(workspace_upload (_query_state self) content
                                  AUTO true, Some code)])%list
            /\ map fst (filter is_download evs)
               = repeat (workspace_download (_query_state self))
                   (length (group_refs self))
            /\ filter is_upload evs = [])
     s.
Proof.
  intros ->. unfold create_dashboards. apply wp_bind.
  apply (wp_for_fold P
           (fun done _ s' =>
              loads_only (_query_state self) s0
                (length (flat_map dashboard_folders done)) s')).
  - exists []. cbn. now rewrite app_nil_r.
  - intros done step rest acc1 s1 Hl H1.
    eapply wp_mono; [apply create_step_traffic; exact H1 | |].
    + intros acc2 s2 H2. rewrite flat_map_app, length_app. cbn.
      now rewrite app_nil_r.
    + intros e s2 (m & Hm & H2). left. exists m. split; [|exact H2].
      unfold group_refs. rewrite length_group_refs_app, Hl, flat_map_app,
        length_app in *. cbn. rewrite length_app. lia.
  - intros acc1 s1 H1. cbn beta.
    unfold group_refs. rewrite length_group_refs_app.
    set (n := length (flat_map dashboard_folders (step_folders (_local_folder self))))
      in *.
    assert (HD : closed delete_calls (loads_only (_query_state self) s0 n))
      by (apply loads_only_closed; cbn; intuition discriminate).
    apply wp_bind. unfold _store_query_state.
    apply wp_bind. unfold wp at 1, get_state. apply wp_bind.
    match goal with
    | |- wp ?m _ _ _ =>
        assert (Hm : preserves (loads_only (_query_state self) s0 n) m)
    end.
    { unfold store_entry. pres HD.
      eapply destructors_delete_call; eassumption. }
    eapply wp_mono;
      [apply Hm, H1 | | intros e s2 H2; left; now apply (loads_only_upto n)].
    intros new_state s2 (evs & Ht & Hd & Hu). cbn beta.
    apply (wp_remote P (workspace_upload (_query_state self)
                          (json_dumps P new_state) AUTO true)).
    destruct (ws P _ (world s2)) as [[u|code] w].
    + unfold wp, ret. exists evs, (json_dumps P new_state).
      cbn [after_calls trace]. rewrite Ht, <- app_assoc. now repeat split.
    + right. exists evs, (json_dumps P new_state), code.
      cbn [after_calls trace]. rewrite Ht, <- app_assoc. now repeat split.
Qed.

End Traffic.

(** X2: a run that returns has downloaded the state file once for every
    group of the local folder, and no other file; it has uploaded once, the
    state file, with overwrite, as its very last call, and that upload
    succeeded. *)
Theorem state_file_read_per_group_written_last (P : Platform)
    (self : DashboardFromFiles) (s s' : Sys P) (d : Dict.dict string) :
  create_dashboards P self s = (Return d, s') ->
  exists evs content,
    new_events s s'
    = (evs ++ [(workspace_upload (_query_state self) content AUTO true, None)])%list
    /\ map fst (filter is_download evs)
       = repeat (workspace_download (_query_state self))
           (length (group_refs self))
    /\ filter is_upload evs = [].
Proof.
  intros E.
  pose proof (wp_returned _ _ _ _ _ _
                (create_dashboards_traffic P self s s eq_refl) E)
    as (evs & content & Ht & Hd & Hu).
  exists evs, content. split; [|now split].
  now apply new_events_app.
Qed.

Lemma state_file_read_per_group_written_last_witness :
  let s := init Fake.platform Fake.empty in
  let r := create_dashboards Fake.platform (cfg_of two_groups) s in
  fst r = Return [("assessment_main", "1"); ("assessment_extra", "5")]
  /\ exists evs content,
      new_events s (snd r)
      = (evs ++ [(workspace_upload "/remote/state.json" content AUTO true,
                  None)])%list
      /\ map fst (filter is_download evs)
         = [workspace_download "/remote/state.json";
            workspace_download "/remote/state.json"]
      /\ filter is_upload evs = [].
Proof.
  intros s r.
  assert (E : create_dashboards Fake.platform (cfg_of two_groups) s
              = (Return [("assessment_main", "1"); ("assessment_extra", "5")],
                 snd r))
    by (vm_compute; reflexivity).
  split; [vm_compute; reflexivity|].
  exact (state_file_read_per_group_written_last _ _ _ _ _ E).
Defined.

(** X3: a run that raises has not saved anything.  It made at most one
    download for every group, and an upload it made is one that failed: the
    error of the run is then the error of that upload.  The resources such a
    run created are in no state file. *)
Theorem failed_run_saves_nothing (P : Platform) (self : DashboardFromFiles)
    (s s' : Sys P) (e : exn) :
  create_dashboards P self s = (Raise e, s') ->
  length (filter is_download (new_events s s')) <= length (group_refs self)
  /\ forall ev,
      In ev (new_events s s') -> is_upload ev = true ->
      exists code, snd ev = Some code /\ e = DatabricksError code.
Proof.
  intros E.
  pose proof (create_dashboards_traffic P self s s eq_refl) as H.
  unfold wp in H. rewrite E in H.
  destruct H as [(n & Hn & evs & Ht & Hd & Hu)
                |(evs & content & code & -> & Ht & Hd & Hu)];
    pose proof (f_equal (@length _) Hd) as Hlen;
    rewrite length_map, repeat_length in Hlen.
  - rewrite (new_events_app s s' evs Ht). split.
    + etransitivity; [|exact Hn]. apply Nat.eq_le_incl. exact Hlen.
    + intros ev Hin Hup.
      assert (Hf : In ev (filter is_upload evs))
        by (apply filter_In; now split).
      rewrite Hu in Hf. destruct Hf.
  - rewrite (new_events_app s s' _ Ht). split.
    + rewrite filter_app, length_app. cbn. rewrite Nat.add_0_r.
      apply Nat.eq_le_incl. exact Hlen.
    + intros ev Hin Hup. apply in_app_or in Hin as [Hin|[<-|[]]].
      * assert (Hf : In ev (filter is_upload evs))
          by (apply filter_In; now split).
        rewrite Hu in Hf. destruct Hf.
      * now exists code.
Qed.

Lemma failed_run_saves_nothing_witness :
  let s := init Fake.platform Fake.empty in
  let r := create_dashboards Fake.platform (cfg_of pie_group) s in
  call_names (new_events s (snd r))
  = ["workspace.download"; "workspace.mkdirs"; "workspace.get_status";
     "data_sources.list"; "warehouses.list"; "dashboards.create";
     "dbsql_permissions.set"; "queries.create"; "dbsql_permissions.set"]
  /\ length (filter is_download (new_events s (snd r))) <= 1
  /\ forall ev,
      In ev (new_events s (snd r)) -> is_upload ev = true ->
      exists code,
        snd ev = Some code
        /\ SyntaxError (file_text (sql_file "tables.sql" "pie")
                        ++ ": unknown viz type: pie")
           = DatabricksError code.
Proof.
  intros s r.
  assert (E : create_dashboards Fake.platform (cfg_of pie_group) s
              = (Raise (SyntaxError (file_text (sql_file "tables.sql" "pie")
                                     ++ ": unknown viz type: pie")),
                 snd r))
    by (vm_compute; reflexivity).
  split; [vm_compute; reflexivity|].
  exact (failed_run_saves_nothing _ _ _ _ _ E).
Defined.

(** ** Dashboard links *)

(** X4: after a first run that returns, against a workspace without a state
    file that keeps what it is given, the run has returned one dashboard for
    every group, in order, and [dashboard_link] gives for every group the
    address of the dashboard that the run returned for it. *)
Theorem dashboard_link_after_first_run (P : Platform)
    (self : DashboardFromFiles) (stored : World P -> option (bytes P))
    (alive : World P -> string -> Prop) (host : string) (w0 : World P)
    (d : Dict.dict string) (s' : Sys P) :
  faithful P (_query_state self) stored alive ->
  stored w0 = None ->
  NoDup (group_refs self) ->
  create_dashboards P self (init P w0) = (Return d, s') ->
  Dict.keys d = group_refs self
  /\ forall ref,
      In ref (group_refs self) ->
      exists id,
        Dict.get ref d = Some id
        /\ dashboard_link host ref s'
           = (Return (host ++ "/sql/dashboards/" ++ id), s').
Proof.
  intros F Hw Hnd E.
  pose proof (wp_returned _ _ _ _ _ _
                (first_run P self stored alive F w0 Hw Hnd) E) as H.
  cbn beta in H. destruct H as (_ & _ & _ & _ & Hm & Hg).
  unfold all_groups in Hm. rewrite run_groups_refs in Hm.
  change (Dict.keys d = group_refs self) in Hm.
  split; [exact Hm|].
  intros ref Hin. rewrite <- Hm in Hin, Hnd.
  unfold Dict.keys in Hin. apply in_map_iff in Hin as ([r v] & <- & Hin).
  cbn [fst]. exists v. split.
  - now apply dict_wf_get.
  - unfold dashboard_link, bind, state_item.
    now rewrite (Hg r v Hin).
Qed.

Lemma dashboard_link_after_first_run_witness :
  let self := cfg_of two_groups in
  let r := create_dashboards Fake.platform self (init Fake.platform Fake.empty) in
  fst r = Return [("assessment_main", "1"); ("assessment_extra", "5")]
  /\ fst (dashboard_link "https://host" "assessment_extra" (snd r))
     = Return "https://host/sql/dashboards/5"
  /\ forall ref,
      In ref (group_refs self) ->
      exists id,
        Dict.get ref [("assessment_main", "1"); ("assessment_extra", "5")]
        = Some id
        /\ dashboard_link "https://host" ref (snd r)
           = (Return ("https://host" ++ "/sql/dashboards/" ++ id), snd r).
Proof.
  intros self r.
  assert (Hnd : NoDup (group_refs self)).
  { vm_compute. repeat constructor; cbn; intuition discriminate. }
  assert (E : create_dashboards Fake.platform self (init Fake.platform Fake.empty)
              = (Return [("assessment_main", "1"); ("assessment_extra", "5")],
                 snd r)) by (vm_compute; reflexivity).
  split; [vm_compute; reflexivity|].
  split; [vm_compute; reflexivity|].
  exact (proj2 (dashboard_link_after_first_run Fake.platform self
                  (fake_stored "/remote/state.json") fake_alive "https://host"
                  Fake.empty _ _ (fake_faithful "/remote/state.json") eq_refl
                  Hnd E)).
Defined.

(** ** The data source of a dashboard *)

Lemma dict_get_fold_set (k : string) (l : list (string * string)) :
  forall d : Dict.dict string,
    Dict.get k (fold_left (fun d kv => Dict.set (fst kv) (snd kv) d) l d)
    = match last_value k l with
      | Some v => Some v
      | None => Dict.get k d
      end.
Proof.
  induction l as [|[k' v] l IH]; intros d; [reflexivity|].
  cbn [fold_left last_value fst snd]. rewrite IH.
  destruct (last_value k l); [reflexivity|].
  destruct (String.eqb_spec k k') as [->|Hk].
  - apply dict_get_set_same.
  - now apply dict_get_set_other.
Qed.

Lemma dict_get_of_pairs (k : string) (l : list (string * string)) :
  Dict.get k (Dict.of_pairs l) = last_value k l.
Proof.
  unfold Dict.of_pairs. rewrite dict_get_fold_set.
  now destruct (last_value k l).
Qed.

(** X5: what [_dashboard_data_source] does, in full.  It lists the data
    sources, then the warehouses, and touches nothing else; a failure of
    either listing is raised as it is, the first before the second is tried.
    The warehouse is the configured one unless that is missing or empty, else
    the first one listed, and [ValueError] when there is neither.  The result
    is the data source listed last for that warehouse, and [KeyError] on the
    warehouse when none is. *)
Theorem dashboard_data_source_spec (P : Platform) (self : DashboardFromFiles)
    (s : Sys P) :
  _dashboard_data_source P self s
  = match ws P data_sources_list (world s) with
    | (Failed code, w1) =>
        (Raise (DatabricksError code),
         after_calls s w1 [(data_sources_list, Some code)])
    | (Ok sources, w1) =>
        match ws P warehouses_list w1 with
        | (Failed code, w2) =>
            (Raise (DatabricksError code),
             after_calls s w2
               [(data_sources_list, None); (warehouses_list, Some code)])
        | (Ok warehouses, w2) =>
            (match chosen_warehouse self warehouses with
             | None =>
                 Raise (ValueError
                   "need either configured warehouse_id or an existing SQL warehouse")
             | Some warehouse =>
                 match last_value warehouse sources with
                 | Some id => Return id
                 | None => Raise (KeyError warehouse)
                 end
             end,
             after_calls s w2
               [(data_sources_list, None); (warehouses_list, None)])
        end
    end.
Proof.
  unfold _dashboard_data_source, after_calls, chosen_warehouse. munfold.
  destruct (ws P data_sources_list (world s)) as [[sources|code] w1];
    cbn; [|reflexivity].
  destruct (ws P warehouses_list w1) as [[warehouses|code] w2];
    cbn; [|now rewrite <- app_assoc].
  rewrite <- !app_assoc. cbn [app].
  destruct (_warehouse_id self) as [w|]; cbn.
  - destruct (String.eqb w ""); cbn.
    + destruct warehouses as [|first rest]; cbn; [reflexivity|].
      rewrite dict_get_of_pairs. now destruct (last_value first sources).
    + rewrite dict_get_of_pairs. now destruct (last_value w sources).
  - destruct warehouses as [|first rest]; cbn; [reflexivity|].
    rewrite dict_get_of_pairs. now destruct (last_value first sources).
Qed.

(** ** Viz definitions that the builders accept *)

Lemma viz_args_get (q : SimpleQuery) (k : string) :
  Dict.get k (viz_args q)
  = if String.eqb k "type" then None else Dict.get k (viz q).
Proof.
  unfold viz_args. induction (viz q) as [|[k' v] d IH].
  - cbn. now destruct (String.eqb k "type").
  - cbn [filter fst Dict.get].
    destruct (str_in k' ["type"]) eqn:E; cbn [negb Dict.get].
    + apply str_in_In in E as [<-|[]]. rewrite IH.
      now destruct (String.eqb k "type").
    + apply str_in_not_In in E. rewrite IH.
      destruct (String.eqb_spec k k') as [->|Hk]; [|reflexivity].
      destruct (String.eqb_spec k' "type") as [->|]; [|reflexivity].
      exfalso. apply E. now left.
Qed.

Lemma viz_args_keys (q : SimpleQuery) (k : string) :
  In k (Dict.keys (viz_args q)) <-> In k (Dict.keys (viz q)) /\ k <> "type".
Proof.
  rewrite <- !dict_mem_In. unfold Dict.mem. rewrite viz_args_get.
  destruct (String.eqb_spec k "type") as [->|Hk].
  - split; [discriminate | intros [_ H]; contradiction].
  - tauto.
Qed.

Lemma bind_kwargs_error (fname : string) (required optional : list string)
    (kwargs : Dict.dict string) (e : exn) :
  bind_kwargs fname required optional kwargs = Raise e ->
  exists msg, e = TypeError msg.
Proof.
  unfold bind_kwargs.
  destruct (find _ kwargs) as [[k v]|]; [intros [= <-]; eauto|].
  destruct (filter _ required); [discriminate | intros [= <-]; eauto].
Qed.

Lemma bind_kwargs_inv (fname : string) (required optional : list string)
    (kwargs : Dict.dict string) (u : unit) :
  bind_kwargs fname required optional kwargs = Return u ->
  (forall k, In k (Dict.keys kwargs) -> In k (required ++ optional))
  /\ (forall k, In k required -> exists v, Dict.get k kwargs = Some v).
Proof.
  unfold bind_kwargs.
  destruct (find _ kwargs) as [[k v]|] eqn:Ef; [discriminate|].
  destruct (filter _ required) as [|m ms] eqn:Em; [|discriminate].
  intros _. split.
  - intros k Hk. unfold Dict.keys in Hk. apply in_map_iff in Hk as (kv & <- & Hin).
    pose proof (find_none _ _ Ef kv Hin) as H. cbn beta in H.
    apply negb_false_iff, str_in_In in H. exact H.
  - intros k Hk.
    destruct (Dict.get k kwargs) as [v|] eqn:Eg; [eauto|].
    assert (Hin : In k (filter (fun p => negb (Dict.mem p kwargs)) required)).
    { apply filter_In. split; [exact Hk|]. unfold Dict.mem. now rewrite Eg. }
    rewrite Em in Hin. destruct Hin.
Qed.

Lemma bind_kwargs_ok (fname : string) (required optional : list string)
    (kwargs : Dict.dict string) :
  (forall k, In k (Dict.keys kwargs) -> In k (required ++ optional)) ->
  (forall k, In k required -> In k (Dict.keys kwargs)) ->
  bind_kwargs fname required optional kwargs = Return tt.
Proof.
  intros Hk Hr. unfold bind_kwargs.
  rewrite find_none_all.
  - assert (Hf : forall req,
               (forall k, In k req -> In k (Dict.keys kwargs)) ->
               filter (fun p => negb (Dict.mem p kwargs)) req = []).
    { induction req as [|r req IH]; intros H; [reflexivity|].
      cbn. assert (Hm : Dict.mem r kwargs = true)
        by (apply dict_mem_In, H; now left).
      rewrite Hm. cbn. apply IH. intros k Hin. apply H. now right. }
    now rewrite (Hf required Hr).
  - intros [k v] Hin. cbn [fst]. apply negb_false_iff, str_in_In, Hk.
    unfold Dict.keys. apply in_map_iff. now exists (k, v).
Qed.

Lemma dict_get_keys {V} (k : string) (v : V) (d : Dict.dict V) :
  Dict.get k d = Some v -> In k (Dict.keys d).
Proof.
  intros H. apply dict_get_In in H. unfold Dict.keys. apply in_map_iff.
  now exists (k, v).
Qed.

Lemma bind_kwargs_fit (fname : string) (required optional : list string)
    (kwargs : Dict.dict string) :
  (kwargs_fit required optional kwargs
   /\ bind_kwargs fname required optional kwargs = Return tt
   /\ forall k, In k required -> exists v, Dict.get k kwargs = Some v)
  \/ (~ kwargs_fit required optional kwargs
      /\ exists msg,
          bind_kwargs fname required optional kwargs = Raise (TypeError msg)).
Proof.
  destruct (bind_kwargs fname required optional kwargs) as [[]|e] eqn:E.
  - left. destruct (bind_kwargs_inv _ _ _ _ _ E) as [Hk Hr].
    split; [|now split]. split; [|exact Hk].
    intros k Hin. destruct (Hr k Hin) as [v Hv]. eapply dict_get_keys; eauto.
  - right. destruct (bind_kwargs_error _ _ _ _ _ E) as [msg ->].
    split; [|eauto]. intros [Hr Hk].
    rewrite (bind_kwargs_ok fname _ _ _ Hk Hr) in E. discriminate.
Qed.

(** The table builder accepts exactly the keyword arguments that fit its
    signature, and gives one column for every piece of [columns]. *)
Lemma table_viz_args_spec (kwargs : Dict.dict string) :
  (kwargs_fit ["name"; "columns"]
     ["items_per_page"; "condensed"; "with_row_number"; "description"] kwargs
   /\ exists name columns,
       Dict.get "name" kwargs = Some name
       /\ Dict.get "columns" kwargs = Some columns
       /\ _table_viz_args kwargs
          = Return
              {| va_type := "TABLE";
                 va_name := name;
                 va_description := kwarg "description" PyNone kwargs;
                 va_options :=
                   TableOptions
                     (kwarg "items_per_page" (PyInt 25) kwargs)
                     (kwarg "condensed" (PyBool true) kwargs)
                     (kwarg "with_row_number" (PyBool false) kwargs)
                     2
                     (map (fun x => VizColumn.make x x)
                          (PyStr.split "," columns)) |})
  \/ (~ kwargs_fit ["name"; "columns"]
          ["items_per_page"; "condensed"; "with_row_number"; "description"]
          kwargs
      /\ exists msg, _table_viz_args kwargs = Raise (TypeError msg)).
Proof.
  unfold _table_viz_args.
  destruct (bind_kwargs_fit "DashboardFromFiles._table_viz_args"
              ["name"; "columns"]
              ["items_per_page"; "condensed"; "with_row_number"; "description"]
              kwargs)
    as [(Hfit & -> & Hr)|(Hfit & msg & ->)].
  - left. split; [exact Hfit|].
    destruct (Hr "name") as [name Hn]; [cbn; tauto|].
    destruct (Hr "columns") as [columns Hc]; [cbn; tauto|].
    exists name, columns. rewrite Hn, Hc. now repeat split.
  - right. split; [exact Hfit | eauto].
Qed.

Lemma counter_viz_args_spec (kwargs : Dict.dict string) :
  (kwargs_fit ["name"; "value_column"]
     ["description"; "counter_label"; "value_row_number"; "target_row_number";
      "string_decimal"; "string_decimal_char"; "string_thousand_separator";
      "tooltip_format"; "count_row"] kwargs
   /\ exists name value_column,
       Dict.get "name" kwargs = Some name
       /\ Dict.get "value_column" kwargs = Some value_column
       /\ _counter_viz_args kwargs
          = Return
              {| va_type := "COUNTER";
                 va_name := name;
                 va_description := kwarg "description" PyNone kwargs;
                 va_options :=
                   CounterOptions
                     (kwarg "counter_label" PyNone kwargs)
                     (PyStr value_column)
                     (kwarg "value_row_number" (PyInt 1) kwargs)
                     (kwarg "target_row_number" (PyInt 1) kwargs)
                     (kwarg "string_decimal" (PyInt 0) kwargs)
                     (kwarg "string_decimal_char" (PyStr ".") kwargs)
                     (kwarg "string_thousand_separator" (PyStr ",") kwargs)
                     (kwarg "tooltip_format" (PyStr "0,0.000") kwargs)
                     (kwarg "count_row" (PyBool false) kwargs) |})
  \/ (~ kwargs_fit ["name"; "value_column"]
          ["description"; "counter_label"; "value_row_number";
           "target_row_number"; "string_decimal"; "string_decimal_char";
           "string_thousand_separator"; "tooltip_format"; "count_row"] kwargs
      /\ exists msg, _counter_viz_args kwargs = Raise (TypeError msg)).
Proof.
  unfold _counter_viz_args.
  destruct (bind_kwargs_fit "DashboardFromFiles._counter_viz_args"
              ["name"; "value_column"]
              ["description"; "counter_label"; "value_row_number";
               "target_row_number"; "string_decimal"; "string_decimal_char";
               "string_thousand_separator"; "tooltip_format"; "count_row"]
              kwargs)
    as [(Hfit & -> & Hr)|(Hfit & msg & ->)].
  - left. split; [exact Hfit|].
    destruct (Hr "name") as [name Hn]; [cbn; tauto|].
    destruct (Hr "value_column") as [column Hc]; [cbn; tauto|].
    exists name, column. rewrite Hn, Hc. now repeat split.
  - right. split; [exact Hfit | eauto].
Qed.

(** The attributes of [q] are accepted when its arguments, the attributes
    but for the kind, fit the signature of the builder of its kind. *)
Lemma viz_accepted_fit (q : SimpleQuery) (t : string)
    (required optional : list string) :
  viz_type q = Some t ->
  builder_params t = Some (required, optional) ->
  ~ In "type" required ->
  (viz_accepted q <-> kwargs_fit required optional (viz_args q)).
Proof.
  intros Ht Hb Hn. split.
  - intros (t' & r' & o' & Ht' & Hb' & Hr & Hk).
    rewrite Ht in Ht'. injection Ht' as <-.
    rewrite Hb in Hb'. injection Hb' as <- <-. split.
    + intros k Hin. apply viz_args_keys. split; [now apply Hr|].
      intros ->. contradiction.
    + intros k Hin. apply viz_args_keys in Hin as [Hin Hty].
      apply in_or_app. destruct (Hk k Hin) as [?|[?|?]]; tauto.
  - intros [Hr Hk]. exists t, required, optional.
    split; [exact Ht|]. split; [exact Hb|]. split.
    + intros k Hin. now apply (viz_args_keys q k), Hr.
    + intros k Hin. destruct (string_dec k "type") as [->|Hty]; [now left|].
      right. apply in_app_or, Hk, viz_args_keys. now split.
Qed.

(** X6: which viz definitions [_get_viz_options] accepts, and what it gives
    for them.  It returns exactly when the [type] attribute is [table] or
    [counter], every required parameter of that builder is among the
    attributes, and every attribute but [type] is a parameter of it.  The
    result has the [name] attribute as its name; a table has one column for
    every comma-separated piece of [columns], named and titled after it; a
    counter reads the [value_column].  Any other definition raises the
    unknown-kind [SyntaxError], when the kind has no builder, or a
    [TypeError]. *)
Theorem get_viz_options_accepts (q : SimpleQuery) :
  ((exists args, _get_viz_options q = Return args) <-> viz_accepted q)
  /\ (forall args,
         _get_viz_options q = Return args ->
         Dict.get "name" (viz q) = Some (va_name args)
         /\ ((viz_type q = Some "table"
              /\ va_type args = "TABLE"
              /\ exists columns items condensed numbered,
                  Dict.get "columns" (viz q) = Some columns
                  /\ va_options args
                     = TableOptions items condensed numbered 2
                         (map (fun x => VizColumn.make x x)
                              (PyStr.split "," columns)))
             \/ (viz_type q = Some "counter"
                 /\ va_type args = "COUNTER"
                 /\ exists column label r1 r2 dec dchar sep fmt cnt,
                     Dict.get "value_column" (viz q) = Some column
                     /\ va_options args
                        = CounterOptions label (PyStr column) r1 r2 dec dchar
                            sep fmt cnt)))
  /\ (forall e,
         _get_viz_options q = Raise e ->
         (e = unknown_viz_type q
          /\ forall t, viz_type q = Some t -> builder_params t = None)
         \/ exists msg, e = TypeError msg).
Proof.
  unfold _get_viz_options.
  destruct (viz_type q) as [t|] eqn:Ht.
  - cbn [viz_types Dict.get].
    destruct (String.eqb_spec t "table") as [->|Ht1];
      [|destruct (String.eqb_spec t "counter") as [->|Ht2]].
    + pose proof (viz_accepted_fit q "table" _ _ Ht eq_refl) as Hfit.
      destruct (table_viz_args_spec (viz_args q))
        as [(Hf & name & columns & Hn & Hc & ->)|(Hf & msg & ->)].
      * rewrite viz_args_get in Hn, Hc. cbn in Hn, Hc.
        split; [|split].
        -- split; [intros _|eauto]. apply Hfit; [|exact Hf].
           cbn. intuition discriminate.
        -- intros args [= <-]. cbn. split; [exact Hn|]. left.
           repeat split. eauto 10.
        -- discriminate.
      * split; [|split].
        -- split; [intros [a H]; discriminate|].
           intros H. exfalso. apply Hf, Hfit; [|exact H].
           cbn. intuition discriminate.
        -- discriminate.
        -- intros e [= <-]. right. eauto.
    + pose proof (viz_accepted_fit q "counter" _ _ Ht eq_refl) as Hfit.
      destruct (counter_viz_args_spec (viz_args q))
        as [(Hf & name & column & Hn & Hc & ->)|(Hf & msg & ->)].
      * rewrite viz_args_get in Hn, Hc. cbn in Hn, Hc.
        split; [|split].
        -- split; [intros _|eauto]. apply Hfit; [|exact Hf].
           cbn. intuition discriminate.
        -- intros args [= <-]. cbn. split; [exact Hn|]. right.
           repeat split. eauto 20.
        -- discriminate.
      * split; [|split].
        -- split; [intros [a H]; discriminate|].
           intros H. exfalso. apply Hf, Hfit; [|exact H].
           cbn. intuition discriminate.
        -- discriminate.
        -- intros e [= <-]. right. eauto.
    + assert (Hb : builder_params t = None).
      { unfold builder_params.
        destruct (String.eqb_spec t "table"); [contradiction|].
        destruct (String.eqb_spec t "counter"); [contradiction | reflexivity]. }
      split; [|split].
      * split; [intros [a H]; discriminate|].
        intros (t' & r & o & Ht' & Hb' & _). rewrite Ht in Ht'.
        injection Ht' as <-. rewrite Hb in Hb'. discriminate.
      * discriminate.
      * intros e [= <-]. left. split.
        -- unfold unknown_viz_type. now rewrite Ht.
        -- intros t' [= <-]. exact Hb.
  - split; [|split].
    + split; [intros [a H]; discriminate|].
      intros (t' & r & o & Ht' & _). rewrite Ht in Ht'. discriminate.
    + discriminate.
    + intros e [= <-]. left. split; [|discriminate].
      unfold unknown_viz_type. now rewrite Ht.
Qed.

(** ** The desired queries of a folder *)

Lemma append_inv_head (s a b : string) : s ++ a = s ++ b -> a = b.
Proof.
  induction s as [|c s IH]; cbn; intros H; [exact H|].
  injection H as H. now apply IH.
Qed.

Lemma NoDup_map_within {A B C : Type} (f : A -> B) (g : A -> C) (l : list A) :
  (forall x y, In x l -> In y l -> f x = f y -> g x = g y) ->
  NoDup (map g l) -> NoDup (map f l).
Proof.
  induction l as [|x l IH]; cbn; intros Hinj Hnd; [constructor|].
  apply NoDup_cons_iff in Hnd as [Hx Hnd]. constructor.
  - intros Hin. apply in_map_iff in Hin as (y & Hy & Hin). apply Hx.
    apply in_map_iff. exists y. split; [|exact Hin].
    apply Hinj; auto.
  - apply IH; [|exact Hnd]. intros a b Ha Hb. apply Hinj; auto.
Qed.

(** Within a group the three keys of a query determine its name. *)
Lemma keys_name_within_group (q1 q2 : SimpleQuery) :
  dashboard_ref q1 = dashboard_ref q2 ->
  (query_key q1 = query_key q2 -> name q1 = name q2)
  /\ (viz_key q1 = viz_key q2 -> name q1 = name q2)
  /\ (widget_key q1 = widget_key q2 -> name q1 = name q2).
Proof.
  intros Hr. unfold query_key, viz_key, widget_key. rewrite Hr.
  repeat split; intros H;
    apply append_inv_head, append_inv_head in H;
    now apply append_inv_tail in H.
Qed.

Lemma desired_queries_returned (callback : option (string -> string))
    (folder_path ref : string) (files : list SqlFile) :
  forall qs,
    desired_queries_of callback folder_path ref files = Return qs ->
    Forall2 (query_of_file callback folder_path ref) files qs.
Proof.
  induction files as [|f files IH]; cbn [desired_queries_of]; intros qs H.
  - injection H as <-. constructor.
  - fold (seen_text callback f) in H.
    destruct (_parse_magic_comment _ "-- viz " _) as [v|e] eqn:Ev;
      [|discriminate].
    destruct (_parse_magic_comment _ "-- widget " _) as [w|e] eqn:Ew;
      [|discriminate].
    destruct (desired_queries_of callback folder_path ref files) as [rest|e];
      [|discriminate].
    injection H as <-. constructor; [|now apply IH].
    now repeat split.
Qed.

Lemma desired_queries_raised (callback : option (string -> string))
    (folder_path ref : string) (files : list SqlFile) :
  forall e,
    desired_queries_of callback folder_path ref files = Raise e ->
    exists before f after,
      files = (before ++ f :: after)%list
      /\ (exists qs, desired_queries_of callback folder_path ref before = Return qs)
      /\ file_raises callback folder_path f e.
Proof.
  induction files as [|f files IH]; cbn [desired_queries_of]; intros e H;
    [discriminate|].
  fold (seen_text callback f) in H.
  destruct (_parse_magic_comment _ "-- viz " _) as [v|e1] eqn:Ev.
  - destruct (_parse_magic_comment _ "-- widget " _) as [w|e2] eqn:Ew.
    + destruct (desired_queries_of callback folder_path ref files) as [rest|e3];
        [discriminate|].
      injection H as <-.
      destruct (IH e3 eq_refl) as (before & g & after & -> & [qs Hq] & Hg).
      exists (f :: before), g, after. split; [reflexivity|]. split; [|exact Hg].
      cbn [desired_queries_of]. fold (seen_text callback f).
      rewrite Ev, Ew, Hq. eauto.
    + injection H as <-. exists [], f, files. split; [reflexivity|].
      split; [cbn; eauto|]. right. split; [eauto | exact Ew].
  - injection H as <-. exists [], f, files. split; [reflexivity|].
    split; [cbn; eauto|]. left. exact Ev.
Qed.

(** X7: what [_desired_queries] makes of a folder.  When it returns there is
    one query for every file, in the order of the listing: it carries the
    reference of the group and the name of the file, its text is the text of
    the file after the callback, and its viz and widget attributes are read
    off that text, not off the file; files with different names give queries
    with different state keys.  When it raises, the error is that of the
    first file whose markers do not read, and the files before it all read
    well. *)
Theorem desired_queries_shape (callback : option (string -> string))
    (folder_path ref : string) (files : list SqlFile) :
  match desired_queries_of callback folder_path ref files with
  | Return qs =>
      Forall2 (query_of_file callback folder_path ref) files qs
      /\ (NoDup (map file_name files) ->
          NoDup (map query_key qs) /\ NoDup (map viz_key qs)
          /\ NoDup (map widget_key qs))
  | Raise e =>
      exists before f after,
        files = (before ++ f :: after)%list
        /\ (exists qs,
               desired_queries_of callback folder_path ref before = Return qs)
        /\ file_raises callback folder_path f e
  end.
Proof.
  destruct (desired_queries_of callback folder_path ref files) as [qs|e] eqn:E;
    [|now apply desired_queries_raised].
  pose proof (desired_queries_returned _ _ _ _ _ E) as HF.
  split; [exact HF|]. intros Hnd.
  assert (Hnames : map name qs = map file_name files).
  { clear E Hnd. induction HF as [|f q fs qs' (_ & Hn & _) _ IH];
      [reflexivity|].
    cbn. now rewrite Hn, IH. }
  assert (Href : forall q, In q qs -> dashboard_ref q = ref).
  { clear E Hnd Hnames. induction HF as [|f q fs qs' (Hr & _) _ IH];
      [intros q []|].
    intros q' [<-|Hin]; [exact Hr | now apply IH]. }
  rewrite <- Hnames in Hnd.
  repeat split; apply (NoDup_map_within _ name); try exact Hnd;
    intros x y Hx Hy; apply keys_name_within_group;
    now rewrite (Href x Hx), (Href y Hy).
Qed.

Lemma desired_queries_shape_witness :
  desired_queries_of None "/queries/assessment/extra" "assessment_extra"
    example_files = Return example_queries
  /\ map name example_queries = ["mounts.sql"; "jobs.sql"]
  /\ NoDup (map query_key example_queries).
Proof.
  assert (E : desired_queries_of None "/queries/assessment/extra"
                "assessment_extra" example_files = Return example_queries)
    by (vm_compute; reflexivity).
  pose proof (desired_queries_shape None "/queries/assessment/extra"
                "assessment_extra" example_files) as H.
  rewrite E in H. destruct H as [_ H].
  split; [exact E|]. split; [vm_compute; reflexivity|].
  apply H. vm_compute. repeat constructor; cbn; intuition discriminate.
Defined.

(** ** Marker lines *)

Lemma prefix_cons (a b : ascii) (s1 s2 : string) :
  String.prefix (String a s1) (String b s2)
  = (Ascii.eqb a b && String.prefix s1 s2).
Proof.
  change (String.prefix (String a s1) (String b s2))
    with (if ascii_dec a b then String.prefix s1 s2 else false).
  destruct (ascii_dec a b) as [->|E].
  - now rewrite Ascii.eqb_refl.
  - apply Ascii.eqb_neq in E. now rewrite E.
Qed.

Lemma prefix_nil (s : string) : String.prefix "" s = true.
Proof. now destruct s. Qed.

Lemma prefix_app_self (a b : string) : String.prefix a (a ++ b) = true.
Proof.
  induction a as [|c a IH]; [apply prefix_nil|].
  cbn [append]. now rewrite prefix_cons, Ascii.eqb_refl, IH.
Qed.

Lemma find_first {A} (p : A -> bool) (pre post : list A) (x : A) :
  (forall y, In y pre -> p y = false) -> p x = true ->
  find p (pre ++ x :: post) = Some x.
Proof.
  intros Hpre Hx. induction pre as [|y pre IH]; cbn.
  - now rewrite Hx.
  - rewrite (Hpre y (or_introl eq_refl)). apply IH.
    intros z Hz. apply Hpre. now right.
Qed.

(** [replace] drops the marker at the head of its line. *)
Lemma replace_skip (old new pre body : string) :
  PyStr.replace_go old new (String.length pre) (pre ++ body)
  = PyStr.replace_go old new 0 body.
Proof.
  induction pre as [|c pre IH]; [reflexivity|]. cbn. exact IH.
Qed.

Lemma replace_none (old body : string) :
  occurs old body = false -> PyStr.replace_go old "" 0 body = body.
Proof.
  induction body as [|c body IH]; [reflexivity|].
  cbn [occurs PyStr.replace_go]. intros H.
  apply orb_false_iff in H as [Hp Ho]. rewrite Hp. now rewrite (IH Ho).
Qed.

Lemma replace_head (magic body : string) :
  magic <> "" -> occurs magic body = false ->
  PyStr.replace magic "" (magic ++ body) = body.
Proof.
  intros Hm Ho. unfold PyStr.replace.
  destruct magic as [|m ms]; [contradiction|].
  change (String m ms ++ body) with (String m (ms ++ body)).
  cbn [PyStr.replace_go].
  change (String m (ms ++ body)) with (String m ms ++ body).
  rewrite prefix_app_self.
  replace (String.length (String m ms) - 1) with (String.length ms)
    by (cbn [String.length]; lia).
  cbn [append]. rewrite replace_skip. now apply replace_none.
Qed.

(** [split(", ")] gives back the parts that were joined. *)
Lemma prefix_comma_app (c : ascii) (p rest : string) :
  String.prefix ", " (String c p) = false ->
  String.prefix ", " (String c (p ++ ", " ++ rest)) = false.
Proof.
  rewrite !prefix_cons.
  destruct (Ascii.eqb "," c); [|reflexivity]. cbn [andb].
  destruct p as [|d p]; cbn [append].
  - intros _. now rewrite prefix_cons.
  - rewrite !prefix_cons, !prefix_nil. auto.
Qed.

Lemma split_comma_part (part rest : string) :
  occurs ", " part = false ->
  PyStr.split_go ", " 0 (part ++ ", " ++ rest)
  = part :: PyStr.split_go ", " 0 rest.
Proof.
  induction part as [|c part IH]; intros H.
  - change ("" ++ ", " ++ rest) with (String "," (String " " rest)).
    cbn [PyStr.split_go].
    rewrite !prefix_cons, !Ascii.eqb_refl, prefix_nil. reflexivity.
  - cbn [occurs] in H. apply orb_false_iff in H as [Hp Ho].
    change (String c part ++ ", " ++ rest)
      with (String c (part ++ ", " ++ rest)).
    cbn [PyStr.split_go].
    rewrite (prefix_comma_app c part rest Hp), (IH Ho). reflexivity.
Qed.

Lemma split_comma_last (part : string) :
  occurs ", " part = false -> PyStr.split_go ", " 0 part = [part].
Proof.
  induction part as [|c part IH]; intros H; [reflexivity|].
  cbn [occurs] in H. apply orb_false_iff in H as [Hp Ho].
  cbn [PyStr.split_go]. now rewrite Hp, (IH Ho).
Qed.

Lemma split_join (parts : list string) :
  parts <> [] ->
  (forall p, In p parts -> occurs ", " p = false) ->
  PyStr.split ", " (join ", " parts) = parts.
Proof.
  unfold PyStr.split. induction parts as [|p parts IH]; [congruence|].
  intros _ H. destruct parts as [|p' parts].
  - cbn [join]. apply split_comma_last, H. now left.
  - change (join ", " (p :: p' :: parts))
      with (p ++ ", " ++ join ", " (p' :: parts)).
    rewrite split_comma_part by (apply H; now left).
    rewrite IH; [reflexivity | discriminate |].
    intros q Hq. apply H. now right.
Qed.

(** [split("=")] takes a spelled attribute apart. *)
Lemma split_eq_cons (c : ascii) (s : string) :
  PyStr.split "=" (String c s) =
  if Ascii.eqb c "=" then "" :: PyStr.split "=" s
  else match PyStr.split "=" s with
       | [] => [String c ""]
       | h :: t => String c h :: t
       end.
Proof.
  unfold PyStr.split. cbn [PyStr.split_go String.length Nat.sub].
  rewrite prefix_cons, prefix_nil, andb_true_r, Ascii.eqb_sym. reflexivity.
Qed.

Lemma split_eq_free (s : string) :
  has_char "=" s = false -> PyStr.split "=" s = [s].
Proof.
  induction s as [|c s IH]; intros H; [reflexivity|].
  cbn [has_char] in H. apply orb_false_iff in H as [Hc Hs].
  now rewrite split_eq_cons, Hc, (IH Hs).
Qed.

Lemma split_render_attr (kv : string * string) :
  has_char "=" (fst kv) = false -> has_char "=" (snd kv) = false ->
  PyStr.split "=" (render_attr kv) = [fst kv; snd kv].
Proof.
  unfold render_attr. destruct kv as [k v]. cbn [fst snd]. intros Hk Hv.
  induction k as [|c k IH].
  - change ("" ++ "=" ++ v) with (String "=" v).
    now rewrite split_eq_cons, Ascii.eqb_refl, (split_eq_free v Hv).
  - cbn [has_char] in Hk. apply orb_false_iff in Hk as [Hc Hk].
    change (String c k ++ "=" ++ v) with (String c (k ++ "=" ++ v)).
    now rewrite split_eq_cons, Hc, (IH Hk).
Qed.

Lemma dict_of_parts_rendered (pairs : list (string * string)) :
  forall i acc,
    (forall kv, In kv pairs -> plain_attr kv) ->
    dict_of_parts i (map render_attr pairs) acc
    = Return (fold_left (fun d kv => Dict.set (fst kv) (snd kv) d) pairs acc).
Proof.
  induction pairs as [|kv pairs IH]; intros i acc H; [reflexivity|].
  cbn [map dict_of_parts fold_left].
  destruct (H kv (or_introl eq_refl)) as (Hk & Hv & _).
  rewrite (split_render_attr kv Hk Hv). apply IH.
  intros kv' Hin. apply H. now right.
Qed.

(** X8: a marker line reads back as the attributes it spells.  Take the
    first line of the text that starts with the marker to be the marker
    followed by [key=value] attributes joined by [", "], at least one, keys
    and values without [=], no attribute with [", "] in it, and the marker
    nowhere among them.  Then [_parse_magic_comment] returns exactly these
    attributes, in order, the last value winning for a key given twice. *)
Theorem parse_magic_comment_roundtrip (f magic text : string)
    (pre post : list string) (pairs : list (string * string)) :
  magic <> "" ->
  pairs <> [] ->
  (forall kv, In kv pairs -> plain_attr kv) ->
  occurs magic (join ", " (map render_attr pairs)) = false ->
  PyStr.splitlines text = (pre ++ marker_line magic pairs :: post)%list ->
  (forall l, In l pre -> PyStr.startswith magic l = false) ->
  _parse_magic_comment f magic text = Return (Dict.of_pairs pairs).
Proof.
  intros Hm Hp Hplain Hocc Hlines Hpre.
  unfold _parse_magic_comment, next_startswith. rewrite Hlines.
  rewrite (find_first _ pre post (marker_line magic pairs) Hpre)
    by apply prefix_app_self.
  assert (Hne : String.eqb (marker_line magic pairs) "" = false).
  { unfold marker_line. destruct magic; [contradiction | reflexivity]. }
  rewrite Hne. unfold marker_line.
  rewrite (replace_head magic _ Hm Hocc).
  rewrite split_join.
  - now apply dict_of_parts_rendered.
  - destruct pairs; [contradiction | discriminate].
  - intros p Hin. apply in_map_iff in Hin as (kv & <- & Hin).
    apply (Hplain kv Hin).
Qed.

Lemma parse_magic_comment_roundtrip_witness :
  PyStr.splitlines (file_text (sql_file "tables.sql" "table"))
  = ["-- viz type=table, name=Rows, columns=a,b";
     marker_line "-- widget " [("title", "Rows"); ("col", "0")];
     "SELECT a, b FROM t"]
  /\ _parse_magic_comment "tables.sql" "-- widget "
       (file_text (sql_file "tables.sql" "table"))
     = Return [("title", "Rows"); ("col", "0")].
Proof.
  assert (E : PyStr.splitlines (file_text (sql_file "tables.sql" "table"))
              = (["-- viz type=table, name=Rows, columns=a,b"]
                 ++ marker_line "-- widget " [("title", "Rows"); ("col", "0")]
                 :: ["SELECT a, b FROM t"])%list)
    by (vm_compute; reflexivity).
  split; [exact E|].
  apply (parse_magic_comment_roundtrip "tables.sql" "-- widget "
           (file_text (sql_file "tables.sql" "table"))
           ["-- viz type=table, name=Rows, columns=a,b"]
           ["SELECT a, b FROM t"]
           [("title", "Rows"); ("col", "0")]).
  - discriminate.
  - discriminate.
  - intros kv [<-|[<-|[]]]; vm_compute; auto.
  - vm_compute. reflexivity.
  - exact E.
  - intros l [<-|[]]. vm_compute. reflexivity.
Defined.

(** ** What a load keeps *)

Lemma fold_set_wf {V} (l : list (string * V)) :
  forall d : Dict.dict V,
    Dict.wf d ->
    Dict.wf (fold_left (fun d kv => Dict.set (fst kv) (snd kv) d) l d).
Proof.
  induction l as [|kv l IH]; intros d H; [exact H|].
  cbn. apply IH. now apply dict_wf_set.
Qed.

Lemma of_pairs_wf {V} (l : list (string * V)) : Dict.wf (Dict.of_pairs l).
Proof. apply fold_set_wf. constructor. Qed.

Lemma filter_keys_in {V} (p : string * V -> bool) (d : Dict.dict V) (k : string) :
  In k (Dict.keys (filter p d)) -> In k (Dict.keys d).
Proof.
  unfold Dict.keys. rewrite !in_map_iff.
  intros (kv & E & H). apply filter_In in H as [H _]. eauto.
Qed.

Lemma filter_wf {V} (p : string * V -> bool) (d : Dict.dict V) :
  Dict.wf d -> Dict.wf (filter p d).
Proof.
  unfold Dict.wf. induction d as [|[k v] d IH]; cbn; intros H; [constructor|].
  apply NoDup_cons_iff in H as [Hk H].
  destruct (p (k, v)); cbn; [|now apply IH].
  constructor; [|now apply IH].
  intros Hin. apply Hk. eapply filter_keys_in. exact Hin.
Qed.

Lemma filter_id {A} (p : A -> bool) (l : list A) :
  (forall x, In x l -> p x = true) -> filter p l = l.
Proof.
  induction l as [|x l IH]; cbn; intros H; [reflexivity|].
  rewrite (H x (or_introl eq_refl)), IH; [reflexivity|].
  intros y Hy. apply H. now right.
Qed.

(** On a dictionary, [del] drops the entry of the key and no other. *)
Lemma dict_del_filter (k : string) (d : Dict.dict string) :
  Dict.wf d ->
  Dict.del k d = filter (fun kv => negb (String.eqb k (fst kv))) d.
Proof.
  unfold Dict.wf. induction d as [|[k' v] d IH]; cbn; intros H; [reflexivity|].
  apply NoDup_cons_iff in H as [Hk H].
  destruct (String.eqb_spec k k') as [->|Hne]; cbn.
  - symmetry. apply filter_id. intros [k2 v2] Hin. cbn.
    destruct (String.eqb_spec k' k2) as [->|]; [|reflexivity].
    exfalso. apply Hk. unfold Dict.keys. apply in_map_iff. now exists (k2, v2).
  - now rewrite IH.
Qed.

Lemma without_cons (k : string) (dead : list string) (d : Dict.dict string) :
  without dead (filter (fun kv => negb (String.eqb k (fst kv))) d)
  = without (k :: dead) d.
Proof.
  unfold without. induction d as [|[k' v] d IH]; [reflexivity|].
  cbn [filter fst].
  assert (E : str_in k' (k :: dead) = (String.eqb k k' || str_in k' dead)).
  { unfold str_in. cbn [existsb]. now rewrite (String.eqb_sym k' k). }
  rewrite E.
  destruct (String.eqb k k'); cbn [negb orb filter fst]; [exact IH|].
  destruct (str_in k' dead); cbn [negb]; now rewrite IH.
Qed.

(** Deleting keys of a dictionary one after the other never raises. *)
Lemma del_all (P : Platform) (dead : list string) :
  forall (s : Sys P),
    Dict.wf (_state s) ->
    NoDup dead ->
    (forall k, In k dead -> In k (Dict.keys (_state s))) ->
    for_each dead state_del s
    = (Return tt,
       Build_Sys P (without dead (_state s)) (_pos s) (world s) (trace s)
         (log s)).
Proof.
  induction dead as [|k dead IH]; intros s Hwf Hnd Hin.
  - cbn. unfold ret, without. rewrite filter_id by reflexivity.
    now destruct s.
  - apply NoDup_cons_iff in Hnd as [Hk Hnd].
    cbn [for_each]. unfold bind at 1, state_del at 1, bind, get_state.
    assert (Hm : Dict.mem k (_state s) = true)
      by (apply dict_mem_In, Hin; now left).
    rewrite Hm. unfold set_state at 1.
    rewrite (dict_del_filter k _ Hwf), IH; cbn [_state _pos world trace log].
    + now rewrite without_cons.
    + now apply filter_wf.
    + exact Hnd.
    + intros k' Hk'. unfold Dict.keys.
      specialize (Hin k' (or_intror Hk')). unfold Dict.keys in Hin.
      apply in_map_iff in Hin as ([k2 v2] & E & Hin'). cbn in E. subst k2.
      apply in_map_iff. exists (k', v2). split; [reflexivity|].
      apply filter_In. split; [exact Hin'|]. cbn.
      destruct (String.eqb_spec k k') as [->|]; [contradiction | reflexivity].
Qed.

Lemma accounts_for_more {B : Type} (entries : Dict.dict string)
    (dead : list string) (evs more : list (event B)) :
  accounts_for entries dead evs -> accounts_for entries dead (evs ++ more).
Proof.
  intros [Hd Ha]. split.
  - intros k Hk. destruct (Hd k Hk) as (Hq & v & code & Hin & Hev).
    split; [exact Hq|]. exists v, code. split; [exact Hin|].
    apply in_or_app. now left.
  - intros k v Hin Hq Hk. apply in_or_app. left. now apply (Ha k v).
Qed.

Lemma accounts_for_front {B : Type} (entries : Dict.dict string)
    (dead : list string) (ev : event B) (evs : list (event B)) :
  accounts_for entries dead evs -> accounts_for entries dead (ev :: evs).
Proof.
  intros [Hd Ha]. split.
  - intros k Hk. destruct (Hd k Hk) as (Hq & v & code & Hin & Hev).
    split; [exact Hq|]. exists v, code. split; [exact Hin | now right].
  - intros k v Hin Hq Hk. right. now apply (Ha k v).
Qed.

Section Sweep.

Variable P : Platform.
Variable self : DashboardFromFiles.

(** The sweep of a load over entries whose keys split in two: it never
    raises, it leaves the state alone, and the keys it collects are the keys
    of the queries whose lookup failed. *)
Lemma sweep_loop (loaded : Dict.dict string) (s : Sys P) :
  Dict.wf loaded ->
  (forall k, In k (Dict.keys loaded) -> length (PyStr.split ":" k) = 2) ->
  wp (for_fold loaded [] (sweep_entry P))
     (fun dead s' =>
        _state s' = _state s /\ _pos s' = _pos s /\ log s' = log s
        /\ NoDup dead
        /\ (forall k, In k dead -> In k (Dict.keys loaded))
        /\ exists evs,
            trace s' = (trace s ++ evs)%list
            /\ accounts_for loaded dead evs)
     (fun _ _ => False) s.
Proof.
  intros Hwf Hkeys.
  apply (wp_for_fold P
           (fun done dead s' =>
              _state s' = _state s /\ _pos s' = _pos s /\ log s' = log s
              /\ NoDup dead
              /\ (forall k, In k dead -> In k (Dict.keys done))
              /\ exists evs,
                  trace s' = (trace s ++ evs)%list
                  /\ accounts_for done dead evs)).
  - repeat split; auto using NoDup_nil; try (intros k []).
    exists []. rewrite app_nil_r. split; [reflexivity|].
    split; [intros k [] | intros k v []].
  - intros done [k v] rest dead s1 Hl (Hst & Hpos & Hlog & Hnd & Hsub & evs & Ht & Hd & Ha).
    assert (Hfresh : ~ In k (Dict.keys done)).
    { unfold Dict.wf in Hwf. rewrite Hl in Hwf. unfold Dict.keys in *.
      rewrite map_app in Hwf. cbn in Hwf. apply NoDup_remove_2 in Hwf.
      intros Hin. apply Hwf. apply in_or_app. now left. }
    assert (Hkd : ~ In k dead) by (intros Hin; apply Hfresh, Hsub, Hin).
    assert (Hsub' : forall k', In k' dead -> In k' (Dict.keys (done ++ [(k, v)])%list)).
    { intros k' Hk'. unfold Dict.keys. rewrite map_app. apply in_or_app.
      left. now apply Hsub. }
    assert (Hd' : forall evs',
               forall k', In k' dead ->
                 is_query_key k'
                 /\ exists v' code,
                     In (k', v') (done ++ [(k, v)])%list
                     /\ In (queries_get v', Some code) (evs ++ evs')).
    { intros evs' k' Hk'. destruct (Hd k' Hk') as (Hq & v' & code & Hin & Hev).
      split; [exact Hq|]. exists v', code.
      split; apply in_or_app; now left. }
    destruct (unpack2_ok (PyStr.split ":" k)) as (a & b & Hsplit).
    { apply Hkeys. rewrite Hl. unfold Dict.keys. rewrite map_app.
      apply in_or_app. right. now left. }
    unfold sweep_entry. cbn [fst snd]. apply wp_bind, wp_lift.
    rewrite Hsplit. cbn [unpack2 snd].
    assert (Hskip : ~ is_query_key k ->
              _state s1 = _state s /\ _pos s1 = _pos s /\ log s1 = log s
              /\ NoDup dead
              /\ (forall k', In k' dead -> In k' (Dict.keys (done ++ [(k, v)])%list))
              /\ exists evs0,
                  trace s1 = (trace s ++ evs0)%list
                  /\ accounts_for (done ++ [(k, v)])%list dead evs0).
    { intros Hnq. repeat split; auto. exists evs. split; [exact Ht|]. split.
      - intros k' Hk'. specialize (Hd' [] k' Hk'). now rewrite app_nil_r in Hd'.
      - intros k' v' Hin Hq Hk'. apply in_app_or in Hin as [Hin|[[= <- <-]|[]]].
        + now apply (Ha k' v').
        + contradiction. }
    destruct (String.eqb_spec k "dashboard_id") as [->|Hkd2].
    { discriminate Hsplit. }
    destruct (String.eqb_spec b "query_id") as [->|Hb]; cbn [negb].
    + apply wp_try, wp_bind. apply (wp_remote P (queries_get v)).
      destruct (ws P (queries_get v) (world s1)) as [[u|code] w].
      * unfold wp, ret. cbn [after_calls _state _pos log trace].
        repeat split; auto.
        exists (evs ++ [(queries_get v, None)])%list.
        rewrite Ht, <- app_assoc. split; [reflexivity|]. split.
        -- apply Hd'.
        -- intros k' v' Hin Hq Hk'. apply in_or_app.
           apply in_app_or in Hin as [Hin|[[= <- <-]|[]]].
           ++ left. now apply (Ha k' v').
           ++ right. now left.
      * unfold wp, ret. cbn [after_calls _state _pos log trace].
        repeat split; auto.
        -- apply NoDup_app; [exact Hnd | repeat constructor; intros [] |].
           intros x Hx [<-|[]]. contradiction.
        -- intros k' Hk'. apply in_app_or in Hk' as [Hk'|[<-|[]]].
           ++ now apply Hsub'.
           ++ unfold Dict.keys. rewrite map_app. apply in_or_app.
              right. now left.
        -- exists (evs ++ [(queries_get v, Some code)])%list.
           rewrite Ht, <- app_assoc. split; [reflexivity|]. split.
           ++ intros k' Hk'. apply in_app_or in Hk' as [Hk'|[<-|[]]].
              ** now apply Hd'.
              ** split; [now exists a|]. exists v, code.
                 split; apply in_or_app; right; now left.
           ++ intros k' v' Hin Hq Hk'. apply in_or_app. left.
              apply in_app_or in Hin as [Hin|[[= <- <-]|[]]].
              ** apply (Ha k' v'); auto.
                 intros Hx. apply Hk'. apply in_or_app. now left.
              ** exfalso. apply Hk'. apply in_or_app. right. now left.
    + apply Hskip. intros [a' Ha']. rewrite Hsplit in Ha'.
      injection Ha' as _ Hb'. contradiction.
  - intros dead s1 H. exact H.
Qed.

(** X9: what a load keeps of a state file that decodes and whose keys all
    split in two on the colon.  The state in memory is replaced by the
    entries of the file, in order, less the entries of some query keys; a
    key is dropped only after [queries.get] on its value failed, and every
    other query of the file was looked up and found.  So entries of
    dashboards, visualizations and widgets are always kept, those of a
    dropped query included.  The sweep itself never raises: the load returns
    the parent folder, or raises the error of its last call, with the state
    swept either way. *)
Theorem load_keeps_all_but_dead_queries (s : Sys P) (content : bytes P)
    (w1 : World P) (pairs : list (string * string)) :
  ws P (workspace_download (_query_state self)) (world s) = (Ok content, w1) ->
  json_load P content = Some pairs ->
  (forall k, In k (Dict.keys (Dict.of_pairs pairs)) ->
             length (PyStr.split ":" k) = 2) ->
  wp (_installed_query_state P self)
     (fun _ s' => swept (Dict.of_pairs pairs) s s')
     (fun e s' => swept (Dict.of_pairs pairs) s s'
                  /\ exists code, e = DatabricksError code)
     s.
Proof.
  intros Hdl Hj Hkeys.
  pose proof (of_pairs_wf pairs) as Hwf.
  set (loaded := Dict.of_pairs pairs) in *.
  unfold _installed_query_state. apply wp_bind.
  apply wp_mono with
    (post := fun (_ : unit) s' =>
               exists dead evs,
                 _state s' = without dead loaded
                 /\ trace s' = (trace s ++ evs)%list
                 /\ accounts_for loaded dead evs)
    (epost := fun (_ : exn) (_ : Sys P) => False).
  - apply wp_try, wp_bind.
    apply (wp_remote P (workspace_download (_query_state self))).
    rewrite Hdl, Hj. fold loaded.
    apply wp_bind. unfold wp at 1, set_state.
    apply wp_bind. unfold wp at 1, get_state. cbn [_state].
    apply wp_bind.
    eapply wp_mono; [apply sweep_loop; [exact Hwf | exact Hkeys] | | intros e s1 []].
    intros dead s1 (Hst & _ & _ & Hnd & Hsub & evs & Ht & Hacc).
    cbn [_state trace after_calls] in Hst, Ht.
    unfold wp. rewrite del_all;
      [|rewrite Hst; exact Hwf | exact Hnd | rewrite Hst; exact Hsub].
    exists dead, ((workspace_download (_query_state self), None) :: evs).
    cbn [_state trace]. rewrite Hst, Ht, <- app_assoc.
    split; [reflexivity|]. split; [reflexivity|].
    now apply accounts_for_front.
  - intros u s1 (dead & evs & Hst & Ht & Hacc). cbn beta.
    apply wp_bind.
    apply (wp_remote P (workspace_get_status (_remote_folder self))).
    destruct (ws P (workspace_get_status (_remote_folder self)) (world s1))
      as [[id|code] w2].
    + unfold wp, ret. exists dead. split; [exact Hst|].
      rewrite (new_events_app s _ (evs ++ [(workspace_get_status (_remote_folder self), None)])%list).
      * now apply accounts_for_more.
      * cbn [after_calls trace]. now rewrite Ht, <- app_assoc.
    + split; [|eauto]. exists dead. split; [exact Hst|].
      rewrite (new_events_app s _ (evs ++ [(workspace_get_status (_remote_folder self), Some code)])%list).
      * now apply accounts_for_more.
      * cbn [after_calls trace]. now rewrite Ht, <- app_assoc.
  - intros e s1 [].
Qed.

End Sweep.

Lemma load_keeps_all_but_dead_queries_witness :
  let s := sys_with one_entry swept_world in
  let r := _installed_query_state Fake.platform remote_cfg s in
  fst r = Return "folders/id-of-/remote"
  /\ _state (snd r) = [("g:dashboard_id", "1"); ("g_old.sql:viz_id", "3")]
  /\ swept (Dict.of_pairs swept_pairs) s (snd r).
Proof.
  intros s r.
  assert (Hkeys : forall k, In k (Dict.keys (Dict.of_pairs swept_pairs)) ->
                            length (PyStr.split ":" k) = 2).
  { intros k Hk. vm_compute in Hk.
    destruct Hk as [<-|[<-|[<-|[]]]]; reflexivity. }
  pose proof (load_keeps_all_but_dead_queries Fake.platform remote_cfg s
                (Fake.Json swept_pairs) swept_world swept_pairs
                eq_refl eq_refl Hkeys) as H.
  assert (E : _installed_query_state Fake.platform remote_cfg s
              = (Return "folders/id-of-/remote", snd r))
    by (vm_compute; reflexivity).
  unfold wp in H. rewrite E in H.
  split; [vm_compute; reflexivity|].
  split; [vm_compute; reflexivity | exact H].
Defined.

(** ** Saving, then loading *)



(** ** The dashboards a run returns *)

Lemma keys_set_iff {V} (k r : string) (v : V) (d : Dict.dict V) :
  In r (Dict.keys (Dict.set k v d)) <-> r = k \/ In r (Dict.keys d).
Proof.
  rewrite dict_keys_set. destruct (Dict.mem k d) eqn:E.
  - apply dict_mem_In in E. split; [tauto|]. intros [->|H]; assumption.
  - rewrite in_app_iff. cbn. intuition.
Qed.

Section Returned.

Variable P : Platform.
Variable self : DashboardFromFiles.

Lemma create_dashboard_keys (step : StepFolder) (acc : Locals)
    (dash : DashboardFolder) (s : Sys P) :
  wp (create_dashboard P self step acc dash)
     (fun acc' _ =>
        exists id, fst acc' = Dict.set (ref_of step dash) id (fst acc))
     (fun _ _ => True) s.
Proof.
  unfold create_dashboard. cbv zeta.
  repeat (apply wp_bind, wp_any; intros ? ?).
  unfold wp, ret. cbn [fst]. eauto.
Qed.

Lemma create_step_keys (step : StepFolder) (acc : Locals) (s : Sys P) :
  Dict.wf (fst acc) ->
  wp (create_step P self acc step)
     (fun acc' _ =>
        Dict.wf (fst acc')
        /\ forall r, In r (Dict.keys (fst acc'))
                     <-> In r (Dict.keys (fst acc))
                         \/ In r (map (ref_of step) (dashboard_folders step)))
     (fun _ _ => True) s.
Proof.
  intros Hwf. unfold create_step. apply wp_bind, wp_any. intros u s1.
  apply (wp_for_fold P
           (fun done acc' _ =>
              Dict.wf (fst acc')
              /\ forall r, In r (Dict.keys (fst acc'))
                           <-> In r (Dict.keys (fst acc))
                               \/ In r (map (ref_of step) done))).
  - split; [exact Hwf|]. intros r. cbn. tauto.
  - intros done dash rest acc1 s2 Hl [Hw Hk].
    eapply wp_mono; [apply create_dashboard_keys | | auto].
    intros acc2 s3 [id E]. cbn beta. rewrite E. split.
    + now apply dict_wf_set.
    + intros r. rewrite keys_set_iff, Hk, map_app, in_app_iff. cbn.
      intuition.
  - intros acc1 s2 H. exact H.
Qed.

Lemma create_steps_keys (s : Sys P) :
  wp (for_fold (step_folders (_local_folder self)) ([], []) (create_step P self))
     (fun acc' _ =>
        Dict.wf (fst acc')
        /\ forall r, In r (Dict.keys (fst acc')) <-> In r (group_refs self))
     (fun _ _ => True) s.
Proof.
  unfold group_refs.
  apply (wp_for_fold P
           (fun done (acc' : Locals) _ =>
              Dict.wf (fst acc')
              /\ forall r, In r (Dict.keys (fst acc'))
                           <-> In r (flat_map
                                       (fun step =>
                                          map (ref_of step) (dashboard_folders step))
                                       done))).
  - split; [constructor|]. intros r. cbn. tauto.
  - intros done step rest acc1 s1 Hl [Hw Hk].
    eapply wp_mono; [apply create_step_keys; exact Hw | | auto].
    intros acc2 s2 [Hw2 Hk2]. cbn beta. split; [exact Hw2|].
    intros r. rewrite Hk2, Hk, flat_map_app, in_app_iff. cbn.
    rewrite app_nil_r. tauto.
  - intros acc1 s1 H. exact H.
Qed.

End Returned.

(** X11: the dashboards of a run that returns, whatever the workspace: the
    dictionary has one entry for every reference of a group of the local
    folder and no other, so two folders whose references coincide share one
    entry. *)
Theorem returned_dashboards_are_the_group_refs (P : Platform)
    (self : DashboardFromFiles) (s s' : Sys P) (d : Dict.dict string) :
  create_dashboards P self s = (Return d, s') ->
  NoDup (Dict.keys d)
  /\ forall ref, In ref (Dict.keys d) <-> In ref (group_refs self).
Proof.
  intros E.
  assert (H : wp (create_dashboards P self)
                (fun d _ =>
                   Dict.wf d
                   /\ forall r, In r (Dict.keys d) <-> In r (group_refs self))
                (fun _ _ => True) s).
  { unfold create_dashboards. apply wp_bind.
    eapply wp_mono; [apply create_steps_keys | | auto].
    intros acc s1 H. cbn beta. apply wp_bind, wp_any. intros u s2. exact H. }
  exact (wp_returned _ _ _ _ _ _ H E).
Qed.

Lemma returned_dashboards_are_the_group_refs_witness :
  let r := create_dashboards Fake.platform (cfg_of same_ref_groups)
             (init Fake.platform Fake.empty) in
  group_refs (cfg_of same_ref_groups) = ["assessment_main"; "assessment_main"]
  /\ fst r = Return [("assessment_main", "1")]
  /\ forall ref,
      In ref (Dict.keys [("assessment_main", "1")])
      <-> In ref (group_refs (cfg_of same_ref_groups)).
Proof.
  intros r.
  assert (E : create_dashboards Fake.platform (cfg_of same_ref_groups)
                (init Fake.platform Fake.empty)
              = (Return [("assessment_main", "1")], snd r))
    by (vm_compute; reflexivity).
  split; [vm_compute; reflexivity|].
  split; [vm_compute; reflexivity|].
  exact (proj2 (returned_dashboards_are_the_group_refs _ _ _ _ _ E)).
Defined.

(** ** The errors of the marker loader *)

Lemma dict_of_parts_raised (parts : list string) :
  forall i acc e,
    dict_of_parts i parts acc = Raise e ->
    exists j part,
      nth_error parts j = Some part
      /\ length (PyStr.split "=" part) <> 2
      /\ (forall j' part', j' < j -> nth_error parts j' = Some part' ->
                           length (PyStr.split "=" part') = 2)
      /\ e = ValueError
               ("dictionary update sequence element #" ++ str_of_nat (i + j)
                ++ " has length "
                ++ str_of_nat (length (PyStr.split "=" part))
                ++ "; 2 is required").
Proof.
  induction parts as [|p parts IH]; intros i acc e H;
    cbn [dict_of_parts] in H; [discriminate|].
  assert (H0 : forall j' part', j' < 0 -> nth_error (p :: parts) j' = Some part' ->
                                length (PyStr.split "=" part') = 2)
    by (intros j' part' Hlt; lia).
  destruct (PyStr.split "=" p) as [|a [|b [|c l]]] eqn:Es.
  - injection H as <-. exists 0, p. rewrite Nat.add_0_r, Es.
    split; [reflexivity|]. split; [discriminate|]. split; [exact H0 | reflexivity].
  - injection H as <-. exists 0, p. rewrite Nat.add_0_r, Es.
    split; [reflexivity|]. split; [discriminate|]. split; [exact H0 | reflexivity].
  - destruct (IH _ _ _ H) as (j & part & Hn & Hl & Hbefore & ->).
    exists (S j), part. rewrite <- plus_n_Sm.
    split; [exact Hn|]. split; [exact Hl|]. split; [|reflexivity].
    intros [|j'] part' Hlt Hj'; cbn in Hj'.
    + injection Hj' as <-. now rewrite Es.
    + apply (Hbefore j' part'); [lia | exact Hj'].
  - injection H as <-. exists 0, p. rewrite Nat.add_0_r, Es.
    split; [reflexivity|]. split; [discriminate|]. split; [exact H0 | reflexivity].
Qed.

(** X12: the two ways [_parse_magic_comment] fails, for a marker that is
    not empty.  It raises [StopIteration] exactly when no line starts with
    the marker.  Otherwise the first line that starts with the marker is
    split on [", "] after the marker is taken out, and the error is the
    [ValueError] of the first part that does not split in two on [=]: every
    part before it does split in two, and the message carries its index and
    the number of its pieces.  It raises nothing else: the [SyntaxError] that
    names the file is never raised. *)
Theorem parse_magic_comment_errors (f magic text : string) (e : exn) :
  magic <> "" ->
  _parse_magic_comment f magic text = Raise e ->
  (e = StopIteration
   /\ forall l, In l (PyStr.splitlines text) ->
                PyStr.startswith magic l = false)
  \/ exists line i part,
      find (PyStr.startswith magic) (PyStr.splitlines text) = Some line
      /\ nth_error (PyStr.split ", " (PyStr.replace magic "" line)) i
         = Some part
      /\ length (PyStr.split "=" part) <> 2
      /\ (forall i' part',
             i' < i ->
             nth_error (PyStr.split ", " (PyStr.replace magic "" line)) i'
             = Some part' ->
             length (PyStr.split "=" part') = 2)
      /\ e = ValueError
               ("dictionary update sequence element #" ++ str_of_nat i
                ++ " has length "
                ++ str_of_nat (length (PyStr.split "=" part))
                ++ "; 2 is required").
Proof.
  intros Hm H. unfold _parse_magic_comment, next_startswith in H.
  destruct (find (PyStr.startswith magic) (PyStr.splitlines text))
    as [line|] eqn:Ef.
  - right. destruct (String.eqb_spec line "") as [->|Hl].
    + apply find_some in Ef as [_ Ef].
      destruct magic; [contradiction | discriminate Ef].
    + apply dict_of_parts_raised in H as (j & part & Hn & Hlen & Hbefore & ->).
      exists line, j, part.
      split; [reflexivity|]. split; [exact Hn|]. split; [exact Hlen|].
      split; [exact Hbefore | reflexivity].
  - left. injection H as <-. split; [reflexivity|].
    intros l Hin. exact (find_none _ _ Ef l Hin).
Qed.

Lemma parse_magic_comment_errors_witness :
  _parse_magic_comment "q.sql" "-- viz " "-- viz type=table, name, columns"
  = Raise (ValueError
             "dictionary update sequence element #1 has length 1; 2 is required")
  /\ exists line i part,
      find (PyStr.startswith "-- viz ")
        (PyStr.splitlines "-- viz type=table, name, columns") = Some line
      /\ nth_error (PyStr.split ", " (PyStr.replace "-- viz " "" line)) i
         = Some part
      /\ length (PyStr.split "=" part) <> 2
      /\ (forall i' part',
             i' < i ->
             nth_error (PyStr.split ", " (PyStr.replace "-- viz " "" line)) i'
             = Some part' ->
             length (PyStr.split "=" part') = 2).
Proof.
  assert (E : _parse_magic_comment "q.sql" "-- viz "
                "-- viz type=table, name, columns"
              = Raise (ValueError
                         "dictionary update sequence element #1 has length 1; 2 is required"))
    by (vm_compute; reflexivity).
  split; [exact E|].
  destruct (parse_magic_comment_errors "q.sql" "-- viz "
              "-- viz type=table, name, columns" _ ltac:(discriminate) E)
    as [[H _]|(line & i & part & H1 & H2 & H3 & H4 & _)]; [discriminate H|].
  now exists line, i, part.
Defined.

(** ** A query that died between two runs *)

Lemma viz_key_not_query_key (q : SimpleQuery) : viz_key q <> query_key q.
Proof.
  rewrite viz_key_derive, query_key_derive. intros H.
  apply derive_key_inj in H as [_ H]. discriminate.
Qed.

(** X13: a query that the load swept away is replaced without a
    visualization of its own.  When the state has no entry for the query of
    a definition but still has the entry of its visualization, which is how
    a load leaves a query that is gone, the three steps that return create
    the query and grant it, then update the old visualization instead of
    creating one for the new query, and put the widget on that old
    visualization; the state ends with the new query beside the old
    visualization. *)
Theorem dead_query_keeps_its_old_visualization (P : Platform)
    (q : SimpleQuery)
    (dashboard_name data_source parent ref vid : string) (s s' : Sys P) :
  Dict.get (query_key q) (_state s) = None ->
  Dict.get (viz_key q) (_state s) = Some vid ->
  install_one P dashboard_name data_source parent ref q s = (Return tt, s') ->
  exists id args did options,
    map fst (new_events s s')
    = [queries_create parent VIEWER
         {| data_source_id := data_source;
            meta_name := dashboard_name ++ " - " ++ name q;
            meta_query := query q |};
       dbsql_permissions_set QUERIES id (users_acl CAN_RUN);
       query_visualizations_update vid args;
       dashboard_widgets_create did options 1 vid]
    /\ _get_viz_options q = Return args
    /\ Dict.get (query_key q) (_state s') = Some id
    /\ Dict.get (viz_key q) (_state s') = Some vid.
Proof.
  intros Hq Hv.
  assert (Hv1 : forall id, Dict.get (viz_key q)
                             (Dict.set (query_key q) id (_state s)) = Some vid).
  { intros id. rewrite dict_get_set_other; [exact Hv|].
    apply viz_key_not_query_key. }
  unfold install_one, _install_query, _install_viz, _install_widget,
    _get_widget_options. munfold.
  unfold Dict.mem. rewrite Hq.
  destruct (ws P (queries_create _ _ _) (world s)) as [[id|code] w1];
    cbn; [|discriminate].
  destruct (ws P (dbsql_permissions_set _ _ _) w1) as [[u|code] w2];
    cbn; [|discriminate].
  destruct (_get_viz_options q) as [args|e]; cbn; [|discriminate].
  repeat (rewrite (Hv1 id); cbn).
  destruct (ws P (query_visualizations_update _ _) w2) as [[u2|code] w3];
    cbn; [|discriminate].
  match goal with
  | |- context [Dict.get (dashboard_key ref) ?d] =>
      destruct (Dict.get (dashboard_key ref) d) as [did|]
  end; cbn; [|discriminate].
  destruct (widget_options_at (_pos s + 1) q) as [options|e]; cbn;
    [|discriminate].
  repeat (rewrite (Hv1 id); cbn).
  destruct (ws P (dashboard_widgets_create _ _ _ _) w3) as [[wid|code] w4];
    cbn; [|discriminate].
  intros [= <-]. exists id, args, did, options.
  unfold new_events. cbn [trace _state].
  rewrite <- !app_assoc, skipn_app, skipn_all, Nat.sub_diag. cbn.
  split; [reflexivity|]. split; [reflexivity|]. split.
  - rewrite dict_get_set_other.
    + apply dict_get_set_same.
    + rewrite query_key_derive, widget_key_derive. intros H.
      apply derive_key_inj in H as [_ H]. discriminate.
  - rewrite dict_get_set_other; [apply Hv1|].
    rewrite viz_key_derive, widget_key_derive. intros H.
    apply derive_key_inj in H as [_ H]. discriminate.
Qed.

Lemma dead_query_keeps_its_old_visualization_witness :
  let s := sys_with dead_query_state dead_query_world in
  let r := install_one Fake.platform "[UCX] G" "source-1" "folders/1" "g"
             tables_query s in
  fst r = Return tt
  /\ call_names (new_events s (snd r))
     = ["queries.create"; "dbsql_permissions.set";
        "query_visualizations.update"; "dashboard_widgets.create"]
  /\ _state (snd r)
     = [("g:dashboard_id", "1"); ("g_tables.sql:viz_id", "3");
        ("g_tables.sql:query_id", "10"); ("g_tables.sql:widget_id", "11")].
Proof.
  intros s r.
  assert (E : install_one Fake.platform "[UCX] G" "source-1" "folders/1" "g"
                tables_query s = (Return tt, snd r))
    by (vm_compute; reflexivity).
  destruct (dead_query_keeps_its_old_visualization Fake.platform tables_query
              "[UCX] G" "source-1" "folders/1" "g" "3" s (snd r)
              eq_refl eq_refl E)
    as (id & args & did & options & Ht & _).
  split; [vm_compute; reflexivity|].
  split; [|vm_compute; reflexivity].
  unfold call_names. rewrite <- (map_map fst call_name), Ht. reflexivity.
Defined.

(** ** Redeploying a dashboard *)

(** X14: the dashboard step on a group that is recorded already.  It never
    creates a dashboard and leaves the state alone: it reads the dashboard,
    then deletes the widgets the workspace reports for it, one call each, in
    order.  Unlike the deletions of the save step, a deletion that fails is
    not logged and skipped: it stops the step with its error, and the widgets
    after it stay on the dashboard. *)
Theorem redeploy_deletes_the_widgets (P : Platform)
    (dashboard_name parent ref id : string) (widgets : list string)
    (w1 : World P) (s : Sys P) :
  Dict.get (dashboard_key ref) (_state s) = Some id ->
  ws P (dashboards_get id) (world s) = (Ok widgets, w1) ->
  wp (_install_dashboard P dashboard_name parent ref)
     (fun _ s' =>
        _state s' = _state s
        /\ new_events s s'
           = (dashboards_get id, None) :: widget_deletions widgets)
     (fun e s' =>
        _state s' = _state s
        /\ exists done w rest code,
            widgets = (done ++ w :: rest)%list
            /\ e = DatabricksError code
            /\ new_events s s'
               = ((dashboards_get id, None) :: widget_deletions done
                  ++ [(dashboard_widgets_delete w, Some code)])%list)
     s.
Proof.
  intros Hget Hws. unfold _install_dashboard.
  apply wp_bind. unfold wp at 1, get_state. unfold Dict.mem. rewrite Hget.
  apply wp_bind. unfold wp at 1, state_item. rewrite Hget.
  apply wp_bind. apply (wp_remote P (dashboards_get id)). rewrite Hws.
  apply (wp_for_each P
           (fun done s1 =>
              _state s1 = _state s
              /\ trace s1
                 = (trace s ++ (dashboards_get id, None)
                    :: widget_deletions done)%list)).
  - now split.
  - intros done w rest s1 Hl [Hst Ht].
    apply (wp_remote P (dashboard_widgets_delete w)).
    destruct (ws P (dashboard_widgets_delete w) (world s1)) as [[u|code] w2];
      cbn [after_calls _state trace].
    + split; [exact Hst|]. rewrite Ht. unfold widget_deletions.
      rewrite map_app, <- app_assoc. reflexivity.
    + split; [exact Hst|]. exists done, w, rest, code.
      split; [exact Hl|]. split; [reflexivity|].
      apply new_events_app. cbn [after_calls trace].
      rewrite Ht, <- app_assoc. reflexivity.
  - intros s1 [Hst Ht]. split; [exact Hst|]. now apply new_events_app.
Qed.

Lemma redeploy_deletes_the_widgets_witness :
  let s := sys_with one_entry redeploy_world in
  let r := _install_dashboard Fake.platform "[UCX] G" "folders/1" "g" s in
  fst r = Return tt
  /\ _state (snd r) = one_entry
  /\ new_events s (snd r)
     = [(dashboards_get "7", None); (dashboard_widgets_delete "5", None);
        (dashboard_widgets_delete "6", None)].
Proof.
  intros s r.
  pose proof (redeploy_deletes_the_widgets Fake.platform "[UCX] G" "folders/1"
                "g" "7" ["5"; "6"] redeploy_world s eq_refl eq_refl) as H.
  assert (E : _install_dashboard Fake.platform "[UCX] G" "folders/1" "g" s
              = (Return tt, snd r)) by (vm_compute; reflexivity).
  unfold wp in H. rewrite E in H. destruct H as [H1 H2].
  split; [vm_compute; reflexivity|]. split; [exact H1 | exact H2].
Defined.

(** ** Widget attributes *)




(** ** Group references *)

Lemma to_lower_idem (c : ascii) :
  PyStr.to_lower (PyStr.to_lower c) = PyStr.to_lower c.
Proof. destruct c as [[] [] [] [] [] [] [] []]; reflexivity. Qed.

Lemma lower_idem (s : string) : PyStr.lower (PyStr.lower s) = PyStr.lower s.
Proof.
  induction s as [|c s IH]; [reflexivity|].
  cbn [PyStr.lower]. now rewrite to_lower_idem, IH.
Qed.

Lemma lower_app (a b : string) :
  PyStr.lower (a ++ b) = PyStr.lower a ++ PyStr.lower b.
Proof.
  induction a as [|c a IH]; [reflexivity|].
  cbn [append PyStr.lower]. now rewrite IH.
Qed.

Lemma rfind_dot_none (s : string) :
  has_char "." s = false -> PyStr.rfind_dot s = None.
Proof.
  induction s as [|c s IH]; [reflexivity|].
  cbn [has_char PyStr.rfind_dot]. intros H.
  apply orb_false_iff in H as [Hc Hs]. now rewrite (IH Hs), Hc.
Qed.

Lemma stem_no_dot (s : string) : has_char "." s = false -> PyStr.stem s = s.
Proof. intros H. unfold PyStr.stem. now rewrite (rfind_dot_none s H). Qed.

Lemma has_char_app (c : ascii) (a b : string) :
  has_char c (a ++ b) = has_char c a || has_char c b.
Proof.
  induction a as [|d a IH]; [reflexivity|].
  cbn [append has_char]. now rewrite IH, orb_assoc.
Qed.

(** X16: the reference of a group does not determine its folders.  It is in
    lower case, so two pairs of folders whose stems differ by case only have
    one reference; and the stems are joined by an underscore, so for names
    without a dot the step folder [a_b] with the dashboard folder [c] and the
    step folder [a] with the dashboard folder [b_c] have one reference
    too. *)
Theorem group_refs_collide (a b c : string) :
  PyStr.lower (group_ref a b) = group_ref a b
  /\ (forall a' b',
         PyStr.lower (PyStr.stem a) = PyStr.lower (PyStr.stem a') ->
         PyStr.lower (PyStr.stem b) = PyStr.lower (PyStr.stem b') ->
         group_ref a b = group_ref a' b')
  /\ (has_char "." a = false -> has_char "." b = false ->
      has_char "." c = false ->
      group_ref (a ++ "_" ++ b) c = group_ref a (b ++ "_" ++ c)).
Proof.
  unfold group_ref. split; [apply lower_idem|]. split.
  - intros a' b' Ha Hb. rewrite !lower_app. now rewrite Ha, Hb.
  - intros Ha Hb Hc.
    rewrite (stem_no_dot a Ha), (stem_no_dot c Hc), !stem_no_dot.
    + now rewrite !append_assoc.
    + rewrite !has_char_app, Hb, Hc. reflexivity.
    + rewrite !has_char_app, Ha, Hb. reflexivity.
Qed.

Lemma group_refs_collide_witness :
  group_ref "Assessment" "main.v1" = group_ref "assessment" "Main.v2"
  /\ group_ref "a_b" "c" = group_ref "a" "b_c".
Proof.
  split.
  - apply (proj1 (proj2 (group_refs_collide "Assessment" "main.v1" "")));
      reflexivity.
  - apply (proj2 (proj2 (group_refs_collide "a" "b" "c"))); reflexivity.
Defined.

(** ** What a run can raise *)

Lemma widget_options_any_pos (q : SimpleQuery) (pos pos' : Z)
    (o : WidgetOptions) :
  widget_options_at pos q = Return o ->
  exists o', widget_options_at pos' q = Return o'.
Proof.
  unfold widget_options_at, int_attr.
  destruct (Dict.get "col" (widget q)) as [c|];
    [destruct (PyStr.int c); [|discriminate]|];
    (destruct (Dict.get "row" (widget q)) as [r|];
     [destruct (PyStr.int r); [|discriminate]|]);
    (destruct (Dict.get "size_x" (widget q)) as [x|];
     [destruct (PyStr.int x); [|discriminate]|]);
    (destruct (Dict.get "size_y" (widget q)) as [y|];
     [destruct (PyStr.int y); [|discriminate]|]);
    intros _; eauto.
Qed.

Section Raises.

Variable P : Platform.
Variable E : exn -> Prop.
Hypothesis Hdb : forall code, E (DatabricksError code).
Hypothesis Hkey : forall k, E (KeyError k).
Hypothesis Hwarehouse :
  E (ValueError
       "need either configured warehouse_id or an existing SQL warehouse").

Lemma ro_bind {A B} (m : M P A) (k : A -> M P B) :
  raises_only E m -> (forall a, raises_only E (k a)) ->
  raises_only E (bind m k).
Proof.
  intros Hm Hk s. apply wp_bind.
  eapply wp_mono; [apply Hm | | auto]. intros a s' _. apply Hk.
Qed.

Lemma ro_lift {A} (o : outcome A) :
  match o with Return _ => True | Raise e => E e end ->
  raises_only E (@lift P A o).
Proof. intros H s. apply wp_lift. now destruct o. Qed.

Lemma ro_for_each {A} (l : list A) (body : A -> M P unit) :
  (forall x, In x l -> raises_only E (body x)) ->
  raises_only E (for_each l body).
Proof.
  intros Hb s. apply (wp_for_each P (fun _ _ => True)); auto.
  intros done x rest s1 Hl _.
  eapply wp_mono; [apply (Hb x) | auto | auto].
  rewrite Hl. apply in_or_app. right. now left.
Qed.

Lemma ro_for_fold {A B} (l : list A) (acc : B) (body : B -> A -> M P B) :
  (forall acc x, In x l -> raises_only E (body acc x)) ->
  raises_only E (for_fold l acc body).
Proof.
  intros Hb s. apply (wp_for_fold P (fun _ _ _ => True)); auto.
  intros done x rest acc1 s1 Hl _.
  eapply wp_mono; [apply (Hb acc1 x) | auto | auto].
  rewrite Hl. apply in_or_app. right. now left.
Qed.

Lemma ro_remote (c : call (bytes P)) : raises_only E (remote c).
Proof.
  intros s. apply (wp_remote P c).
  destruct (ws P c (world s)) as [[a|code] w]; [exact I | apply Hdb].
Qed.

Lemma ro_state_item (k : string) : raises_only E (@state_item P k).
Proof.
  intros s. unfold wp, state_item.
  destruct (Dict.get k (_state s)); [exact I | apply Hkey].
Qed.

Lemma ro_state_del (k : string) : raises_only E (@state_del P k).
Proof.
  intros s. unfold wp, state_del, bind, get_state.
  destruct (Dict.mem k (_state s)); [exact I | apply Hkey].
Qed.

Ltac ro :=
  lazymatch goal with
  | |- raises_only _ (bind _ _) => apply ro_bind; [ro | intros; ro]
  | |- raises_only _ (ret _) => intros ?; exact I
  | |- raises_only _ get_state => intros ?; exact I
  | |- raises_only _ (set_state _) => intros ?; exact I
  | |- raises_only _ (state_store _ _) => intros ?; exact I
  | |- raises_only _ next_pos => intros ?; exact I
  | |- raises_only _ (logger _ _) => intros ?; exact I
  | |- raises_only _ (state_item _) => apply ro_state_item
  | |- raises_only _ (state_del _) => apply ro_state_del
  | |- raises_only _ (remote ?c) => apply (ro_remote c)
  | |- raises_only _ (raise _) =>
      intros ?; first [apply Hdb | apply Hkey | exact Hwarehouse | idtac]
  | |- raises_only _ (for_each _ _) => apply ro_for_each; intros; ro
  | |- raises_only _ (for_fold _ _ _) => apply ro_for_fold; intros; ro
  | |- raises_only _ (if ?b then _ else _) => destruct b; ro
  | |- raises_only _ (match ?x with _ => _ end) => destruct x; ro
  | |- raises_only _ (let _ := _ in _) => cbv zeta; ro
  | |- _ => idtac
  end.

Lemma ro_dashboard_data_source (self : DashboardFromFiles) :
  raises_only E (_dashboard_data_source P self).
Proof.
  unfold _dashboard_data_source. ro.
Qed.

Lemma ro_install_dashboard (dashboard_name parent ref : string) :
  raises_only E (_install_dashboard P dashboard_name parent ref).
Proof. unfold _install_dashboard. ro. Qed.

Lemma ro_install_query (q : SimpleQuery)
    (dashboard_name data_source parent : string) :
  raises_only E (_install_query P q dashboard_name data_source parent).
Proof. unfold _install_query. ro. Qed.

Lemma ro_install_one (q : SimpleQuery)
    (dashboard_name data_source parent ref : string) :
  builders_ok q ->
  raises_only E (install_one P dashboard_name data_source parent ref q).
Proof.
  intros [[args Hv] (pos & o & Hw)]. unfold install_one.
  apply ro_bind; [apply ro_install_query|]. intros u.
  apply ro_bind.
  - unfold _install_viz. rewrite Hv. ro. apply ro_lift. exact I.
  - intros u'. unfold _install_widget, _get_widget_options. ro.
    apply ro_lift.
    match goal with
    | |- match widget_options_at ?p q with _ => _ end =>
        destruct (widget_options_any_pos q pos p o Hw) as [o' ->]
    end.
    exact I.
Qed.

End Raises.

Lemma validate_returns_ok (P : Platform) (self : DashboardFromFiles)
    (s s' : Sys P) :
  validate P self s = (Return tt, s') -> all_definitions_ok self.
Proof.
  intros E.
  assert (H : wp (validate P self)
                (fun _ _ => all_definitions_ok self) (fun _ _ => True) s).
  { unfold validate.
    apply (wp_for_each P
             (fun done _ =>
                forall step, In step done ->
                  forall dash, In dash (dashboard_folders step) ->
                    exists qs, group_queries self step dash = Return qs
                               /\ forall q, In q qs -> builders_ok q)).
    - intros step [].
    - intros done step rest s1 Hl Hdone.
      assert (Hin : In step (step_folders (_local_folder self))).
      { rewrite Hl. apply in_or_app. right. now left. }
      eapply wp_mono; [apply (validate_step_wp P self step s1 Hin) | | auto].
      intros u s2 [_ Hok] st Hst.
      apply in_app_or in Hst as [Hst|[<-|[]]]; auto.
    - intros s1 Hall step dash Hs Hd. now apply (Hall step Hs dash Hd). }
  exact (wp_returned _ _ _ _ _ _ H E).
Qed.

Lemma workspace_error_db (code : string) : workspace_error (DatabricksError code).
Proof. left. eauto. Qed.

Lemma workspace_error_key (k : string) : workspace_error (KeyError k).
Proof. right. left. eauto. Qed.

Lemma workspace_error_warehouse :
  workspace_error
    (ValueError "need either configured warehouse_id or an existing SQL warehouse").
Proof. right. right. reflexivity. Qed.

Section FirstRunErrors.

Variable P : Platform.
Variable self : DashboardFromFiles.
Variable stored : World P -> option (bytes P).
Variable alive : World P -> string -> Prop.
Hypothesis F : faithful P (_query_state self) stored alive.

(** With no state file the load decodes nothing and sweeps nothing: it can
    only fail on one of its calls. *)
Lemma load_absent_errors (s : Sys P) :
  stored (world s) = None ->
  wp (_installed_query_state P self)
     (fun _ _ => True) (fun e _ => exists code, e = DatabricksError code) s.
Proof.
  intros Hs. pose proof (download_stored _ _ _ _ F (world s)) as Hd.
  rewrite Hs in Hd.
  unfold wp, _installed_query_state. munfold.
  destruct (ws P (workspace_download (_query_state self)) (world s)) as [r w].
  cbn in Hd. subst r. cbn. split_calls; eauto.
Qed.

Lemma first_group_errors (step : StepFolder) (acc : Locals)
    (dash : DashboardFolder) (s : Sys P) :
  stored (world s) = None ->
  group_ok self (step, dash) ->
  wp (create_dashboard P self step acc dash)
     (fun _ _ => True) (fun e _ => workspace_error e) s.
Proof.
  intros Hs (qs & Hq & Hb). cbn [fst snd] in Hq.
  unfold create_dashboard, _desired_queries.
  apply wp_bind. unfold wp at 1, logger.
  apply wp_bind. unfold wp at 1, logger.
  apply wp_bind, wp_lift. fold (group_queries self step dash). rewrite Hq.
  apply wp_bind.
  eapply wp_mono;
    [apply load_absent_errors; exact Hs
    | | intros e s1 [code ->]; apply workspace_error_db].
  intros parent s1 _. cbn beta.
  match goal with
  | |- wp ?m _ _ _ => assert (Hm : raises_only workspace_error m)
  end.
  { apply ro_bind.
    { apply ro_dashboard_data_source;
        auto using workspace_error_db, workspace_error_key,
                   workspace_error_warehouse. }
    intros source. apply ro_bind.
    { apply ro_install_dashboard;
        auto using workspace_error_db, workspace_error_key. }
    intros u. apply ro_bind.
    { apply ro_for_each. intros q Hin.
      apply ro_install_one;
        auto using workspace_error_db, workspace_error_key. }
    intros u'. apply ro_bind.
    { apply ro_state_item. apply workspace_error_key. }
    intros id s2. exact I. }
  apply Hm.
Qed.

Lemma first_run_step_errors gs acc (step : StepFolder) (s : Sys P) :
  first_inv stored alive (desired_keys_of gs) gs acc s ->
  NoDup (map fst gs ++ map (ref_of step) (dashboard_folders step)) ->
  (forall dash, In dash (dashboard_folders step) -> group_ok self (step, dash)) ->
  wp (create_step P self acc step)
     (fun acc' s' =>
        let gs' := (gs ++ step_groups self step (dashboard_folders step))%list in
        first_inv stored alive (desired_keys_of gs') gs' acc' s')
     (fun e _ => workspace_error e) s.
Proof.
  intros H Hnd Hok. unfold create_step.
  apply wp_bind. unfold wp at 1, logger.
  match goal with |- wp _ _ _ ?s1 =>
    assert (H0 : first_inv stored alive (desired_keys_of gs) gs acc s1) by exact H;
    generalize dependent s1 end.
  clear H s. intros s H.
  apply (wp_for_fold P
           (fun done acc' s' =>
              let gs' := (gs ++ step_groups self step done)%list in
              first_inv stored alive (desired_keys_of gs') gs' acc' s')).
  - cbn. now rewrite app_nil_r.
  - intros done dash rest acc1 s1 Hl H1. cbn zeta in *.
    assert (Hn : ~ In (ref_of step dash)
                   (map fst (gs ++ step_groups self step done)%list)).
    { rewrite map_app, step_groups_refs.
      rewrite Hl, map_app, app_assoc in Hnd. cbn in Hnd.
      apply NoDup_remove_2 in Hnd. intros Hin. apply Hnd.
      apply in_or_app. now left. }
    assert (Hg : group_ok self (step, dash)).
    { apply Hok. rewrite Hl. apply in_or_app. right. now left. }
    eapply wp_mono;
      [apply (wp_conj _ _ _ _ _ _
                (first_run_group P self stored alive F _ acc1 step dash s1 H1 Hn)
                (first_group_errors step acc1 dash s1 (proj1 H1) Hg))
      | | intros e s2 [_ He]; exact He].
    intros acc2 s2 [H2 _]. cbn beta.
    unfold step_groups in *. rewrite map_app. cbn [map].
    now rewrite app_assoc.
  - intros acc1 s1 H1. exact H1.
Qed.

Lemma first_run_groups_errors gs_done (steps : list StepFolder) acc (s : Sys P) :
  first_inv stored alive (desired_keys_of gs_done) gs_done acc s ->
  NoDup (map fst gs_done ++ map fst (run_groups self steps)) ->
  (forall step dash, In step steps -> In dash (dashboard_folders step) ->
                     group_ok self (step, dash)) ->
  wp (for_fold steps acc (create_step P self))
     (fun acc' s' =>
        let gs' := (gs_done ++ run_groups self steps)%list in
        first_inv stored alive (desired_keys_of gs') gs' acc' s')
     (fun e _ => workspace_error e) s.
Proof.
  intros H Hnd Hok.
  apply (wp_for_fold P
           (fun done acc' s' =>
              let gs' := (gs_done ++ run_groups self done)%list in
              first_inv stored alive (desired_keys_of gs') gs' acc' s')).
  - cbn. now rewrite app_nil_r.
  - intros done step rest acc1 s1 Hl H1. cbn zeta in *.
    eapply wp_mono; [apply first_run_step_errors; [exact H1| |] | | auto].
    + rewrite Hl in Hnd. unfold run_groups in Hnd.
      rewrite flat_map_app in Hnd. cbn [flat_map] in Hnd.
      rewrite !map_app, step_groups_refs in Hnd.
      rewrite map_app. fold (run_groups self done).
      rewrite !app_assoc in Hnd. apply NoDup_app_l in Hnd.
      exact Hnd.
    + intros dash Hd. apply Hok; [|exact Hd].
      rewrite Hl. apply in_or_app. right. now left.
    + intros acc2 s2 H2. cbn beta zeta in *.
      unfold run_groups in *. rewrite flat_map_app. cbn [flat_map].
      now rewrite app_nil_r, app_assoc.
  - intros acc1 s1 H1. exact H1.
Qed.

(** X17: a first deployment after a validation that returned does not fail
    on a definition, nor on the state.  Take a workspace that keeps what it
    is given and holds no state file, groups with different references, and
    a new instance.  Then no state file is decoded and no state key is taken
    apart, and an error that the run raises is an error of the workspace:
    the [DatabricksError] of a call, a [KeyError] on a key that the data
    sources or the state lack, or the [ValueError] of having no warehouse.
    It raises no [SyntaxError], no [TypeError], no [StopIteration] and no
    other [ValueError]. *)
Theorem validated_first_run_fails_on_the_workspace (w0 : World P)
    (s0 s0' s' : Sys P) (e : exn) :
  stored w0 = None ->
  NoDup (group_refs self) ->
  validate P self s0 = (Return tt, s0') ->
  create_dashboards P self (init P w0) = (Raise e, s') ->
  workspace_error e.
Proof.
  intros Hw Hnd Hv Hr.
  pose proof (validate_returns_ok P self s0 s0' Hv) as Hok.
  assert (H : wp (create_dashboards P self)
                (fun _ _ => True) (fun e _ => workspace_error e) (init P w0)).
  { unfold create_dashboards. apply wp_bind.
    eapply wp_mono;
      [apply (first_run_groups_errors [] _ ([], [])) | | auto].
    - unfold first_inv, dashboards_agree, queries_alive, Dict.wf. cbn.
      repeat split; auto using NoDup_nil; tauto.
    - cbn [map app]. rewrite run_groups_refs. exact Hnd.
    - intros step dash Hs Hd. exact (Hok step dash Hs Hd).
    - intros acc s1 H. cbn [app] in H. cbn beta zeta.
      destruct H as (H1 & H2 & H3 & H4 & H5 & H6).
      destruct acc as [d qpd]. cbn [fst snd] in *. subst qpd.
      apply wp_bind. unfold wp at 1.
      rewrite save_all_desired; [|intros k; apply H4 | exact H2].
      unfold remote.
      destruct (ws P _ (world s1)) as [[u|code] w1];
        [exact I | apply workspace_error_db]. }
  unfold wp in H. now rewrite Hr in H.
Qed.

End FirstRunErrors.

Lemma validated_first_run_fails_on_the_workspace_witness :
  let self := cfg_missing_warehouse in
  let v := validate Fake.platform self (init Fake.platform Fake.empty) in
  let r := create_dashboards Fake.platform self (init Fake.platform Fake.empty) in
  fst v = Return tt
  /\ fst r = Raise (KeyError "missing")
  /\ workspace_error (KeyError "missing").
Proof.
  intros self v r.
  assert (Hnd : NoDup (group_refs self)).
  { vm_compute. repeat constructor; cbn; intuition discriminate. }
  assert (Ev : validate Fake.platform self (init Fake.platform Fake.empty)
               = (Return tt, snd v)) by (vm_compute; reflexivity).
  assert (Er : create_dashboards Fake.platform self
                 (init Fake.platform Fake.empty)
               = (Raise (KeyError "missing"), snd r))
    by (vm_compute; reflexivity).
  split; [vm_compute; reflexivity|].
  split; [vm_compute; reflexivity|].
  exact (validated_first_run_fails_on_the_workspace Fake.platform self
           (fake_stored "/remote/state.json") fake_alive
           (fake_faithful "/remote/state.json") Fake.empty _ _ _ _
           eq_refl Hnd Ev Er).
Defined.
